(** * Face recognition store: matching, training and persistence

    A shallow embedding of [src/services/FaceRecognitionService.ts] (the
    authoritative descriptor store and the matcher) and of
    [src/services/FaceDatabase.ts] (training, statistics, export and
    import over a view that mirrors that store), followed by the
    properties of the two.

    Conventions of the embedding.
    - A JavaScript number is a real number ([R]): no rounding, no NaN.
      [Infinity], the initial [bestDistance] of the scan, is a value of
      its own ([Num.Infinity]).  Where [NaN] or the rounding of doubles
      decides a property, the function is embedded a second time: over
      numbers with [NaN] and the infinities ([Configuration]) or over
      binary64 floats ([Double]).
    - A [Float32Array] is a [list R]; reading past its end is
      [undefined], here [None].
    - A string is a sequence of code units below 256 ([string]).
    - A [Map] keeps insertion order: an association list, [set]
      replacing in place or appending, [delete] removing the entry of
      the key.
    - [new Date()] reads a clock; every operation receives the reading
      as its argument [now] (milliseconds).
    - An object with methods is a record of its fields; a method takes
      the record and returns the new one next to its result.
    - The detection models are taken as loaded, so [initialize]
      succeeds; the outcome of [extractFaceDescriptor] (the inference of
      face-api.js on a video frame) is an input of the operations that
      call it.  The choice [extractFaceDescriptor] makes among the
      detections is embedded on its own ([FaceExtraction]), with the
      answer of the detector as its input.  Writes to the console are
      left out.
    - [JSON.parse], [JSON.stringify], the typed-array and [Date]
      constructors and [toISOString] are built-ins of the host: the
      record [Host] holds them. *)

From Stdlib Require Import String Ascii List Bool Arith ZArith NArith.
From Stdlib Require Import DecimalString Decimal.
From Stdlib Require Import Reals Lra Lia.
From Stdlib Require Floats.
Import ListNotations.

Local Open Scope string_scope.
Local Open Scope list_scope.

(* ================================================================== *)
(** * JavaScript strings: the operations behind [generateFaceId] *)
(* ================================================================== *)

Module JsString.

Definition code (c : ascii) : N := N_of_ascii c.

Definition between (lo hi : N) (c : ascii) : bool :=
  (lo <=? code c)%N && (code c <=? hi)%N.

(** [String.prototype.toLowerCase] on one code unit below 256: the
    letters A-Z and the accented capitals U+00C0..U+00DE (the
    multiplication sign U+00D7 apart) move up by 32. *)
Definition lower_char (c : ascii) : ascii :=
  if between 65 90 c then ascii_of_N (code c + 32)
  else if between 192 222 c && negb (code c =? 215)%N
       then ascii_of_N (code c + 32)
       else c.

Fixpoint toLowerCase (s : string) : string :=
  match s with
  | EmptyString => EmptyString
  | String c r => String (lower_char c) (toLowerCase r)
  end.

(** The class [\s] below 256: TAB, LF, VT, FF, CR, SPACE and the
    no-break space U+00A0. *)
Definition is_space (c : ascii) : bool :=
  between 9 13 c || (code c =? 32)%N || (code c =? 160)%N.

(** [s.replace(/\s+/g, '_')]: each maximal run of white space becomes
    one underscore.  [in_run] tells that the previous unit was white
    space, whose underscore is already written. *)
Fixpoint collapse_spaces (in_run : bool) (s : string) : string :=
  match s with
  | EmptyString => EmptyString
  | String c r =>
      if is_space c
      then if in_run then collapse_spaces true r
           else String "_" (collapse_spaces true r)
      else String c (collapse_spaces false r)
  end.

Definition replace_spaces (s : string) : string := collapse_spaces false s.

(** The class [[a-z0-9_]]. *)
Definition is_id_char (c : ascii) : bool :=
  between 97 122 c || between 48 57 c || (code c =? 95)%N.

(** [s.replace(/[^a-z0-9_]/g, '')]. *)
Fixpoint strip_non_id (s : string) : string :=
  match s with
  | EmptyString => EmptyString
  | String c r =>
      if is_id_char c then String c (strip_non_id r) else strip_non_id r
  end.

(** Every unit of the string is in [[a-z0-9_]]. *)
Fixpoint all_id (s : string) : bool :=
  match s with
  | EmptyString => true
  | String c r => is_id_char c && all_id r
  end.

(** Decimal rendering of an array index, as a template literal does. *)
Definition of_nat (n : nat) : string := NilEmpty.string_of_uint (Nat.to_uint n).

End JsString.

(* ================================================================== *)
(** * Thrown errors and results *)
(* ================================================================== *)

(** The errors the two services throw or catch; [message_of] is what
    [error.message] reads. *)
Inductive exn : Type :=
| Error (message : string)
| TypeError (message : string)
| RangeError (message : string)
| SyntaxError (message : string).

Definition message_of (e : exn) : string :=
  match e with
  | Error m | TypeError m | RangeError m | SyntaxError m => m
  end.

(** A computation that returns or throws. *)
Inductive result (A : Type) : Type :=
| Ok (a : A)
| Throw (e : exn).
Arguments Ok {A} a.
Arguments Throw {A} e.

Definition rbind {A B} (r : result A) (k : A -> result B) : result B :=
  match r with
  | Ok a => k a
  | Throw e => Throw e
  end.

Notation "'let?' x ':=' r 'in' k" := (rbind r (fun x => k))
  (at level 10, x name, r at level 100, k at level 200).

(** [xs.map(f)] for an [f] that may throw: the first throw escapes. *)
Fixpoint map_result {A B} (f : A -> result B) (xs : list A) : result (list B) :=
  match xs with
  | [] => Ok []
  | x :: r =>
      let? y := f x in
      let? ys := map_result f r in
      Ok (y :: ys)
  end.

(* ================================================================== *)
(** * Numbers *)
(* ================================================================== *)

Module Num.
Local Open Scope R_scope.

Definition leb (x y : R) : bool := if Rle_dec x y then true else false.
Definition ltb (x y : R) : bool := if Rlt_dec x y then true else false.
Definition eqb (x y : R) : bool := if Req_dec_T x y then true else false.

(** A number that may be [Infinity]. *)
Inductive ext : Type :=
| Finite (x : R)
| Infinity.

(** [x < b] for a finite [x]. *)
Definition lt_ext (x : R) (b : ext) : bool :=
  match b with
  | Finite y => ltb x y
  | Infinity => true
  end.


(** [Math.round]: the integer nearest to [x], halves going up. *)
Definition round (x : R) : Z := (up (x + / 2) - 1)%Z.

End Num.

(* ================================================================== *)
(** * Insertion-ordered maps *)
(* ================================================================== *)

Module JsMap.
Section WithKey.
Context {K V : Type}.
Variable eqb : K -> K -> bool.

Definition t := list (K * V).

Definition empty : t := [].

Fixpoint get (m : t) (k : K) : option V :=
  match m with
  | [] => None
  | (k', v) :: r => if eqb k' k then Some v else get r k
  end.

(** [set] keeps the position of a key that is present and appends a
    new key at the end. *)
Fixpoint set (m : t) (k : K) (v : V) : t :=
  match m with
  | [] => [(k, v)]
  | (k', v') :: r =>
      if eqb k' k then (k, v) :: r else (k', v') :: set r k v
  end.

Fixpoint delete (m : t) (k : K) : t :=
  match m with
  | [] => []
  | (k', v') :: r => if eqb k' k then r else (k', v') :: delete r k
  end.

Definition size (m : t) : nat := length m.
Definition keys (m : t) : list K := map fst m.
Definition values (m : t) : list V := map snd m.
End WithKey.
Arguments t : clear implicits.

End JsMap.

(* ================================================================== *)
(** * The shared types ([src/types]) *)
(* ================================================================== *)

Definition Float32Array := list R.

(** A valid [Date], in milliseconds. *)
Definition Date := Z.

Record KnownFace : Type := mkKnownFace {
  id : string;
  name : string;
  descriptors : list Float32Array;
  addedAt : Date;
  lastSeen : option Date
}.

Record FaceMatch : Type := mkFaceMatch {
  personName : string;
  confidence : R;
  distance : R;
  descriptorId : string
}.

(** [RecognitionResult]; its [processingTime], a stopwatch reading, is
    left out. *)
Record RecognitionResult : Type := mkRecognitionResult {
  isMatch : bool;
  match_ : option FaceMatch;
  resultConfidence : R
}.

(** The type [FaceDatabase] of [src/types]: the store aggregate. *)
Record FaceStore : Type := mkFaceStore {
  faces : JsMap.t string KnownFace;
  totalDescriptors : Z;
  lastUpdated : Date
}.

(* ================================================================== *)
(** * FaceRecognitionService: the authoritative store and the matcher *)
(* ================================================================== *)

(** A loop whose body may throw: the first throw ends it. *)
Fixpoint fold_result {A B} (f : A -> B -> result A) (l : list B) (a : A)
  : result A :=
  match l with
  | [] => Ok a
  | b :: r => let? a' := f a b in fold_result f r a'
  end.

Module FaceRecognitionService.
Local Open Scope R_scope.

Record t : Type := mk {
  faceDatabase : FaceStore;
  RECOGNITION_THRESHOLD : R;
  MIN_CONFIDENCE : R;
  MAX_DISTANCE : R
}.

Definition constructor (now : Date) : t :=
  {| faceDatabase :=
       {| faces := JsMap.empty; totalDescriptors := 0; lastUpdated := now |};
     RECOGNITION_THRESHOLD := 0.6;
     MIN_CONFIDENCE := 0.5;
     MAX_DISTANCE := 0.6 |}.

Definition with_faceDatabase (s : t) (db : FaceStore) : t :=
  {| faceDatabase := db;
     RECOGNITION_THRESHOLD := RECOGNITION_THRESHOLD s;
     MIN_CONFIDENCE := MIN_CONFIDENCE s;
     MAX_DISTANCE := MAX_DISTANCE s |}.

Definition generateFaceId (name : string) : string :=
  JsString.strip_non_id (JsString.replace_spaces (JsString.toLowerCase name)).

Definition distanceToConfidence (distance : R) : R :=
  let confidence := exp (- distance * 2) in
  Rmax 0 (Rmin 1 confidence).

(** One turn of the summing loop at index [i]. *)
Definition addSquare (desc1 desc2 : Float32Array) (sum : R) (i : nat) : R :=
  match nth_error desc1 i, nth_error desc2 i with
  | Some val1, Some val2 =>
      let diff := val1 - val2 in sum + diff * diff
  | _, _ => sum
  end.

Definition calculateEuclideanDistance (desc1 desc2 : Float32Array)
  : result R :=
  if negb (length desc1 =? length desc2)%nat
  then Throw (Error "Descriptors must have the same length")
  else
    let sum := fold_left (addSquare desc1 desc2) (seq 0 (length desc1)) 0 in
    Ok (sqrt sum).

(** The two variables of the scan: [bestMatch] and [bestDistance]. *)
Definition scan : Type := (option FaceMatch * Num.ext)%type.

(** The body of the inner loop at index [i] of [knownFace.descriptors]. *)
Definition scanDescriptor (s : t) (descriptor : Float32Array)
    (faceId : string) (knownFace : KnownFace) (acc : scan) (i : nat)
  : result scan :=
  match nth_error (descriptors knownFace) i with
  | None => Ok acc
  | Some knownDescriptor =>
      let? distance := calculateEuclideanDistance descriptor knownDescriptor in
      if Num.lt_ext distance (snd acc) && Num.leb distance (MAX_DISTANCE s)
      then Ok (Some {| personName := name knownFace;
                       confidence := distanceToConfidence distance;
                       distance := distance;
                       descriptorId := faceId ++ "_" ++ JsString.of_nat i |},
               Num.Finite distance)
      else Ok acc
  end.

(** The body of the outer loop, at one entry of the map. *)
Definition scanFace (s : t) (descriptor : Float32Array) (acc : scan)
    (entry : string * KnownFace) : result scan :=
  let (faceId, knownFace) := entry in
  fold_result (scanDescriptor s descriptor faceId knownFace)
              (seq 0 (length (descriptors knownFace))) acc.

Definition findBestMatch (s : t) (descriptor : Float32Array)
  : result (option FaceMatch) :=
  let? acc := fold_result (scanFace s descriptor)
                          (faces (faceDatabase s)) (None, Num.Infinity) in
  Ok (fst acc).

(** [recognizeFace], given what [extractFaceDescriptor] returned for
    the frame; a throw of the scan is caught. *)
Definition recognizeFace (s : t) (extracted : option Float32Array)
  : RecognitionResult :=
  match extracted with
  | None => {| isMatch := false; match_ := None; resultConfidence := 0 |}
  | Some descriptor =>
      match findBestMatch s descriptor with
      | Ok (Some m) =>
          if Num.leb (MIN_CONFIDENCE s) (confidence m)
             && Num.leb (distance m) (MAX_DISTANCE s)
          then {| isMatch := true; match_ := Some m;
                  resultConfidence := confidence m |}
          else {| isMatch := false; match_ := None;
                  resultConfidence := confidence m |}
      | Ok None =>
          {| isMatch := false; match_ := None; resultConfidence := 0 |}
      | Throw _ =>
          {| isMatch := false; match_ := None; resultConfidence := 0 |}
      end
  end.

(** [addKnownFace], given what [extractFaceDescriptor] returned. *)
Definition addKnownFace (now : Date) (name : string)
    (extracted : option Float32Array) (s : t) : bool * t :=
  match extracted with
  | None => (false, s)
  | Some descriptor =>
      let faceId := generateFaceId name in
      let db := faceDatabase s in
      let faces' :=
        match JsMap.get String.eqb (faces db) faceId with
        | Some (mkKnownFace id0 name0 descriptors0 addedAt0 _) =>
            JsMap.set String.eqb (faces db) faceId
              (mkKnownFace id0 name0 (descriptors0 ++ [descriptor])
                           addedAt0 (Some now))
        | None =>
            JsMap.set String.eqb (faces db) faceId
              {| id := faceId;
                 name := name;
                 descriptors := [descriptor];
                 addedAt := now;
                 lastSeen := Some now |}
        end in
      (true,
       with_faceDatabase s
         {| faces := faces';
            totalDescriptors := totalDescriptors db + 1;
            lastUpdated := now |})
  end.

Definition removeKnownFace (now : Date) (name : string) (s : t) : bool * t :=
  let faceId := generateFaceId name in
  let db := faceDatabase s in
  match JsMap.get String.eqb (faces db) faceId with
  | Some face =>
      (true,
       with_faceDatabase s
         {| faces := JsMap.delete String.eqb (faces db) faceId;
            totalDescriptors :=
              totalDescriptors db - Z.of_nat (length (descriptors face));
            lastUpdated := now |})
  | None => (false, s)
  end.

Definition getKnownFaces (s : t) : list KnownFace :=
  JsMap.values (faces (faceDatabase s)).

Record DatabaseStats : Type := mkStats {
  totalFaces : nat;
  statsTotalDescriptors : Z;
  statsLastUpdated : Date
}.

Definition getDatabaseStats (s : t) : DatabaseStats :=
  {| totalFaces := JsMap.size (faces (faceDatabase s));
     statsTotalDescriptors := totalDescriptors (faceDatabase s);
     statsLastUpdated := lastUpdated (faceDatabase s) |}.

Definition clearDatabase (now : Date) (s : t) : t :=
  with_faceDatabase s
    {| faces := JsMap.empty; totalDescriptors := 0; lastUpdated := now |}.

Record ThresholdOptions : Type := mkOptions {
  recognitionThreshold : option R;
  minConfidence : option R;
  maxDistance : option R
}.

Definition updateThresholds (options : ThresholdOptions) (s : t) : t :=
  {| faceDatabase := faceDatabase s;
     RECOGNITION_THRESHOLD :=
       match recognitionThreshold options with
       | Some x => Rmax 0 (Rmin 1 x)
       | None => RECOGNITION_THRESHOLD s
       end;
     MIN_CONFIDENCE :=
       match minConfidence options with
       | Some x => Rmax 0 (Rmin 1 x)
       | None => MIN_CONFIDENCE s
       end;
     MAX_DISTANCE :=
       match maxDistance options with
       | Some x => Rmax 0 (Rmin 2 x)
       | None => MAX_DISTANCE s
       end |}.

Definition getConfiguration (s : t) : R * R * R :=
  (RECOGNITION_THRESHOLD s, MIN_CONFIDENCE s, MAX_DISTANCE s).

End FaceRecognitionService.

(* ================================================================== *)
(** * Parsed JSON and the host's built-ins *)
(* ================================================================== *)

#[local] Set Warnings "-register-all".

(** A value as [JSON.parse] returns it; the members of an object are its
    own properties, each key once, in the order of the text. *)
Inductive json : Type :=
| JNull
| JBool (b : bool)
| JNum (x : R)
| JStr (s : string)
| JArr (items : list json)
| JObj (members : list (string * json)).

(** A value read from a parsed document: [None] is [undefined]. *)
Definition jsval : Type := option json.

(** A [Date] object, which may be the invalid date ([None]). *)
Definition JsDate : Type := option Z.

(** What the embedding takes from the JavaScript host. *)
Record Host : Type := mkHost {
  (** [JSON.parse]: a value, or a [SyntaxError]. *)
  JSON_parse : string -> result json;
  (** [JSON.stringify(value, null, 2)]. *)
  JSON_stringify : json -> string;
  (** [new Float32Array(value)] on a parsed value. *)
  Float32Array_new : json -> result Float32Array;
  (** [new Date(value)] on a value read from a parsed document. *)
  Date_new : jsval -> JsDate;
  (** [toISOString] of a valid date. *)
  toISOString : Z -> string;
  (** The message of the [TypeError] for reading the named property of
      [null]. *)
  nullPropertyMessage : string -> string
}.

Module Json.

Fixpoint lookup (members : list (string * json)) (key : string) : jsval :=
  match members with
  | [] => None
  | (k, v) :: r => if String.eqb k key then Some v else lookup r key
  end.

(** [value.key] for the property names the importer reads ([faces],
    [id], [name], [descriptors], [addedAt], [lastSeen]): own members
    of an object, [undefined] on an array or a primitive, a
    [TypeError] on [null]. *)
Definition prop (h : Host) (value : json) (key : string) : result jsval :=
  match value with
  | JNull => Throw (TypeError (nullPropertyMessage h key))
  | JObj members => Ok (lookup members key)
  | _ => Ok None
  end.

Definition truthy (v : jsval) : bool :=
  match v with
  | None => false
  | Some JNull => false
  | Some (JBool b) => b
  | Some (JNum x) => negb (Num.eqb x 0)
  | Some (JStr s) => negb (String.eqb s EmptyString)
  | Some (JArr _) => true
  | Some (JObj _) => true
  end.

(** [Array.isArray]. *)
Definition isArray (v : jsval) : bool :=
  match v with
  | Some (JArr _) => true
  | _ => false
  end.

(** Key equality of a [Map] (SameValueZero).  An array or an object
    is a reference; those that reach a map here are distinct nodes of
    a parsed document, equal to no other key. *)
Definition sameValueZero (a b : jsval) : bool :=
  match a, b with
  | None, None => true
  | Some JNull, Some JNull => true
  | Some (JBool x), Some (JBool y) => Bool.eqb x y
  | Some (JNum x), Some (JNum y) => Num.eqb x y
  | Some (JStr x), Some (JStr y) => String.eqb x y
  | _, _ => false
  end.

(** A property of an object literal handed to [JSON.stringify]: left
    out when its value is [undefined]. *)
Definition member (key : string) (v : jsval) : list (string * json) :=
  match v with
  | Some x => [(key, x)]
  | None => []
  end.

End Json.

(* ================================================================== *)
(** * FaceDatabase: training, statistics and persistence over a view *)
(* ================================================================== *)

(** A face as the view holds it at run time.  The faces pulled from the
    recognition service are [KnownFace]s; the faces [importDatabase]
    builds hold whatever the document gave for [id] and [name], and
    dates that may be invalid. *)
Record ViewFace : Type := mkViewFace {
  vid : jsval;
  vname : jsval;
  vdescriptors : list Float32Array;
  vaddedAt : JsDate;
  vlastSeen : option JsDate
}.

Definition of_known (f : KnownFace) : ViewFace :=
  {| vid := Some (JStr (id f));
     vname := Some (JStr (name f));
     vdescriptors := descriptors f;
     vaddedAt := Some (addedAt f);
     vlastSeen := option_map Some (lastSeen f) |}.

(** The field [database] of a [FaceDatabase] object. *)
Record View : Type := mkView {
  vfaces : JsMap.t jsval ViewFace;
  vtotalDescriptors : Z;
  vlastUpdated : Date
}.

(** One element of [faceDetections]: a hole of the array, or a detection
    together with what [extractFaceDescriptor] returns for it. *)
Inductive sample : Type :=
| Missing
| Detection (extracted : option Float32Array).

Module FaceDatabase.
Local Open Scope nat_scope.

Record t : Type := mk {
  database : View;
  faceRecognitionService : FaceRecognitionService.t;
  (** The item of [localStorage] under [STORAGE_KEY]. *)
  localStorage : option string
}.

Definition STORAGE_KEY : string := "facial_recognition_database".
Definition MAX_DESCRIPTORS_PER_FACE : nat := 10.
Definition MIN_TRAINING_SAMPLES : nat := 3.

Definition generateFaceId (name : string) : string :=
  JsString.strip_non_id (JsString.replace_spaces (JsString.toLowerCase name)).

Definition key_of (faceId : string) : jsval := Some (JStr faceId).

Definition get_face (d : t) (faceId : string) : option ViewFace :=
  JsMap.get Json.sameValueZero (vfaces (database d)) (key_of faceId).

Definition with_database (d : t) (v : View) : t :=
  {| database := v;
     faceRecognitionService := faceRecognitionService d;
     localStorage := localStorage d |}.

Definition with_service (d : t) (s : FaceRecognitionService.t) : t :=
  {| database := database d;
     faceRecognitionService := s;
     localStorage := localStorage d |}.

Definition with_storage (d : t) (item : option string) : t :=
  {| database := database d;
     faceRecognitionService := faceRecognitionService d;
     localStorage := item |}.

Definition syncFromRecognitionService (d : t) : t :=
  let knownFaces :=
    FaceRecognitionService.getKnownFaces (faceRecognitionService d) in
  let stats :=
    FaceRecognitionService.getDatabaseStats (faceRecognitionService d) in
  with_database d
    {| vfaces :=
         fold_left
           (fun m face =>
              JsMap.set Json.sameValueZero m (key_of (id face)) (of_known face))
           knownFaces JsMap.empty;
       vtotalDescriptors := FaceRecognitionService.statsTotalDescriptors stats;
       vlastUpdated := FaceRecognitionService.statsLastUpdated stats |}.

(** The recognition service has no entry point for descriptors that
    are already computed: the service is cleared and nothing is
    written to it. *)
Definition syncToRecognitionService (now : Date) (d : t) : t :=
  with_service d
    (FaceRecognitionService.clearDatabase now (faceRecognitionService d)).

(** The outcome of [trainFace]. *)
Module TrainingOutcome.
Record t : Type := mk {
  success : bool;
  samplesAdded : nat;
  totalSamples : nat;
  message : string
}.
End TrainingOutcome.

(** The outcome of [importDatabase]. *)
Module ImportOutcome.
Record t : Type := mk {
  success : bool;
  facesImported : nat;
  descriptorsImported : nat;
  message : string
}.
End ImportOutcome.

(** What [getStatistics] returns. *)
Module Statistics.
Record t : Type := mk {
  totalFaces : nat;
  totalDescriptors : Z;
  wellTrainedFaces : nat;
  averageDescriptorsPerFace : R;
  lastUpdated : Date;
  storageSize : nat
}.
End Statistics.

(** What [validateTraining] returns. *)
Module Validation.
Record t : Type := mk {
  isValid : bool;
  sampleCount : nat;
  recommendations : list string
}.
End Validation.

Section WithHost.
Variable h : Host.

(** [date.toISOString()], a [RangeError] on the invalid date. *)
Definition isoString (date : JsDate) : result string :=
  match date with
  | Some ms => Ok (toISOString h ms)
  | None => Throw (RangeError "Invalid time value")
  end.

(** One element of [exportData.faces]. *)
Definition exportFace (entry : jsval * ViewFace) : result json :=
  let (key, face) := entry in
  let? added := isoString (vaddedAt face) in
  let? seen :=
    match vlastSeen face with
    | Some date => let? text := isoString date in Ok (Some (JStr text))
    | None => Ok None
    end in
  Ok (JObj (Json.member "id" key
            ++ Json.member "name" (vname face)
            ++ [("descriptors",
                 JArr (map (fun desc => JArr (map JNum desc))
                           (vdescriptors face)));
                ("addedAt", JStr added)]
            ++ Json.member "lastSeen" seen)).

Definition exportData (now : Date) (v : View) : result json :=
  let? exported := map_result exportFace (vfaces v) in
  Ok (JObj [("faces", JArr exported);
            ("totalDescriptors", JNum (IZR (vtotalDescriptors v)));
            ("lastUpdated", JStr (toISOString h (vlastUpdated v)));
            ("exportedAt", JStr (toISOString h now))]).

Definition exportDatabase (now : Date) (d : t) : result string * t :=
  let d1 := syncFromRecognitionService d in
  (let? data := exportData now (database d1) in
   Ok (JSON_stringify h data),
   d1).

(** [saveToStorage]; a throw of the export is caught and logged.  The
    write to [localStorage] itself is taken to succeed. *)
Definition saveToStorage (now : Date) (d : t) : t :=
  match exportDatabase now d with
  | (Ok serializedData, d1) => with_storage d1 (Some serializedData)
  | (Throw _, d1) => d1
  end.

Definition clearDatabase (now : Date) (d : t) : t :=
  let s := FaceRecognitionService.clearDatabase now (faceRecognitionService d) in
  saveToStorage now
    {| database :=
         {| vfaces := JsMap.empty; vtotalDescriptors := 0; vlastUpdated := now |};
       faceRecognitionService := s;
       localStorage := localStorage d |}.

(** ** Training *)

Definition reached_limit (d : t) (faceId : string) : bool :=
  match get_face d faceId with
  | Some existingFace =>
      MAX_DESCRIPTORS_PER_FACE <=? length (vdescriptors existingFace)
  | None => false
  end.

(** The [for] loop of [trainFace] over the detections that remain;
    the optional [onProgress] callback, which only observes the
    loop, is left out. *)
Fixpoint trainLoop (now : Date) (name faceId : string)
    (faceDetections : list sample) (samplesAdded : nat) (d : t)
  : nat * t :=
  match faceDetections with
  | [] => (samplesAdded, d)
  | Missing :: rest => trainLoop now name faceId rest samplesAdded d
  | Detection extracted :: rest =>
      let (success, s) :=
        FaceRecognitionService.addKnownFace
          now name extracted (faceRecognitionService d) in
      let samplesAdded := if success then S samplesAdded else samplesAdded in
      let d1 := syncFromRecognitionService (with_service d s) in
      if reached_limit d1 faceId
      then (samplesAdded, d1)
      else trainLoop now name faceId rest samplesAdded d1
  end.

Definition trainFace (now : Date) (name : string)
    (faceDetections : list sample) (d : t) : TrainingOutcome.t * t :=
  match faceDetections with
  | [] =>
      ({| TrainingOutcome.success := false;
          TrainingOutcome.samplesAdded := 0;
          TrainingOutcome.totalSamples := 0;
          TrainingOutcome.message := "No face detections provided for training" |},
       d)
  | _ =>
      let faceId := generateFaceId name in
      let (samplesAdded, d1) := trainLoop now name faceId faceDetections 0 d in
      let d2 := saveToStorage now (syncFromRecognitionService d1) in
      let totalSamples :=
        match get_face d2 faceId with
        | Some face => length (vdescriptors face)
        | None => 0
        end in
      let isWellTrained := MIN_TRAINING_SAMPLES <=? totalSamples in
      ({| TrainingOutcome.success := 0 <? samplesAdded;
          TrainingOutcome.samplesAdded := samplesAdded;
          TrainingOutcome.totalSamples := totalSamples;
          TrainingOutcome.message :=
            if isWellTrained
            then "Successfully trained " ++ name ++ " with "
                 ++ JsString.of_nat totalSamples ++ " samples"
            else "Added " ++ JsString.of_nat samplesAdded ++ " samples for "
                 ++ name ++ ". Need "
                 ++ JsString.of_nat (MIN_TRAINING_SAMPLES - totalSamples)
                 ++ " more for optimal recognition" |},
       d2)
  end.

Definition addTrainingSample (now : Date) (name : string)
    (extracted : option Float32Array) (d : t) : bool * t :=
  let (success, s) :=
    FaceRecognitionService.addKnownFace
      now name extracted (faceRecognitionService d) in
  if success
  then (true, saveToStorage now (syncFromRecognitionService (with_service d s)))
  else (false, with_service d s).

Definition removeFace (now : Date) (name : string) (d : t) : bool * t :=
  let (success, s) :=
    FaceRecognitionService.removeKnownFace
      now name (faceRecognitionService d) in
  if success
  then
    let faceId := generateFaceId name in
    (true,
     saveToStorage now
       {| database :=
            {| vfaces := JsMap.delete Json.sameValueZero
                           (vfaces (database d)) (key_of faceId);
               vtotalDescriptors := vtotalDescriptors (database d);
               vlastUpdated := now |};
          faceRecognitionService := s;
          localStorage := localStorage d |})
  else (false, with_service d s).

(** ** Reading through the view *)

Definition isWellTrained (face : ViewFace) : bool :=
  MIN_TRAINING_SAMPLES <=? length (vdescriptors face).

Definition trainingProgress (face : ViewFace) : R :=
  Rmin (INR (length (vdescriptors face)) / INR MIN_TRAINING_SAMPLES) 1.

Definition getKnownFaces (d : t) : list (ViewFace * bool * R) * t :=
  let d1 := syncFromRecognitionService d in
  (map (fun face => (face, isWellTrained face, trainingProgress face))
       (JsMap.values (vfaces (database d1))),
   d1).

Definition getFace (name : string) (d : t)
  : option (ViewFace * bool * R) * t :=
  let d1 := syncFromRecognitionService d in
  let faceId := generateFaceId name in
  (match get_face d1 faceId with
   | None => None
   | Some face => Some (face, isWellTrained face, trainingProgress face)
   end,
   d1).

(** UTF-8 size of the stored item, as [new Blob([text]).size]. *)
Fixpoint blobSize (text : string) : nat :=
  match text with
  | EmptyString => 0
  | String c r =>
      (if (JsString.code c <? 128)%N then 1 else 2) + blobSize r
  end.

Definition getStorageSize (d : t) : nat :=
  match localStorage d with
  | Some storedData =>
      if String.eqb storedData EmptyString then 0 else blobSize storedData
  | None => 0
  end.

Definition getStatistics (d : t) : Statistics.t * t :=
  let d1 := syncFromRecognitionService d in
  let faces := JsMap.values (vfaces (database d1)) in
  let wellTrainedFaces := length (filter isWellTrained faces) in
  let averageDescriptors : R :=
    if 0 <? length faces
    then
      let total :=
        fold_left (fun sum face => sum + length (vdescriptors face)) faces 0 in
      (INR total / INR (length faces))%R
    else 0%R in
  ({| Statistics.totalFaces := JsMap.size (vfaces (database d1));
      Statistics.totalDescriptors := vtotalDescriptors (database d1);
      Statistics.wellTrainedFaces := wellTrainedFaces;
      Statistics.averageDescriptorsPerFace :=
        (IZR (Num.round (averageDescriptors * 100)) / 100)%R;
      Statistics.lastUpdated := vlastUpdated (database d1);
      Statistics.storageSize := getStorageSize d1 |},
   d1).

Definition validateTraining (name : string) (d : t) : Validation.t * t :=
  let d1 := syncFromRecognitionService d in
  let faceId := generateFaceId name in
  (match get_face d1 faceId with
   | None =>
       {| Validation.isValid := false;
          Validation.sampleCount := 0;
          Validation.recommendations := ["Face not found in database"] |}
   | Some face =>
       let n := length (vdescriptors face) in
       {| Validation.isValid := MIN_TRAINING_SAMPLES <=? n;
          Validation.sampleCount := n;
          Validation.recommendations :=
            (if n <? MIN_TRAINING_SAMPLES
             then [("Add " ++ JsString.of_nat (MIN_TRAINING_SAMPLES - n)
                    ++ " more training samples")%string]
             else [])
            ++ (if n <? 5
                then ["Consider adding more samples for better accuracy"]
                else [])
            ++ (if n =? MAX_DESCRIPTORS_PER_FACE
                then ["Maximum training samples reached"]
                else []) |}
   end,
   d1).

(** ** Import *)

(** The object literal of the loop body of [importDatabase]: the
    face built from one element of [importData.faces].  Only an array
    has a [map] to call; the error thrown otherwise is caught by the
    loop, and its message reaches the console only. *)
Definition importFace (faceData : json) : result ViewFace :=
  let? id := Json.prop h faceData "id" in
  let? name := Json.prop h faceData "name" in
  let? descriptors := Json.prop h faceData "descriptors" in
  let? descriptors :=
    match descriptors with
    | Some (JArr items) => map_result (Float32Array_new h) items
    | _ => Throw (TypeError "faceData.descriptors.map is not a function")
    end in
  let? addedAt := Json.prop h faceData "addedAt" in
  let? lastSeen := Json.prop h faceData "lastSeen" in
  Ok {| vid := id;
        vname := name;
        vdescriptors := descriptors;
        vaddedAt := Date_new h addedAt;
        vlastSeen :=
          if Json.truthy lastSeen then Some (Date_new h lastSeen) else None |}.

(** The loop of [importDatabase] over the elements that remain.  A
    throw of the body is caught and the element skipped; the handler
    reads [faceData.name] for its warning, and a throw of that read
    leaves the loop. *)
Fixpoint importFaces (elements : list json) (v : View)
    (facesImported descriptorsImported : nat) : result (nat * nat) * View :=
  match elements with
  | [] => (Ok (facesImported, descriptorsImported), v)
  | faceData :: rest =>
      match importFace faceData with
      | Ok face =>
          importFaces rest
            {| vfaces := JsMap.set Json.sameValueZero (vfaces v) (vid face) face;
               vtotalDescriptors := vtotalDescriptors v;
               vlastUpdated := vlastUpdated v |}
            (S facesImported)
            (descriptorsImported + length (vdescriptors face))
      | Throw _ =>
          match Json.prop h faceData "name" with
          | Ok _ => importFaces rest v facesImported descriptorsImported
          | Throw e => (Throw e, v)
          end
      end
  end.

Definition importFailed (e : exn) : ImportOutcome.t :=
  {| ImportOutcome.success := false;
     ImportOutcome.facesImported := 0;
     ImportOutcome.descriptorsImported := 0;
     ImportOutcome.message := "Import failed: " ++ message_of e |}.

Definition importDatabase (now : Date) (jsonData : string) (d : t)
  : ImportOutcome.t * t :=
  match JSON_parse h jsonData with
  | Throw e => (importFailed e, d)
  | Ok importData =>
      match Json.prop h importData "faces" with
      | Throw e => (importFailed e, d)
      | Ok faces =>
          if negb (Json.truthy faces) || negb (Json.isArray faces)
          then ({| ImportOutcome.success := false;
                   ImportOutcome.facesImported := 0;
                   ImportOutcome.descriptorsImported := 0;
                   ImportOutcome.message := "Invalid database format" |}, d)
          else
            let d1 := clearDatabase now d in
            let elements :=
              match faces with Some (JArr items) => items | _ => [] end in
            match importFaces elements (database d1) 0 0 with
            | (Throw e, v) => (importFailed e, with_database d1 v)
            | (Ok (facesImported, descriptorsImported), v) =>
                let d2 :=
                  with_database d1
                    {| vfaces := vfaces v;
                       vtotalDescriptors := Z.of_nat descriptorsImported;
                       vlastUpdated := now |} in
                let d3 := saveToStorage now (syncToRecognitionService now d2) in
                ({| ImportOutcome.success := true;
                    ImportOutcome.facesImported := facesImported;
                    ImportOutcome.descriptorsImported := descriptorsImported;
                    ImportOutcome.message :=
                      "Successfully imported " ++ JsString.of_nat facesImported
                      ++ " faces with " ++ JsString.of_nat descriptorsImported
                      ++ " descriptors" |},
                 d3)
            end
      end
  end.

(** [loadFromStorage]: an item that is present and not empty is
    imported. *)
Definition loadFromStorage (now : Date) (d : t) : t :=
  match localStorage d with
  | Some storedData =>
      if String.eqb storedData EmptyString then d
      else snd (importDatabase now storedData d)
  | None => d
  end.

Definition constructor (now : Date)
    (faceRecognitionService : FaceRecognitionService.t)
    (storage : option string) : t :=
  loadFromStorage now
    {| database :=
         {| vfaces := JsMap.empty; vtotalDescriptors := 0; vlastUpdated := now |};
       faceRecognitionService := faceRecognitionService;
       localStorage := storage |}.

End WithHost.

End FaceDatabase.

(* ================================================================== *)
(** * Definitions for the statements *)
(* ================================================================== *)

(** The definitions below are not code of the repository: they are the
    notions the statements are written with (the distance as a sum, the
    order of the scan, the invariant of the store, the counts of the
    training loop, the exported document). *)

Module Distance.
Import FaceRecognitionService.
Local Open Scope R_scope.

(** The sum of the squared differences of all components, pair by
    pair. *)
Fixpoint sumSquares (a b : Float32Array) : R :=
  match a, b with
  | x :: a', y :: b' => (x - y) * (x - y) + sumSquares a' b'
  | _, _ => 0
  end.

(** The Euclidean distance of two vectors of one length. *)
Definition euclidean (a b : Float32Array) : R := sqrt (sumSquares a b).

End Distance.

Module Matcher.
Import FaceRecognitionService.
Local Open Scope R_scope.

(** A stored descriptor as the scan meets it: the key and the face of
    its map entry, and its index in the face. *)
Record candidate : Type := mkCandidate {
  c_faceId : string;
  c_face : KnownFace;
  c_index : nat;
  c_descriptor : Float32Array
}.

Definition indexed (faceId : string) (knownFace : KnownFace) (start : nat)
    (ds : list Float32Array) : list candidate :=
  map (fun p => mkCandidate faceId knownFace (fst p) (snd p))
      (combine (seq start (length ds)) ds).

Definition candidatesOf (entry : string * KnownFace) : list candidate :=
  indexed (fst entry) (snd entry) 0 (descriptors (snd entry)).

(** All stored descriptors in the order of the scan: the entries in
    insertion order, and in each the descriptors by index. *)
Definition candidates (s : t) : list candidate :=
  flat_map candidatesOf (faces (faceDatabase s)).

Definition distanceTo (q : Float32Array) (c : candidate) : R :=
  Distance.euclidean q (c_descriptor c).

Definition matchOf (q : Float32Array) (c : candidate) : FaceMatch :=
  {| personName := name (c_face c);
     confidence := distanceToConfidence (distanceTo q c);
     distance := distanceTo q c;
     descriptorId := c_faceId c ++ "_" ++ JsString.of_nat (c_index c) |}.

(** The test and the update of the loop body. *)
Definition step (s : t) (q : Float32Array) (acc : scan) (c : candidate)
  : scan :=
  if Num.lt_ext (distanceTo q c) (snd acc)
     && Num.leb (distanceTo q c) (MAX_DISTANCE s)
  then (Some (matchOf q c), Num.Finite (distanceTo q c))
  else acc.

(** What the two variables of the scan hold once the candidates [seen]
    are behind it. *)
Definition first_nearest (s : t) (q : Float32Array) (seen : list candidate)
    (acc : scan) : Prop :=
  match acc with
  | (None, Num.Infinity) =>
      forall c, In c seen -> MAX_DISTANCE s < distanceTo q c
  | (Some m, Num.Finite d) =>
      exists pre c post,
        seen = pre ++ c :: post
        /\ m = matchOf q c
        /\ d = distanceTo q c
        /\ d <= MAX_DISTANCE s
        /\ (forall c', In c' pre -> d < distanceTo q c')
        /\ (forall c', In c' post -> d <= distanceTo q c')
  | _ => False
  end.

End Matcher.

Module Gate.
Local Open Scope R_scope.

(** A service with the thresholds of the constructor and any store. *)
Definition default_service (now : Date) (db : FaceStore)
  : FaceRecognitionService.t :=
  FaceRecognitionService.with_faceDatabase
    (FaceRecognitionService.constructor now) db.

End Gate.

Module Store.
Import FaceRecognitionService.
Local Open Scope Z_scope.

Definition entries : Type := JsMap.t string KnownFace.

Definition count (f : KnownFace) : Z := Z.of_nat (length (descriptors f)).

(** The sum of the descriptor counts over all identities. *)
Fixpoint sumLengths (m : entries) : Z :=
  match m with
  | [] => 0
  | (_, f) :: r => count f + sumLengths r
  end.

(** The keys are unique, and each entry sits under its own [id]. *)
Definition well_keyed (m : entries) : Prop :=
  NoDup (JsMap.keys m) /\ forall k f, In (k, f) m -> id f = k.

Definition get (m : entries) (k : string) : option KnownFace :=
  JsMap.get String.eqb m k.

(** The counter agrees with the entries. *)
Definition consistent (s : t) : Prop :=
  totalDescriptors (faceDatabase s) = sumLengths (faces (faceDatabase s)).

Definition well_formed (s : t) : Prop :=
  consistent s /\ well_keyed (faces (faceDatabase s)).

End Store.

Module History.

Inductive operation : Type :=
| Add (now : Date) (name : string) (extracted : option Float32Array)
| Remove (now : Date) (name : string)
| Clear (now : Date)
| Thresholds (options : FaceRecognitionService.ThresholdOptions).

Definition apply (s : FaceRecognitionService.t) (o : operation)
  : FaceRecognitionService.t :=
  match o with
  | Add now name extracted =>
      snd (FaceRecognitionService.addKnownFace now name extracted s)
  | Remove now name => snd (FaceRecognitionService.removeKnownFace now name s)
  | Clear now => FaceRecognitionService.clearDatabase now s
  | Thresholds options => FaceRecognitionService.updateThresholds options s
  end.

Definition run (created : Date) (ops : list operation)
  : FaceRecognitionService.t :=
  fold_left apply ops (FaceRecognitionService.constructor created).

End History.

Module Sync.
Import FaceDatabase.

(** The entries of the view that mirror a list of faces. *)
Definition mirror (l : list KnownFace) : JsMap.t jsval ViewFace :=
  map (fun f => (key_of (id f), of_known f)) l.

End Sync.

Module TrainingCount.
Import FaceDatabase.
Local Open Scope nat_scope.

(** The number of descriptors the service stores under an id. *)
Definition stored (s : FaceRecognitionService.t) (faceId : string) : nat :=
  match Store.get (faces (FaceRecognitionService.faceDatabase s)) faceId with
  | Some f => length (descriptors f)
  | None => 0
  end.

(** The loop of [trainFace] on counts alone: from [c] stored
    descriptors and [added] samples so far, the samples added and the
    descriptors stored at the end. *)
Fixpoint tally (c added : nat) (samples : list sample) : nat * nat :=
  match samples with
  | [] => (added, c)
  | Missing :: rest => tally c added rest
  | Detection None :: rest =>
      if MAX_DESCRIPTORS_PER_FACE <=? c then (added, c)
      else tally c added rest
  | Detection (Some _) :: rest =>
      if MAX_DESCRIPTORS_PER_FACE <=? S c then (S added, S c)
      else tally (S c) (S added) rest
  end.

(** The recognition service behind a database wrapper is well formed. *)
Definition service_ok (d : t) : Prop :=
  Store.well_formed (faceRecognitionService d).

End TrainingCount.

Module Document.

(** The parsed top-level value holds an array under [faces]. *)
Definition hasFacesArray (importData : json) : bool :=
  match importData with
  | JObj members => Json.isArray (Json.lookup members "faces")
  | _ => false
  end.

Definition invalidFormat : FaceDatabase.ImportOutcome.t :=
  {| FaceDatabase.ImportOutcome.success := false;
     FaceDatabase.ImportOutcome.facesImported := 0;
     FaceDatabase.ImportOutcome.descriptorsImported := 0;
     FaceDatabase.ImportOutcome.message := "Invalid database format" |}.

End Document.

Module RoundTrip.
Import FaceDatabase.

(** The element of [faces] that [exportDatabase] writes for a face of
    the recognition service. *)
Definition faceDocument (h : Host) (f : KnownFace) : json :=
  JObj ([("id", JStr (id f));
         ("name", JStr (name f));
         ("descriptors",
          JArr (map (fun desc => JArr (map JNum desc)) (descriptors f)));
         ("addedAt", JStr (toISOString h (addedAt f)))]
        ++ match lastSeen f with
           | Some seen => [("lastSeen", JStr (toISOString h seen))]
           | None => []
           end).

(** The host rebuilds a typed array from the numbers that were
    written for it. *)
Definition rebuilds_arrays (h : Host) : Prop :=
  forall x : Float32Array, Float32Array_new h (JArr (map JNum x)) = Ok x.

(** The descriptors of all stored faces, counted. *)
Fixpoint descriptorCount (l : list KnownFace) : nat :=
  match l with
  | [] => 0
  | f :: r => length (descriptors f) + descriptorCount r
  end.

End RoundTrip.

(* ================================================================== *)
(** * Sample stores and hosts *)
(* ================================================================== *)

(** Hosts for the concrete runs.  Each fixes the built-ins on the few
    inputs its run reads: the typed-array constructor on arrays of
    numbers, the parser on one text. *)
Module Hosts.

(** A host whose parser refuses every text. *)
Definition silent : Host :=
  {| JSON_parse := fun _ => Throw (SyntaxError "Unexpected token");
     JSON_stringify := fun _ => "{}";
     Float32Array_new := fun _ => Ok [];
     Date_new := fun _ => None;
     toISOString := fun _ => "1970-01-01T00:00:00.000Z";
     nullPropertyMessage := fun _ => "Cannot read properties of null" |}.

(** A host that serialises to [text] and parses [text] back to [doc];
    its typed-array constructor reads arrays of numbers. *)
Definition codec (text : string) (doc : json) : Host :=
  {| JSON_parse := fun s =>
       if String.eqb s text then Ok doc
       else Throw (SyntaxError "Unexpected token");
     JSON_stringify := fun _ => text;
     Float32Array_new := fun v =>
       match v with
       | JArr items =>
           Ok (map (fun item => match item with JNum x => x | _ => 0%R end)
                   items)
       | _ => Ok []
       end;
     Date_new := fun _ => None;
     toISOString := fun _ => "1970-01-01T00:00:00.000Z";
     nullPropertyMessage := fun key =>
       ("Cannot read properties of null (reading '" ++ key ++ "')")%string |}.

(** The text [null], with the message of V8 for a property read on
    [null]. *)
Definition null : Host := codec "null" JNull.

(** The text [[1, 2, 3]]. *)
Definition array : Host := codec "[1, 2, 3]" (JArr [JNum 1; JNum 2; JNum 3]).

End Hosts.

(** Two identities that hold the same descriptor: a tie for any query. *)
Definition tie_store : FaceRecognitionService.t :=
  FaceRecognitionService.with_faceDatabase
    (FaceRecognitionService.constructor 0%Z)
    {| faces := [("amy", mkKnownFace "amy" "Amy" [[1%R; 0%R]] 0%Z (Some 0%Z));
                 ("bob", mkKnownFace "bob" "Bob" [[1%R; 0%R]] 0%Z (Some 0%Z))];
       totalDescriptors := 2%Z;
       lastUpdated := 0%Z |}.

(** One identity with the descriptor [[0]], queried at distance 0.5:
    inside [MAX_DISTANCE], outside the confidence gate. *)
Definition half_store : FaceStore :=
  {| faces := [("amy", mkKnownFace "amy" "Amy" [[0%R]] 0%Z (Some 0%Z))];
     totalDescriptors := 1%Z;
     lastUpdated := 0%Z |}.

Definition half_match : FaceMatch :=
  {| personName := "Amy";
     confidence := FaceRecognitionService.distanceToConfidence 0.5;
     distance := 0.5%R;
     descriptorId := "amy_0" |}.

(** A database wrapper built over a fresh recognition service and an
    empty storage. *)
Definition fresh_database (h : Host) (created : Date) : FaceDatabase.t :=
  FaceDatabase.constructor h created
    (FaceRecognitionService.constructor created) None.

(** The two-identity store behind a database wrapper, the document its
    export builds, and a host for it: [JSON.stringify] answers with one
    text, which stands for the serialised document, and [JSON.parse]
    turns that text back into the document. *)
Definition tie_database : FaceDatabase.t :=
  FaceDatabase.mk (mkView [] 0%Z 0%Z) tie_store None.

Definition tie_document : json :=
  JObj [("faces",
         JArr (map (RoundTrip.faceDocument Hosts.silent)
                   (FaceRecognitionService.getKnownFaces tie_store)));
        ("totalDescriptors", JNum (IZR 2));
        ("lastUpdated", JStr "1970-01-01T00:00:00.000Z");
        ("exportedAt", JStr "1970-01-01T00:00:00.000Z")].

Definition tie_host : Host := Hosts.codec "tie_document" tie_document.

(* ================================================================== *)
(** * The extraction of a descriptor from a frame *)
(* ================================================================== *)

(** [calculateBoundingBoxOverlap] and [extractFaceDescriptor] of the
    recognition service.  What [faceapi.detectAllFaces] answers for the
    frame is the input [detections]: the faces it found, or a throw. *)
Module FaceExtraction.
Local Open Scope R_scope.

Record BoundingBox : Type := mkBox {
  x : R;
  y : R;
  width : R;
  height : R
}.

(** One element of the answer of face-api.js: the box of the detection
    and its descriptor, which the code tests for presence. *)
Record DetectedFace : Type := mkDetected {
  box : BoundingBox;
  descriptor : option Float32Array
}.

Definition calculateBoundingBoxOverlap (box1 box2 : BoundingBox) : R :=
  let x1 := Rmax (x box1) (x box2) in
  let y1 := Rmax (y box1) (y box2) in
  let x2 := Rmin (x box1 + width box1) (x box2 + width box2) in
  let y2 := Rmin (y box1 + height box1) (y box2 + height box2) in
  if Num.leb x2 x1 || Num.leb y2 y1
  then 0
  else
    let intersectionArea := (x2 - x1) * (y2 - y1) in
    let box1Area := width box1 * height box1 in
    let box2Area := width box2 * height box2 in
    let unionArea := box1Area + box2Area - intersectionArea in
    intersectionArea / unionArea.

(** The body of the loop over the detections: [bestMatch] and
    [bestOverlap]. *)
Definition better (boundingBox : BoundingBox) (best : DetectedFace * R)
    (detection : DetectedFace) : DetectedFace * R :=
  let overlap := calculateBoundingBoxOverlap boundingBox (box detection) in
  if Num.ltb (snd best) overlap then (detection, overlap) else best.

Definition extractFaceDescriptor (detections : result (list DetectedFace))
    (boundingBox : BoundingBox) : option Float32Array :=
  match detections with
  | Throw _ => None
  | Ok [] => None
  | Ok (first :: rest) =>
      let (bestMatch, bestOverlap) :=
        fold_left (better boundingBox) (first :: rest) (first, 0) in
      if Num.ltb 0.5 bestOverlap
      then descriptor bestMatch
      else None
  end.

End FaceExtraction.

(* ================================================================== *)
(** * Further notions for the statements *)
(* ================================================================== *)

Module Thresholds.
Import FaceRecognitionService.
Local Open Scope R_scope.

(** The result of a recognition that found nobody and has no distance
    to report. *)
Definition unmatched : RecognitionResult :=
  {| isMatch := false; match_ := None; resultConfidence := 0 |}.

(** A stored descriptor passes both tests of [recognizeFace] for the
    query [q]. *)
Definition passes (s : t) (q : Float32Array) (c : Matcher.candidate) : Prop :=
  Matcher.distanceTo q c <= MAX_DISTANCE s
  /\ MIN_CONFIDENCE s <= distanceToConfidence (Matcher.distanceTo q c).

(** Every stored descriptor has the length of [q]. *)
Definition uniform (s : t) (q : Float32Array) : Prop :=
  forall c, In c (Matcher.candidates s) ->
            length (Matcher.c_descriptor c) = length q.

End Thresholds.

Module Entries.

(** Every entry holds at least one descriptor, sits under the
    normalised form of the name it shows, and has been seen. *)
Definition settled (m : Store.entries) : Prop :=
  forall k f, In (k, f) m ->
    descriptors f <> []
    /\ k = FaceRecognitionService.generateFaceId (name f)
    /\ lastSeen f <> None.

End Entries.

Module Reads.
Import FaceDatabase.

(** A stored face as [getKnownFaces] and [getFace] hand it out: with
    its training status. *)
Definition annotated (f : KnownFace) : ViewFace * bool * R :=
  (of_known f, isWellTrained (of_known f), trainingProgress (of_known f)).

(** The identity holds enough descriptors to count as well trained. *)
Definition wellTrained (f : KnownFace) : bool :=
  (MIN_TRAINING_SAMPLES <=? length (descriptors f))%nat.

End Reads.

Module Persist.
Import FaceDatabase.

(** The item in the storage is what the export of the database gives
    at the time [now]. *)
Definition current (h : Host) (now : Date) (d : t) : Prop :=
  exists text,
    fst (exportDatabase h now d) = Ok text /\ localStorage d = Some text.

(** The document exported for a service that was cleared at [cleared]. *)
Definition emptyDocument (h : Host) (cleared now : Date) : json :=
  JObj [("faces", JArr []);
        ("totalDescriptors", JNum (IZR 0));
        ("lastUpdated", JStr (toISOString h cleared));
        ("exportedAt", JStr (toISOString h now))].

(** [n] calls of [addTrainingSample] for one name, each with an
    extracted descriptor. *)
Fixpoint repeatSample (h : Host) (now : Date) (newName : string)
    (e : Float32Array) (n : nat) (d : t) : t :=
  match n with
  | O => d
  | S n' =>
      repeatSample h now newName e n'
        (snd (addTrainingSample h now newName (Some e) d))
  end.

(** The element of an imported document is taken as a face. *)
Definition imports (h : Host) (faceData : json) : bool :=
  match importFace h faceData with
  | Ok _ => true
  | Throw _ => false
  end.

(** The descriptors of the elements that are taken. *)
Fixpoint importedDescriptors (h : Host) (items : list json) : nat :=
  match items with
  | [] => 0
  | faceData :: rest =>
      match importFace h faceData with
      | Ok face => length (vdescriptors face) + importedDescriptors h rest
      | Throw _ => importedDescriptors h rest
      end
  end.

End Persist.

Module Names.
Import JsString.

(** A code unit that [generateFaceId] drops: once lowered it is neither
    white space nor in [[a-z0-9_]]. *)
Definition dropped (c : ascii) : bool :=
  negb (is_id_char (lower_char c)) && negb (is_space (lower_char c)).

Fixpoint all_dropped (s : string) : bool :=
  match s with
  | EmptyString => true
  | String c r => dropped c && all_dropped r
  end.

End Names.

Module Frame.

(** The detector threw, or none of the faces it found overlaps the
    given box by more than one half. *)
Definition poor (detections : result (list FaceExtraction.DetectedFace))
    (boundingBox : FaceExtraction.BoundingBox) : Prop :=
  match detections with
  | Throw _ => True
  | Ok l =>
      forall f, In f l ->
        (FaceExtraction.calculateBoundingBoxOverlap boundingBox
           (FaceExtraction.box f) <= 0.5)%R
  end.

End Frame.

(* ================================================================== *)
(** * Numbers beyond the reals: NaN, the infinities and doubles *)
(* ================================================================== *)

(** Two functions of the recognition service are embedded a second
    time, where a property depends on what the reals leave out:
    [updateThresholds] over numbers that may be [NaN] or infinite
    ([Configuration]), and the distance, the confidence, the overlap and
    the rounded average over binary64 floats ([Double]). *)

Module JsNumber.
Local Open Scope R_scope.

(** A number as a caller can pass it: [NaN], an infinity, or a finite
    number. *)
Inductive t : Type :=
| NaN
| NegInfinity
| Finite (x : R)
| PosInfinity.

(** [Math.min]: [NaN] as soon as an argument is [NaN]. *)
Definition Math_min (a b : t) : t :=
  match a, b with
  | NaN, _ => NaN
  | _, NaN => NaN
  | NegInfinity, _ => NegInfinity
  | _, NegInfinity => NegInfinity
  | PosInfinity, _ => b
  | _, PosInfinity => a
  | Finite x, Finite y => Finite (Rmin x y)
  end.

(** [Math.max]: [NaN] as soon as an argument is [NaN]. *)
Definition Math_max (a b : t) : t :=
  match a, b with
  | NaN, _ => NaN
  | _, NaN => NaN
  | PosInfinity, _ => PosInfinity
  | _, PosInfinity => PosInfinity
  | NegInfinity, _ => b
  | _, NegInfinity => a
  | Finite x, Finite y => Finite (Rmax x y)
  end.

End JsNumber.

(** The three thresholds of [FaceRecognitionService] as the numbers
    they hold at run time, and [updateThresholds] and
    [getConfiguration] over them. *)
Module Configuration.
Local Open Scope R_scope.

Record t : Type := mk {
  RECOGNITION_THRESHOLD : JsNumber.t;
  MIN_CONFIDENCE : JsNumber.t;
  MAX_DISTANCE : JsNumber.t
}.

(** The initial values of the three fields. *)
Definition constructor : t :=
  {| RECOGNITION_THRESHOLD := JsNumber.Finite 0.6;
     MIN_CONFIDENCE := JsNumber.Finite 0.5;
     MAX_DISTANCE := JsNumber.Finite 0.6 |}.

(** The argument of [updateThresholds]: [None] is a property that is
    absent or [undefined]. *)
Record ThresholdOptions : Type := mkOptions {
  recognitionThreshold : option JsNumber.t;
  minConfidence : option JsNumber.t;
  maxDistance : option JsNumber.t
}.

Definition updateThresholds (options : ThresholdOptions) (c : t) : t :=
  {| RECOGNITION_THRESHOLD :=
       match recognitionThreshold options with
       | Some x =>
           JsNumber.Math_max (JsNumber.Finite 0)
                             (JsNumber.Math_min (JsNumber.Finite 1) x)
       | None => RECOGNITION_THRESHOLD c
       end;
     MIN_CONFIDENCE :=
       match minConfidence options with
       | Some x =>
           JsNumber.Math_max (JsNumber.Finite 0)
                             (JsNumber.Math_min (JsNumber.Finite 1) x)
       | None => MIN_CONFIDENCE c
       end;
     MAX_DISTANCE :=
       match maxDistance options with
       | Some x =>
           JsNumber.Math_max (JsNumber.Finite 0)
                             (JsNumber.Math_min (JsNumber.Finite 2) x)
       | None => MAX_DISTANCE c
       end |}.

Definition getConfiguration (c : t) : JsNumber.t * JsNumber.t * JsNumber.t :=
  (RECOGNITION_THRESHOLD c, MIN_CONFIDENCE c, MAX_DISTANCE c).

End Configuration.

(** The notions for the statements about [Configuration]. *)
Module ConfigurationSpec.
Import Configuration.
Local Open Scope R_scope.

(** The thresholds of a service whose thresholds are finite. *)
Definition of_service (s : FaceRecognitionService.t) : t :=
  {| RECOGNITION_THRESHOLD :=
       JsNumber.Finite (FaceRecognitionService.RECOGNITION_THRESHOLD s);
     MIN_CONFIDENCE := JsNumber.Finite (FaceRecognitionService.MIN_CONFIDENCE s);
     MAX_DISTANCE := JsNumber.Finite (FaceRecognitionService.MAX_DISTANCE s) |}.

(** Options that give finite numbers only. *)
Definition of_options (o : FaceRecognitionService.ThresholdOptions)
  : ThresholdOptions :=
  {| recognitionThreshold :=
       option_map JsNumber.Finite (FaceRecognitionService.recognitionThreshold o);
     minConfidence :=
       option_map JsNumber.Finite (FaceRecognitionService.minConfidence o);
     maxDistance :=
       option_map JsNumber.Finite (FaceRecognitionService.maxDistance o) |}.

(** The thresholds after a sequence of [updateThresholds] calls on a
    new service. *)
Definition run (updates : list ThresholdOptions) : t :=
  fold_left (fun c options => updateThresholds options c) updates constructor.

(** What one call stores for a given value: the value clamped into
    [[0, hi]], and [NaN] for [NaN]. *)
Definition stored (given : option JsNumber.t) (hi : R) (old new : JsNumber.t)
  : Prop :=
  match given with
  | None => new = old
  | Some JsNumber.NaN => new = JsNumber.NaN
  | Some JsNumber.NegInfinity => new = JsNumber.Finite 0
  | Some JsNumber.PosInfinity => new = JsNumber.Finite hi
  | Some (JsNumber.Finite x) =>
      exists y,
        new = JsNumber.Finite y
        /\ 0 <= y <= hi
        /\ (0 <= x <= hi -> y = x)
        /\ (x <= 0 -> y = 0)
        /\ (hi <= x -> y = hi)
  end.

(** A finite number in [[0, hi]]. *)
Definition finite_within (hi : R) (v : JsNumber.t) : Prop :=
  match v with
  | JsNumber.Finite y => 0 <= y <= hi
  | _ => False
  end.

(** A finite number in [[0, hi]], or [NaN]. *)
Definition within (hi : R) (v : JsNumber.t) : Prop :=
  v = JsNumber.NaN \/ finite_within hi v.

(** No option of the call is [NaN]. *)
Definition numeric (o : ThresholdOptions) : Prop :=
  recognitionThreshold o <> Some JsNumber.NaN
  /\ minConfidence o <> Some JsNumber.NaN
  /\ maxDistance o <> Some JsNumber.NaN.

End ConfigurationSpec.

#[local] Set Warnings "-inexact-float".

(** The arithmetic of the code on binary64 floats.  [Math.exp] is a
    built-in whose result the language leaves to the engine: it is an
    argument of [distanceToConfidence]. *)
Module Double.
Import Stdlib.Floats.Floats.
Local Open Scope float_scope.

Definition is_negative_zero (a : float) : bool :=
  PrimFloat.is_zero a && PrimFloat.get_sign a.

(** [Math.max]: [NaN] as soon as an argument is [NaN]; [+0] is above
    [-0]. *)
Definition Math_max (a b : float) : float :=
  if PrimFloat.is_nan a || PrimFloat.is_nan b then nan
  else if a <? b then b
  else if b <? a then a
  else if is_negative_zero a then b else a.

(** [Math.min]: [NaN] as soon as an argument is [NaN]; [-0] is below
    [+0]. *)
Definition Math_min (a b : float) : float :=
  if PrimFloat.is_nan a || PrimFloat.is_nan b then nan
  else if a <? b then a
  else if b <? a then b
  else if is_negative_zero a then a else b.

(** [Math.floor] for an argument in [[0, 2^52)]. *)
Definition Math_floor (a : float) : float :=
  let nearest := (a + 0x1p52) - 0x1p52 in
  if a <? nearest then nearest - 1 else nearest.

(** [Math.round] for an argument in [[0, 2^52)]: the nearest integer,
    halves going up. *)
Definition Math_round (a : float) : float :=
  let below := Math_floor a in
  if 0.5 <=? a - below then below + 1 else below.

(** One turn of the summing loop at index [i]. *)
Definition addSquare (desc1 desc2 : list float) (sum : float) (i : nat)
  : float :=
  match nth_error desc1 i, nth_error desc2 i with
  | Some val1, Some val2 =>
      let diff := val1 - val2 in sum + diff * diff
  | _, _ => sum
  end.

(** The elements of a [Float32Array] are read as the doubles they
    equal. *)
Definition calculateEuclideanDistance (desc1 desc2 : list float)
  : result float :=
  if negb (length desc1 =? length desc2)%nat
  then Throw (Error "Descriptors must have the same length")
  else
    let sum := fold_left (addSquare desc1 desc2) (seq 0 (length desc1)) 0 in
    Ok (PrimFloat.sqrt sum).

Definition distanceToConfidence (Math_exp : float -> float) (distance : float)
  : float :=
  let confidence := Math_exp ((- distance) * 2) in
  Math_max 0 (Math_min 1 confidence).

Record BoundingBox : Type := mkBox {
  x : float;
  y : float;
  width : float;
  height : float
}.

Definition calculateBoundingBoxOverlap (box1 box2 : BoundingBox) : float :=
  let x1 := Math_max (x box1) (x box2) in
  let y1 := Math_max (y box1) (y box2) in
  let x2 := Math_min (x box1 + width box1) (x box2 + width box2) in
  let y2 := Math_min (y box1 + height box1) (y box2 + height box2) in
  if (x2 <=? x1) || (y2 <=? y1) then 0
  else
    let intersectionArea := (x2 - x1) * (y2 - y1) in
    let box1Area := width box1 * height box1 in
    let box2Area := width box2 * height box2 in
    let unionArea := box1Area + box2Area - intersectionArea in
    intersectionArea / unionArea.

(** The average of [getStatistics] for [total] descriptors over
    [count] faces, [count] not 0. *)
Definition averageDescriptorsPerFace (total count : float) : float :=
  let averageDescriptors := total / count in
  Math_round (averageDescriptors * 100) / 100.

End Double.

(** Sample data for the runs in double arithmetic. *)
Module Engine.
Import Stdlib.Floats.Floats.
Local Open Scope float_scope.


End Engine.


(* ================================================================== *)
(** * Properties of the normalised identifiers *)
(* ================================================================== *)

Module JsStringFacts.
Import JsString.

(** A unit of [[a-z0-9_]] is left alone by the lower-casing and is not
    white space. *)
Lemma id_char_fixed (c : ascii) :
  is_id_char c = true -> lower_char c = c /\ is_space c = false.
Proof.
  destruct c as [[] [] [] [] [] [] [] []]; vm_compute;
    first [discriminate | split; reflexivity].
Qed.

Lemma strip_all_id (s : string) : all_id (strip_non_id s) = true.
Proof.
  induction s as [|c r IH]; simpl; [reflexivity|].
  destruct (is_id_char c) eqn:E; simpl; [rewrite E|]; exact IH.
Qed.

Lemma toLowerCase_all_id (s : string) :
  all_id s = true -> toLowerCase s = s.
Proof.
  induction s as [|c r IH]; simpl; intros H; [reflexivity|].
  apply andb_true_iff in H as [Hc Hr].
  destruct (id_char_fixed c Hc) as [-> _]. now rewrite IH.
Qed.

Lemma collapse_all_id (s : string) (b : bool) :
  all_id s = true -> collapse_spaces b s = s.
Proof.
  revert b. induction s as [|c r IH]; simpl; intros b H; [reflexivity|].
  apply andb_true_iff in H as [Hc Hr].
  destruct (id_char_fixed c Hc) as [_ ->]. now rewrite IH.
Qed.

Lemma strip_all_id_fixed (s : string) :
  all_id s = true -> strip_non_id s = s.
Proof.
  induction s as [|c r IH]; simpl; intros H; [reflexivity|].
  apply andb_true_iff in H as [Hc Hr]. rewrite Hc. now rewrite IH.
Qed.

(** A string over [[a-z0-9_]] is a fixed point of the three steps. *)
Lemma normalise_fixed (s : string) :
  all_id s = true ->
  strip_non_id (replace_spaces (toLowerCase s)) = s.
Proof.
  intros H. unfold replace_spaces.
  rewrite (toLowerCase_all_id s H), (collapse_all_id s false H).
  exact (strip_all_id_fixed s H).
Qed.

End JsStringFacts.

Example generateFaceId_jane :
  FaceRecognitionService.generateFaceId "Jane  Mary-Ann Doe 3rd!" = "jane_maryann_doe_3rd".
Proof. reflexivity. Qed.

(** C10. The normalisation of a display name into an id is idempotent,
    in the recognition service and in the database wrapper, whose two
    copies compute the same function; every id it returns is a string
    over [[a-z0-9_]], a fixed point of the normalisation. *)
Theorem generateFaceId_idempotent :
  (forall s : string,
      FaceRecognitionService.generateFaceId
        (FaceRecognitionService.generateFaceId s)
      = FaceRecognitionService.generateFaceId s)
  /\ (forall s : string,
         FaceDatabase.generateFaceId (FaceDatabase.generateFaceId s)
         = FaceDatabase.generateFaceId s)
  /\ (forall s : string,
         FaceDatabase.generateFaceId s = FaceRecognitionService.generateFaceId s)
  /\ (forall s : string,
         JsString.all_id (FaceRecognitionService.generateFaceId s) = true).
Proof.
  assert (fixed : forall s,
             FaceRecognitionService.generateFaceId
               (FaceRecognitionService.generateFaceId s)
             = FaceRecognitionService.generateFaceId s).
  { intros s. unfold FaceRecognitionService.generateFaceId at 1.
    apply JsStringFacts.normalise_fixed.
    apply JsStringFacts.strip_all_id. }
  repeat split.
  - exact fixed.
  - exact fixed.
  - intros s. apply JsStringFacts.strip_all_id.
Qed.

(* ================================================================== *)
(** * Comparisons of numbers *)
(* ================================================================== *)

Module NumFacts.
Local Open Scope R_scope.

Lemma leb_true (x y : R) : Num.leb x y = true <-> x <= y.
Proof.
  unfold Num.leb. destruct (Rle_dec x y); split; intros; auto; discriminate.
Qed.

Lemma leb_false (x y : R) : Num.leb x y = false <-> y < x.
Proof.
  unfold Num.leb. destruct (Rle_dec x y); split; intros; auto;
    try discriminate; lra.
Qed.

Lemma ltb_true (x y : R) : Num.ltb x y = true <-> x < y.
Proof.
  unfold Num.ltb. destruct (Rlt_dec x y); split; intros; auto; discriminate.
Qed.

Lemma ltb_false (x y : R) : Num.ltb x y = false <-> y <= x.
Proof.
  unfold Num.ltb. destruct (Rlt_dec x y); split; intros; auto;
    try discriminate; lra.
Qed.

Lemma eqb_true (x y : R) : Num.eqb x y = true <-> x = y.
Proof.
  unfold Num.eqb. destruct (Req_dec_T x y); split; intros; auto; discriminate.
Qed.

End NumFacts.

(* ================================================================== *)
(** * Confidence and distance *)
(* ================================================================== *)

Module DistanceFacts.
Import FaceRecognitionService.
Local Open Scope R_scope.
Import Distance.

Lemma sumSquares_nonneg (a b : Float32Array) : 0 <= sumSquares a b.
Proof.
  revert b. induction a as [|x a IH]; intros [|y b]; simpl; try lra.
  specialize (IH b). pose proof (Rle_0_sqr (x - y)) as Q.
  unfold Rsqr in Q. lra.
Qed.

Lemma euclidean_nonneg (a b : Float32Array) : 0 <= euclidean a b.
Proof. apply sqrt_pos. Qed.

(** Past the first component the loop runs as on the tails. *)
Lemma addSquare_shift (x y : R) (a b : Float32Array) (n k : nat) (acc : R) :
  fold_left (addSquare (x :: a) (y :: b)) (seq (S k) n) acc
  = fold_left (addSquare a b) (seq k n) acc.
Proof.
  revert k acc. induction n as [|n IH]; intros k acc; simpl; [reflexivity|].
  rewrite IH. reflexivity.
Qed.

Lemma loop_sumSquares (a b : Float32Array) (acc : R) :
  length a = length b ->
  fold_left (addSquare a b) (seq 0 (length a)) acc = acc + sumSquares a b.
Proof.
  revert b acc. induction a as [|x a IH]; intros [|y b] acc H;
    simpl in H; try discriminate.
  - simpl. lra.
  - injection H as H. cbn [length seq fold_left].
    rewrite addSquare_shift, (IH b _ H).
    unfold addSquare. simpl. lra.
Qed.

Lemma distance_equal_length (a b : Float32Array) :
  length a = length b ->
  calculateEuclideanDistance a b = Ok (euclidean a b).
Proof.
  intros H. unfold calculateEuclideanDistance.
  rewrite H, Nat.eqb_refl. simpl. rewrite <- H.
  rewrite (loop_sumSquares a b 0 H). unfold euclidean. f_equal. f_equal. lra.
Qed.

Lemma distance_unequal_length (a b : Float32Array) :
  length a <> length b ->
  calculateEuclideanDistance a b
  = Throw (Error "Descriptors must have the same length").
Proof.
  intros H. unfold calculateEuclideanDistance.
  apply Nat.eqb_neq in H. rewrite H. reflexivity.
Qed.

Lemma distance_ok_inv (a b : Float32Array) (d : R) :
  calculateEuclideanDistance a b = Ok d ->
  length a = length b /\ d = euclidean a b.
Proof.
  intros H. destruct (Nat.eq_dec (length a) (length b)) as [E|E].
  - rewrite (distance_equal_length a b E) in H. injection H as <-. auto.
  - rewrite (distance_unequal_length a b E) in H. discriminate.
Qed.

Lemma confidence_exp (d : R) :
  0 <= d -> distanceToConfidence d = exp (- (2 * d)).
Proof.
  intros H. unfold distanceToConfidence.
  replace (- d * 2) with (- (2 * d)) by lra.
  assert (P : 0 < exp (- (2 * d))) by apply exp_pos.
  assert (L : exp (- (2 * d)) <= 1).
  { destruct (Req_dec d 0) as [->|N].
    - replace (- (2 * 0)) with 0 by lra. rewrite exp_0. lra.
    - rewrite <- exp_0. left. apply exp_increasing. lra. }
  rewrite (Rmin_right 1 _ L). apply Rmax_right. lra.
Qed.

Lemma confidence_zero : distanceToConfidence 0 = 1.
Proof.
  rewrite (confidence_exp 0) by lra.
  replace (- (2 * 0)) with 0 by lra. apply exp_0.
Qed.

End DistanceFacts.



Module DoubleRuns.
Import Stdlib.Floats.Floats.
Local Open Scope float_scope.


End DoubleRuns.

(** C7. The distance of two descriptors of unequal length is a thrown
    length-mismatch error; for equal lengths no component is skipped:
    the result is the square root of the sum of all squared
    differences. *)
Theorem calculateEuclideanDistance_lengths :
  (forall a b : Float32Array,
      length a <> length b ->
      FaceRecognitionService.calculateEuclideanDistance a b
      = Throw (Error "Descriptors must have the same length"))
  /\ (forall a b : Float32Array,
         length a = length b ->
         FaceRecognitionService.calculateEuclideanDistance a b
         = Ok (sqrt (Distance.sumSquares a b))).
Proof.
  split.
  - exact DistanceFacts.distance_unequal_length.
  - exact DistanceFacts.distance_equal_length.
Qed.

Lemma calculateEuclideanDistance_lengths_witness :
  (length [1%R; 2%R] <> length [1%R]
   /\ FaceRecognitionService.calculateEuclideanDistance [1%R; 2%R] [1%R]
      = Throw (Error "Descriptors must have the same length"))
  /\ (length [3%R; 0%R] = length [0%R; 0%R]
      /\ FaceRecognitionService.calculateEuclideanDistance [3%R; 0%R] [0%R; 0%R]
         = Ok (sqrt (Distance.sumSquares [3%R; 0%R] [0%R; 0%R]))).
Proof.
  split.
  - split; [simpl; lia|].
    apply (proj1 calculateEuclideanDistance_lengths). simpl. lia.
  - split; [reflexivity|].
    apply (proj2 calculateEuclideanDistance_lengths). reflexivity.
Defined.

(* ================================================================== *)
(** * The scan of [findBestMatch] *)
(* ================================================================== *)

Lemma fold_result_inv {A B : Type} (P : A -> Prop) (f : A -> B -> result A)
    (l : list B) :
  (forall a b a', P a -> f a b = Ok a' -> P a') ->
  forall a r, P a -> fold_result f l a = Ok r -> P r.
Proof.
  intros step. induction l as [|b l IH]; simpl; intros a r Pa H.
  - injection H as <-. exact Pa.
  - destruct (f a b) as [a'|e] eqn:E; simpl in H; [|discriminate].
    exact (IH a' r (step a b a' Pa E) H).
Qed.

Module MatcherFacts.
Import FaceRecognitionService.
Local Open Scope R_scope.
Import Matcher.

Lemma scanDescriptor_step (s : t) (q : Float32Array) (faceId : string)
    (knownFace : KnownFace) (acc : scan) (i : nat) (kd : Float32Array) :
  nth_error (descriptors knownFace) i = Some kd ->
  length kd = length q ->
  scanDescriptor s q faceId knownFace acc i
  = Ok (step s q acc (mkCandidate faceId knownFace i kd)).
Proof.
  intros N L. unfold scanDescriptor. rewrite N.
  rewrite (DistanceFacts.distance_equal_length q kd (eq_sym L)). simpl.
  unfold step, distanceTo, matchOf. simpl.
  destruct (Num.lt_ext _ _ && Num.leb _ _); reflexivity.
Qed.

Lemma scan_indexed (s : t) (q : Float32Array) (faceId : string)
    (knownFace : KnownFace) (ds pre : list Float32Array) (acc : scan) :
  descriptors knownFace = pre ++ ds ->
  (forall kd, In kd ds -> length kd = length q) ->
  fold_result (scanDescriptor s q faceId knownFace)
              (seq (length pre) (length ds)) acc
  = Ok (fold_left (step s q) (indexed faceId knownFace (length pre) ds) acc).
Proof.
  revert pre acc. induction ds as [|kd ds IH]; intros pre acc E U.
  - reflexivity.
  - cbn [length seq fold_result]. unfold indexed. cbn [length seq combine map fold_left].
    rewrite (scanDescriptor_step s q faceId knownFace acc (length pre) kd).
    + simpl rbind.
      specialize (IH (pre ++ [kd]) (step s q acc (mkCandidate faceId knownFace (length pre) kd))).
      rewrite length_app in IH. simpl in IH.
      rewrite Nat.add_1_r in IH. apply IH.
      * rewrite <- app_assoc. exact E.
      * intros kd' H. apply U. now right.
    + rewrite E. rewrite nth_error_app2 by lia.
      rewrite Nat.sub_diag. reflexivity.
    + apply U. now left.
Qed.

Lemma indexed_In (faceId : string) (knownFace : KnownFace)
    (ds : list Float32Array) (start : nat) (kd : Float32Array) :
  In kd ds ->
  exists i, In (mkCandidate faceId knownFace i kd)
               (indexed faceId knownFace start ds).
Proof.
  revert start. induction ds as [|x ds IH]; intros start H; [destruct H|].
  destruct H as [->|H].
  - exists start. now left.
  - destruct (IH (S start) H) as [i Hi]. exists i. right. exact Hi.
Qed.

Lemma scanFace_step (s : t) (q : Float32Array) (acc : scan)
    (entry : string * KnownFace) :
  (forall c, In c (candidatesOf entry) -> length (c_descriptor c) = length q) ->
  scanFace s q acc entry = Ok (fold_left (step s q) (candidatesOf entry) acc).
Proof.
  destruct entry as [faceId knownFace]. intros U. unfold scanFace, candidatesOf.
  simpl fst; simpl snd.
  apply (scan_indexed s q faceId knownFace (descriptors knownFace) [] acc).
  - reflexivity.
  - intros kd H.
    destruct (indexed_In faceId knownFace _ 0 kd H) as [i Hi].
    exact (U _ Hi).
Qed.

Lemma scan_candidates (s : t) (q : Float32Array)
    (entries : list (string * KnownFace)) (acc : scan) :
  (forall c, In c (flat_map candidatesOf entries) ->
             length (c_descriptor c) = length q) ->
  fold_result (scanFace s q) entries acc
  = Ok (fold_left (step s q) (flat_map candidatesOf entries) acc).
Proof.
  revert acc. induction entries as [|entry entries IH]; intros acc U.
  - reflexivity.
  - cbn [fold_result flat_map]. rewrite scanFace_step.
    + simpl rbind. rewrite fold_left_app. apply IH.
      intros c H. apply U. simpl. apply in_or_app. now right.
    + intros c H. apply U. simpl. apply in_or_app. now left.
Qed.

Lemma step_first_nearest (s : t) (q : Float32Array) (seen : list candidate)
    (acc : scan) (c : candidate) :
  first_nearest s q seen acc ->
  first_nearest s q (seen ++ [c]) (step s q acc c).
Proof.
  unfold step. destruct acc as [[m|] [b|]]; simpl; intros H; try contradiction.
  - destruct H as (pre & c0 & post & E & Em & Eb & Hb & Hpre & Hpost).
    destruct (Num.ltb (distanceTo q c) b) eqn:L;
      [destruct (Num.leb (distanceTo q c) (MAX_DISTANCE s)) eqn:M|]; simpl.
    + apply NumFacts.ltb_true in L. apply NumFacts.leb_true in M.
      exists seen, c, []. repeat split; auto.
      * intros c' H. rewrite E in H. apply in_app_or in H as [H|[<-|H]].
        -- specialize (Hpre c' H). lra.
        -- lra.
        -- specialize (Hpost c' H). lra.
      * intros c' [].
    + apply NumFacts.leb_false in M.
      exists pre, c0, (post ++ [c]). repeat split; auto.
      * rewrite E, <- app_assoc. reflexivity.
      * intros c' H. apply in_app_or in H as [H|[<-|[]]]; [auto|lra].
    + apply NumFacts.ltb_false in L.
      exists pre, c0, (post ++ [c]). repeat split; auto.
      * rewrite E, <- app_assoc. reflexivity.
      * intros c' H. apply in_app_or in H as [H|[<-|[]]]; [auto|lra].
  - destruct (Num.leb (distanceTo q c) (MAX_DISTANCE s)) eqn:M; simpl.
    + apply NumFacts.leb_true in M.
      exists seen, c, []. repeat split; auto.
      * intros c' H'. specialize (H c' H'). lra.
      * intros c' [].
    + apply NumFacts.leb_false in M.
      intros c' H'. apply in_app_or in H' as [H'|[<-|[]]]; auto.
Qed.

Lemma fold_first_nearest (s : t) (q : Float32Array)
    (rest seen : list candidate) (acc : scan) :
  first_nearest s q seen acc ->
  first_nearest s q (seen ++ rest) (fold_left (step s q) rest acc).
Proof.
  revert seen acc. induction rest as [|c rest IH]; intros seen acc H.
  - rewrite app_nil_r. exact H.
  - simpl. replace (seen ++ c :: rest) with ((seen ++ [c]) ++ rest)
      by (rewrite <- app_assoc; reflexivity).
    apply IH. apply step_first_nearest. exact H.
Qed.

End MatcherFacts.

(** Whatever the scan returns was accepted by its test: it lies within
    [MAX_DISTANCE] and carries the confidence of its distance. *)
Lemma findBestMatch_sound (s : FaceRecognitionService.t) (q : Float32Array)
    (m : FaceMatch) :
  FaceRecognitionService.findBestMatch s q = Ok (Some m) ->
  (0 <= distance m)%R
  /\ (distance m <= FaceRecognitionService.MAX_DISTANCE s)%R
  /\ confidence m = FaceRecognitionService.distanceToConfidence (distance m).
Proof.
  set (P := fun acc : FaceRecognitionService.scan =>
              match fst acc with
              | Some m =>
                  (0 <= distance m)%R
                  /\ (distance m <= FaceRecognitionService.MAX_DISTANCE s)%R
                  /\ confidence m
                     = FaceRecognitionService.distanceToConfidence (distance m)
              | None => True
              end).
  unfold FaceRecognitionService.findBestMatch. intros H.
  destruct (fold_result _ _ _) as [acc|e] eqn:E; simpl in H; [|discriminate].
  injection H as H.
  assert (Pacc : P acc).
  { apply (fold_result_inv P _ _) with (a := (None, Num.Infinity)) (3 := E);
      [|exact I].
    intros a [faceId knownFace] a' Pa F. unfold FaceRecognitionService.scanFace in F.
    apply (fold_result_inv P _ _) with (a := a) (3 := F); [|exact Pa].
    clear. intros a i a' Pa F. unfold FaceRecognitionService.scanDescriptor in F.
    destruct (nth_error _ i) as [kd|]; [|injection F as <-; exact Pa].
    destruct (FaceRecognitionService.calculateEuclideanDistance q kd) as [d|e] eqn:D;
      simpl in F; [|discriminate].
    destruct (Num.lt_ext d (snd a) && Num.leb d _) eqn:T;
      injection F as <-; [|exact Pa].
    apply andb_true_iff in T as [_ T]. apply NumFacts.leb_true in T.
    apply DistanceFacts.distance_ok_inv in D as [_ ->].
    unfold P. simpl. repeat split; auto. apply DistanceFacts.euclidean_nonneg. }
  unfold P in Pacc. rewrite H in Pacc. exact Pacc.
Qed.

(** A loop whose body throws nothing but [e], and throws it at some
    element whatever the state, throws [e]. *)
Lemma fold_result_throws {A B : Type} (f : A -> B -> result A) (e : exn)
    (l : list B) (b0 : B) :
  In b0 l ->
  (forall a, f a b0 = Throw e) ->
  (forall a b e', In b l -> f a b = Throw e' -> e' = e) ->
  forall a, fold_result f l a = Throw e.
Proof.
  induction l as [|b l IH]; intros I T U a; [destruct I|].
  simpl. destruct (f a b) as [a'|e'] eqn:E; simpl.
  - destruct I as [->|I]; [rewrite T in E; discriminate|].
    apply IH; [exact I|exact T|].
    intros a0 b1 e1 I1. apply U. now right.
  - f_equal. apply (U a b e'); [now left|exact E].
Qed.

(** A stored descriptor of another length than the query makes the
    whole scan throw the length-mismatch error, wherever it sits. *)
Lemma findBestMatch_mismatch (s : FaceRecognitionService.t) (q : Float32Array)
    (c : Matcher.candidate) :
  In c (Matcher.candidates s) ->
  length (Matcher.c_descriptor c) <> length q ->
  FaceRecognitionService.findBestMatch s q
  = Throw (Error "Descriptors must have the same length").
Proof.
  intros I N. unfold FaceRecognitionService.findBestMatch.
  set (E := Error "Descriptors must have the same length").
  assert (only : forall faceId knownFace a i e',
             FaceRecognitionService.scanDescriptor s q faceId knownFace a i
             = Throw e' -> e' = E).
  { intros faceId knownFace a i e' H.
    unfold FaceRecognitionService.scanDescriptor in H.
    destruct (nth_error _ i) as [kd|]; [|discriminate].
    destruct (Nat.eq_dec (length q) (length kd)) as [L|L].
    - rewrite (DistanceFacts.distance_equal_length q kd L) in H. simpl in H.
      destruct (_ && _); discriminate.
    - rewrite (DistanceFacts.distance_unequal_length q kd L) in H.
      simpl in H. injection H as <-. reflexivity. }
  apply in_flat_map in I as (entry & Ie & Ic).
  rewrite (fold_result_throws (FaceRecognitionService.scanFace s q) E
             (faces (FaceRecognitionService.faceDatabase s)) entry Ie);
    [reflexivity| |].
  - intros a. destruct entry as [faceId knownFace].
    unfold FaceRecognitionService.scanFace.
    unfold Matcher.candidatesOf, Matcher.indexed in Ic. simpl fst in Ic.
    simpl snd in Ic. apply in_map_iff in Ic as ([i kd] & <- & Ip).
    simpl in N.
    assert (Ii : In i (seq 0 (length (descriptors knownFace)))).
    { apply in_combine_l in Ip. exact Ip. }
    assert (Ni : nth_error (descriptors knownFace) i = Some kd).
    { clear -Ip. revert Ip. generalize (descriptors knownFace) as ds.
      assert (G : forall ds k, In (i, kd) (combine (seq k (length ds)) ds) ->
                               nth_error ds (i - k) = Some kd /\ k <= i).
      { induction ds as [|x ds IH]; intros k H; [destruct H|].
        simpl in H. destruct H as [H|H].
        - injection H as -> ->. rewrite Nat.sub_diag. split; [reflexivity|lia].
        - destruct (IH (S k) H) as [Hn Hk]. split; [|lia].
          replace (i - k) with (S (i - S k)) by lia. exact Hn. }
      intros ds H. destruct (G ds 0 H) as [Hn _].
      rewrite Nat.sub_0_r in Hn. exact Hn. }
    apply (fold_result_throws _ E _ i Ii).
    + intros a0. unfold FaceRecognitionService.scanDescriptor. rewrite Ni.
      rewrite DistanceFacts.distance_unequal_length; [reflexivity|].
      intros L. apply N. now symmetry.
    + intros a0 b e' _ H. exact (only _ _ _ _ _ H).
  - intros a [faceId knownFace] e' _ H.
    unfold FaceRecognitionService.scanFace in H.
    destruct (fold_result _ (seq 0 _) a) as [r|e0] eqn:F; [discriminate|].
    injection H as <-.
    clear -F only. revert a F.
    induction (seq 0 (length (descriptors knownFace))) as [|i l IH];
      intros a F; [discriminate|].
    simpl in F.
    destruct (FaceRecognitionService.scanDescriptor s q faceId knownFace a i)
      as [a'|e1] eqn:D; simpl in F.
    + exact (IH a' F).
    + injection F as <-. exact (only _ _ _ _ _ D).
Qed.


Lemma tie_store_uniform :
  forall c, In c (Matcher.candidates tie_store) ->
            length (Matcher.c_descriptor c) = length [1%R; 0%R].
Proof.
  intros c H. simpl in H. destruct H as [<-|[<-|[]]]; reflexivity.
Defined.


Lemma euclidean_self_10 : Distance.euclidean [1%R; 0%R] [1%R; 0%R] = 0%R.
Proof.
  unfold Distance.euclidean. simpl.
  replace ((1 - 1) * (1 - 1) + ((0 - 0) * (0 - 0) + 0))%R with 0%R by lra.
  apply sqrt_0.
Qed.

(** On a tie the earlier entry wins: the match names the first identity. *)
Example findBestMatch_tie :
  FaceRecognitionService.findBestMatch tie_store [1%R; 0%R]
  = Ok (Some {| personName := "Amy";
                confidence := FaceRecognitionService.distanceToConfidence 0;
                distance := 0%R;
                descriptorId := "amy_0" |}).
Proof.
  unfold FaceRecognitionService.findBestMatch.
  rewrite (MatcherFacts.scan_candidates tie_store _ _ _ tie_store_uniform).
  assert (L : Num.leb 0 (FaceRecognitionService.MAX_DISTANCE tie_store) = true)
    by (apply NumFacts.leb_true; simpl; lra).
  assert (N : Num.ltb 0 0 = false) by (apply NumFacts.ltb_false; lra).
  simpl flat_map. cbn [fold_left].
  unfold Matcher.step, Matcher.matchOf, Matcher.distanceTo.
  cbn [Matcher.c_descriptor Matcher.c_face Matcher.c_faceId Matcher.c_index
       snd fst name].
  rewrite euclidean_self_10. cbn [Num.lt_ext]. rewrite L. cbn [andb snd Num.lt_ext].
  rewrite N. reflexivity.
Qed.


(* ================================================================== *)
(** * The decision of [recognizeFace] under the default thresholds *)
(* ================================================================== *)

Module GateFacts.
Local Open Scope R_scope.
Import Gate.

Lemma ln_2_lt_1 : ln 2 < 1.
Proof.
  rewrite <- (ln_exp 1). apply ln_increasing; [lra|].
  pose proof (exp_ineq1 1). lra.
Qed.

Lemma exp_half : exp (- ln 2) = 1 / 2.
Proof. rewrite exp_Ropp, exp_ln by lra. lra. Qed.

(** [exp(-2 d) >= 0.5] says [d <= ln(2)/2]. *)
Lemma half_confidence (d : R) : 0.5 <= exp (- (2 * d)) <-> d <= ln 2 / 2.
Proof.
  replace 0.5 with (exp (- ln 2)) by (rewrite exp_half; lra). split; intros H.
  - destruct (Rle_or_lt d (ln 2 / 2)) as [L|L]; [exact L|].
    assert (exp (- (2 * d)) < exp (- ln 2)) by (apply exp_increasing; lra).
    lra.
  - destruct (Req_dec (- ln 2) (- (2 * d))) as [->|N]; [lra|].
    left. apply exp_increasing. lra.
Qed.

Lemma recognize_decision (now : Date) (db : FaceStore) (q : Float32Array)
    (m : FaceMatch) :
  FaceRecognitionService.findBestMatch (default_service now db) q = Ok (Some m) ->
  isMatch (FaceRecognitionService.recognizeFace (default_service now db) (Some q))
  = Num.leb (distance m) (ln 2 / 2).
Proof.
  intros F. destruct (findBestMatch_sound _ _ _ F) as (P & M & C).
  unfold FaceRecognitionService.recognizeFace. rewrite F.
  assert (G : Num.leb (FaceRecognitionService.MIN_CONFIDENCE (default_service now db))
                      (confidence m)
              = Num.leb (distance m) (ln 2 / 2)).
  { rewrite C, (DistanceFacts.confidence_exp _ P). simpl.
    destruct (Num.leb (distance m) (ln 2 / 2)) eqn:E.
    - apply NumFacts.leb_true. apply half_confidence.
      apply NumFacts.leb_true. exact E.
    - apply NumFacts.leb_false. apply NumFacts.leb_false in E.
      destruct (Rle_or_lt 0.5 (exp (- (2 * distance m)))) as [L|L]; [|exact L].
      apply half_confidence in L. lra. }
  rewrite G. apply NumFacts.leb_true in M. rewrite M.
  destruct (Num.leb (distance m) (ln 2 / 2)); reflexivity.
Qed.

End GateFacts.

(** C9. With the thresholds of the constructor (minimum confidence 0.5,
    maximum distance 0.6) a query is matched only if its best match has
    [exp(-2 d) >= 0.5], that is [d <= ln(2)/2]; a best match at a
    distance in [(ln(2)/2, 0.6]] is unmatched; and [ln(2)/2 < 0.6], so
    the confidence gate is the one that binds. *)
Theorem recognizeFace_default_gate (now : Date) (db : FaceStore)
    (q : Float32Array) :
  let s := Gate.default_service now db in
  (isMatch (FaceRecognitionService.recognizeFace s (Some q)) = true ->
   exists m,
     FaceRecognitionService.findBestMatch s q = Ok (Some m)
     /\ (0.5 <= exp (- (2 * distance m)))%R
     /\ (distance m <= ln 2 / 2)%R)
  /\ (forall m,
         FaceRecognitionService.findBestMatch s q = Ok (Some m) ->
         (ln 2 / 2 < distance m)%R -> (distance m <= 0.6)%R ->
         isMatch (FaceRecognitionService.recognizeFace s (Some q)) = false)
  /\ (forall m,
         FaceRecognitionService.findBestMatch s q = Ok (Some m) ->
         (distance m <= ln 2 / 2)%R ->
         isMatch (FaceRecognitionService.recognizeFace s (Some q)) = true)
  /\ (ln 2 / 2 < 0.6)%R.
Proof.
  intros s. split; [|split; [|split]].
  - intros H.
    destruct (FaceRecognitionService.findBestMatch s q) as [[m|]|e] eqn:F.
    + exists m. split; [reflexivity|].
      unfold s in *. rewrite (GateFacts.recognize_decision now db q m F) in H.
      apply NumFacts.leb_true in H. split; [|exact H].
      apply GateFacts.half_confidence. exact H.
    + unfold FaceRecognitionService.recognizeFace in H. rewrite F in H.
      discriminate.
    + unfold FaceRecognitionService.recognizeFace in H. rewrite F in H.
      discriminate.
  - intros m F L _. unfold s. rewrite (GateFacts.recognize_decision now db q m F).
    apply NumFacts.leb_false. exact L.
  - intros m F L. unfold s. rewrite (GateFacts.recognize_decision now db q m F).
    apply NumFacts.leb_true. exact L.
  - pose proof GateFacts.ln_2_lt_1. lra.
Qed.

Lemma euclidean_half : Distance.euclidean [0.5%R] [0%R] = 0.5%R.
Proof.
  unfold Distance.euclidean. simpl.
  replace ((0.5 - 0) * (0.5 - 0) + 0)%R with (0.5 * 0.5)%R by lra.
  apply sqrt_square. lra.
Qed.

Lemma findBestMatch_half :
  FaceRecognitionService.findBestMatch
    (Gate.default_service 0%Z half_store) [0.5%R]
  = Ok (Some half_match).
Proof.
  unfold FaceRecognitionService.findBestMatch.
  rewrite MatcherFacts.scan_candidates.
  - assert (L : Num.leb 0.5 0.6 = true) by (apply NumFacts.leb_true; lra).
    simpl flat_map. cbn [fold_left].
    unfold Matcher.step, Matcher.matchOf, Matcher.distanceTo.
    cbn [Matcher.c_descriptor Matcher.c_face Matcher.c_faceId Matcher.c_index
         snd fst name].
    rewrite euclidean_half. cbn [Num.lt_ext]. simpl FaceRecognitionService.MAX_DISTANCE.
    rewrite L. reflexivity.
  - intros c H. simpl in H. destruct H as [<-|[]]. reflexivity.
Defined.

Lemma recognizeFace_default_gate_witness :
  isMatch (FaceRecognitionService.recognizeFace
             (Gate.default_service 0%Z half_store) (Some [0.5%R]))
  = false.
Proof.
  apply (proj1 (proj2 (recognizeFace_default_gate 0%Z half_store [0.5%R]))
           half_match).
  - exact findBestMatch_half.
  - simpl. pose proof GateFacts.ln_2_lt_1. lra.
  - simpl. lra.
Defined.

(* ================================================================== *)
(** * The authoritative store and its counter *)
(* ================================================================== *)

Module StoreFacts.
Import FaceRecognitionService.
Local Open Scope Z_scope.
Import Store.

Lemma get_In (m : entries) (k : string) (f : KnownFace) :
  get m k = Some f -> In (k, f) m.
Proof.
  induction m as [|[k' f'] r IH]; simpl; [discriminate|].
  unfold get. simpl. destruct (String.eqb_spec k' k) as [->|N]; intros H.
  - injection H as ->. now left.
  - right. exact (IH H).
Qed.

Lemma get_None_keys (m : entries) (k : string) :
  get m k = None <-> ~ In k (JsMap.keys m).
Proof.
  induction m as [|[k' f'] r IH]; simpl; [tauto|].
  unfold get. simpl. destruct (String.eqb_spec k' k) as [->|N].
  - split; [discriminate|]. intros H. exfalso. apply H. now left.
  - unfold get in IH. rewrite IH. tauto.
Qed.

Lemma size_set_present (m : entries) (k : string) (f v : KnownFace) :
  get m k = Some f ->
  JsMap.keys (JsMap.set String.eqb m k v) = JsMap.keys m
  /\ sumLengths (JsMap.set String.eqb m k v) = sumLengths m - count f + count v.
Proof.
  induction m as [|[k' f'] r IH]; unfold get; simpl; [discriminate|].
  destruct (String.eqb_spec k' k) as [->|N]; intros H; simpl.
  - injection H as ->. split; [reflexivity|lia].
  - destruct (IH H) as [-> ->]. split; [reflexivity|lia].
Qed.

Lemma size_set_absent (m : entries) (k : string) (v : KnownFace) :
  get m k = None ->
  JsMap.set String.eqb m k v = m ++ [(k, v)].
Proof.
  induction m as [|[k' f'] r IH]; unfold get; simpl; [reflexivity|].
  destruct (String.eqb k' k); [discriminate|].
  intros H. now rewrite (IH H).
Qed.

Lemma sumLengths_app (m1 m2 : entries) :
  sumLengths (m1 ++ m2) = sumLengths m1 + sumLengths m2.
Proof.
  induction m1 as [|[k f] r IH]; simpl; [reflexivity|]. rewrite IH. lia.
Qed.

Lemma set_In (m : entries) (k : string) (v : KnownFace) (k0 : string)
    (f0 : KnownFace) :
  In (k0, f0) (JsMap.set String.eqb m k v) ->
  (k0, f0) = (k, v) \/ In (k0, f0) m.
Proof.
  induction m as [|[k' f'] r IH]; simpl.
  - intros [H|[]]. left. now symmetry.
  - destruct (String.eqb k' k); simpl; intros [H|H].
    + left. now symmetry.
    + right. now right.
    + right. now left.
    + destruct (IH H) as [E|I]; [left|right; right]; assumption.
Qed.

Lemma delete_sum (m : entries) (k : string) (f : KnownFace) :
  get m k = Some f ->
  sumLengths (JsMap.delete String.eqb m k) = sumLengths m - count f.
Proof.
  induction m as [|[k' f'] r IH]; unfold get; simpl; [discriminate|].
  destruct (String.eqb k' k); intros H; simpl.
  - injection H as ->. lia.
  - rewrite (IH H). lia.
Qed.

Lemma delete_In (m : entries) (k k0 : string) (f0 : KnownFace) :
  In (k0, f0) (JsMap.delete String.eqb m k) -> In (k0, f0) m.
Proof.
  induction m as [|[k' f'] r IH]; simpl; [tauto|].
  destruct (String.eqb k' k); simpl; [tauto|]. intros [H|H]; auto.
Qed.

Lemma delete_keys (m : entries) (k : string) :
  NoDup (JsMap.keys m) ->
  NoDup (JsMap.keys (JsMap.delete String.eqb m k))
  /\ ~ In k (JsMap.keys (JsMap.delete String.eqb m k))
  /\ length (JsMap.delete String.eqb m k)
     = (length m - match get m k with Some _ => 1 | None => 0 end)%nat.
Proof.
  induction m as [|[k' f'] r IH]; unfold get; simpl; intros H.
  - repeat split; [constructor|tauto].
  - inversion H as [|? ? Hk Hr]; subst.
    destruct (String.eqb_spec k' k) as [->|N]; simpl.
    + repeat split; [exact Hr|exact Hk|lia].
    + destruct (IH Hr) as (D & A & L). repeat split.
      * constructor; [|exact D]. intros I. apply Hk.
        apply in_map_iff in I as ([k0 f0] & E & I). simpl in E. subst k0.
        apply in_map_iff. exists (k', f0). split; [reflexivity|].
        exact (delete_In r k k' f0 I).
      * intros [E|I]; [exact (N E)|exact (A I)].
      * unfold get in L. rewrite L.
        destruct (JsMap.get String.eqb r k) eqn:G; [|lia].
        apply get_In in G. destruct r; [destruct G|simpl; lia].
Qed.

Lemma constructor_well_formed (now : Date) : well_formed (constructor now).
Proof.
  repeat split; simpl; [constructor|]. intros k f [].
Qed.

Lemma clearDatabase_well_formed (now : Date) (s : t) :
  well_formed (clearDatabase now s).
Proof.
  repeat split; simpl; [constructor|]. intros k f [].
Qed.

Lemma addKnownFace_failed (now : Date) (name : string) (s : t) :
  addKnownFace now name None s = (false, s).
Proof. reflexivity. Qed.

(** A successful add appends to the identity, creating it if needed,
    and moves the counter up by one. *)
Lemma addKnownFace_added (now : Date) (name : string) (d : Float32Array)
    (s : t) :
  let s' := snd (addKnownFace now name (Some d) s) in
  let before :=
    match get (faces (faceDatabase s)) (generateFaceId name) with
    | Some f => descriptors f
    | None => []
    end in
  fst (addKnownFace now name (Some d) s) = true
  /\ totalDescriptors (faceDatabase s')
     = totalDescriptors (faceDatabase s) + 1
  /\ sumLengths (faces (faceDatabase s')) = sumLengths (faces (faceDatabase s)) + 1
  /\ (well_keyed (faces (faceDatabase s)) -> well_keyed (faces (faceDatabase s')))
  /\ (exists f', get (faces (faceDatabase s')) (generateFaceId name) = Some f'
                 /\ descriptors f' = before ++ [d])
  /\ MAX_DISTANCE s' = MAX_DISTANCE s
  /\ MIN_CONFIDENCE s' = MIN_CONFIDENCE s.
Proof.
  unfold addKnownFace. cbn zeta. simpl fst. simpl snd.
  fold (get (faces (faceDatabase s)) (generateFaceId name)).
  set (k := generateFaceId name). set (m := faces (faceDatabase s)).
  destruct (get m k) as [[i n ds a l]|] eqn:G; simpl.
  - destruct (size_set_present m k _ (mkKnownFace i n (ds ++ [d]) a (Some now)) G)
      as [K S].
    repeat split; auto.
    + rewrite S. unfold count. simpl. rewrite length_app. simpl. lia.
    + rewrite K. apply H.
    + intros k0 f0 I. apply set_In in I as [E|I]; [|now apply H].
      injection E as -> ->. simpl.
      destruct H as [_ H]. exact (H k _ (get_In m k _ G)).
    + exists (mkKnownFace i n (ds ++ [d]) a (Some now)). split; [|reflexivity].
      clear -G. induction m as [|[k' f'] r IH]; unfold get in *; simpl in *;
        [discriminate|].
      destruct (String.eqb k' k) eqn:E; simpl.
      * now rewrite String.eqb_refl.
      * rewrite E. exact (IH G).
  - rewrite (size_set_absent m k _ G).
    repeat split; auto.
    + rewrite sumLengths_app. simpl. unfold count. simpl. lia.
    + unfold JsMap.keys. rewrite map_app. simpl.
      apply NoDup_app; [apply H|repeat constructor; intros []|].
      intros x I [<-|[]]. now apply (proj1 (get_None_keys m k) G).
    + intros k0 f0 I. apply in_app_or in I as [I|[E|[]]]; [now apply H|].
      injection E as <- <-. reflexivity.
    + exists (mkKnownFace k name [d] now (Some now)). split; [|reflexivity].
      clear -G. induction m as [|[k' f'] r IH]; unfold get in *; simpl in *.
      * now rewrite String.eqb_refl.
      * destruct (String.eqb k' k); [discriminate|]. exact (IH G).
Qed.

Lemma addKnownFace_well_formed (now : Date) (name : string)
    (extracted : option Float32Array) (s : t) :
  well_formed s -> well_formed (snd (addKnownFace now name extracted s)).
Proof.
  destruct extracted as [d|]; [|auto]. intros [C W].
  destruct (addKnownFace_added now name d s) as (_ & T & S & K & _).
  split; [|exact (K W)]. unfold consistent in *. rewrite T, S, C. reflexivity.
Qed.

Lemma removeKnownFace_present (now : Date) (name : string) (s : t)
    (face : KnownFace) :
  get (faces (faceDatabase s)) (generateFaceId name) = Some face ->
  let s' := snd (removeKnownFace now name s) in
  fst (removeKnownFace now name s) = true
  /\ totalDescriptors (faceDatabase s')
     = totalDescriptors (faceDatabase s) - count face
  /\ sumLengths (faces (faceDatabase s'))
     = sumLengths (faces (faceDatabase s)) - count face
  /\ (well_keyed (faces (faceDatabase s)) ->
      well_keyed (faces (faceDatabase s'))
      /\ get (faces (faceDatabase s')) (generateFaceId name) = None).
Proof.
  intros G. unfold removeKnownFace. cbn zeta. unfold get in G. rewrite G.
  simpl. repeat split.
  - exact (delete_sum _ _ _ G).
  - apply delete_keys, H.
  - intros k f I. apply H. exact (delete_In _ _ _ _ I).
  - apply get_None_keys. apply delete_keys, H.
Qed.

Lemma removeKnownFace_absent_same (now : Date) (name : string) (s : t) :
  get (faces (faceDatabase s)) (generateFaceId name) = None ->
  removeKnownFace now name s = (false, s).
Proof.
  intros G. unfold removeKnownFace. cbn zeta. unfold get in G. rewrite G.
  reflexivity.
Qed.

Lemma removeKnownFace_well_formed (now : Date) (name : string) (s : t) :
  well_formed s -> well_formed (snd (removeKnownFace now name s)).
Proof.
  intros [C W].
  destruct (get (faces (faceDatabase s)) (generateFaceId name)) as [face|] eqn:G.
  - destruct (removeKnownFace_present now name s face G) as (_ & T & S & K).
    split; [|exact (proj1 (K W))].
    unfold consistent in *. rewrite T, S, C. reflexivity.
  - rewrite (removeKnownFace_absent_same now name s G). split; assumption.
Qed.

End StoreFacts.

Lemma run_well_formed (created : Date) (ops : list History.operation) :
  Store.well_formed (History.run created ops).
Proof.
  unfold History.run.
  assert (G : forall s, Store.well_formed s ->
                        Store.well_formed (fold_left History.apply ops s)).
  { induction ops as [|o ops IH]; intros s W; [exact W|].
    simpl. apply IH. destruct o as [now name ex|now name|now|options]; simpl.
    - now apply StoreFacts.addKnownFace_well_formed.
    - now apply StoreFacts.removeKnownFace_well_formed.
    - apply StoreFacts.clearDatabase_well_formed.
    - exact W. }
  apply G, StoreFacts.constructor_well_formed.
Qed.

(** C3. In every state the recognition service reaches from its
    construction, [totalDescriptors] is the sum of the descriptor counts
    of the stored identities.  From such a state a successful add moves
    the counter up by one (a failed one changes nothing), a removal
    moves it down by the count of the identity removed, and a clear
    leaves no identity and a counter of zero. *)
Theorem totalDescriptors_invariant (created : Date)
    (ops : list History.operation) :
  let s := History.run created ops in
  let total (x : FaceRecognitionService.t) :=
    totalDescriptors (FaceRecognitionService.faceDatabase x) in
  let stored (x : FaceRecognitionService.t) :=
    faces (FaceRecognitionService.faceDatabase x) in
  total s = Store.sumLengths (stored s)
  /\ (forall now name d,
         let r := FaceRecognitionService.addKnownFace now name (Some d) s in
         fst r = true
         /\ total (snd r) = (total s + 1)%Z
         /\ total (snd r) = Store.sumLengths (stored (snd r)))
  /\ (forall now name,
         FaceRecognitionService.addKnownFace now name None s = (false, s))
  /\ (forall now name face,
         Store.get (stored s) (FaceRecognitionService.generateFaceId name)
         = Some face ->
         let r := FaceRecognitionService.removeKnownFace now name s in
         fst r = true
         /\ total (snd r) = (total s - Z.of_nat (length (descriptors face)))%Z
         /\ Store.get (stored (snd r)) (FaceRecognitionService.generateFaceId name)
            = None
         /\ total (snd r) = Store.sumLengths (stored (snd r)))
  /\ (forall now,
         let s' := FaceRecognitionService.clearDatabase now s in
         stored s' = [] /\ total s' = 0%Z
         /\ total s' = Store.sumLengths (stored s')).
Proof.
  intros s total stored.
  destruct (run_well_formed created ops) as [C W]. fold s in C, W.
  split; [exact C|]. split; [|split; [|split]].
  - intros now name d r.
    pose proof (StoreFacts.addKnownFace_well_formed now name (Some d) s (conj C W))
      as [C' _].
    destruct (StoreFacts.addKnownFace_added now name d s) as (B & T & _).
    split; [exact B|split; [exact T|exact C']].
  - intros now name. reflexivity.
  - intros now name face G r.
    pose proof (StoreFacts.removeKnownFace_well_formed now name s (conj C W))
      as [C' _].
    destruct (StoreFacts.removeKnownFace_present now name s face G) as (B & T & _ & K).
    split; [exact B|split; [exact T|split; [exact (proj2 (K W))|exact C']]].
  - intros now s'. split; [reflexivity|split; reflexivity].
Qed.

Lemma totalDescriptors_invariant_witness :
  let s := History.run 0%Z [History.Add 1%Z "Amy" (Some [1%R; 0%R]);
                            History.Add 2%Z "amy" (Some [0%R; 1%R])] in
  let r := FaceRecognitionService.removeKnownFace 3%Z "AMY" s in
  fst r = true
  /\ totalDescriptors (FaceRecognitionService.faceDatabase (snd r)) = (2 - 2)%Z.
Proof.
  intros s r.
  destruct (proj1 (proj2 (proj2 (proj2
             (totalDescriptors_invariant 0%Z
                [History.Add 1%Z "Amy" (Some [1%R; 0%R]);
                 History.Add 2%Z "amy" (Some [0%R; 1%R])]))))
             3%Z "AMY" (mkKnownFace "amy" "Amy" [[1%R; 0%R]; [0%R; 1%R]]
                                    1%Z (Some 2%Z)) eq_refl)
    as (B & T & _).
  split; [exact B|exact T].
Defined.

(** C8. Removing a display name whose id is not in the store returns
    [false] and leaves the service, hence its statistics (number of
    identities, number of descriptors, time of last update), as they
    were; the same holds through the wrapper [removeFace]. *)
Theorem removeKnownFace_absent (h : Host) (now : Date) (name : string)
    (d : FaceDatabase.t) :
  let s := FaceDatabase.faceRecognitionService d in
  Store.get (faces (FaceRecognitionService.faceDatabase s))
            (FaceRecognitionService.generateFaceId name) = None ->
  fst (FaceRecognitionService.removeKnownFace now name s) = false
  /\ FaceRecognitionService.getDatabaseStats
       (snd (FaceRecognitionService.removeKnownFace now name s))
     = FaceRecognitionService.getDatabaseStats s
  /\ FaceDatabase.removeFace h now name d = (false, d)
  /\ fst (FaceDatabase.getStatistics
            (snd (FaceDatabase.removeFace h now name d)))
     = fst (FaceDatabase.getStatistics d).
Proof.
  intros s G.
  rewrite (StoreFacts.removeKnownFace_absent_same now name s G). simpl.
  assert (R : FaceDatabase.removeFace h now name d = (false, d)).
  { unfold FaceDatabase.removeFace. fold s.
    rewrite (StoreFacts.removeKnownFace_absent_same now name s G).
    destruct d. reflexivity. }
  rewrite R. repeat split.
Qed.

Lemma removeKnownFace_absent_witness :
  fst (FaceRecognitionService.removeKnownFace 5%Z "Nobody" tie_store) = false
  /\ FaceRecognitionService.getDatabaseStats
       (snd (FaceRecognitionService.removeKnownFace 5%Z "Nobody" tie_store))
     = FaceRecognitionService.getDatabaseStats tie_store.
Proof.
  destruct (removeKnownFace_absent Hosts.silent 5%Z "Nobody"
              (FaceDatabase.mk (mkView [] 0%Z 0%Z) tie_store None) eq_refl)
    as (B & S & _).
  exact (conj B S).
Defined.

(* ================================================================== *)
(** * The view after a pull from the recognition service *)
(* ================================================================== *)

Module SyncFacts.
Import FaceDatabase.
Import Sync.

Lemma set_fresh (pre : list KnownFace) (f : KnownFace) :
  ~ In (id f) (map id pre) ->
  JsMap.set Json.sameValueZero (mirror pre) (key_of (id f)) (of_known f)
  = mirror (pre ++ [f]).
Proof.
  induction pre as [|g pre IH]; simpl; intros N; [reflexivity|].
  destruct (String.eqb_spec (id g) (id f)) as [E|_].
  - exfalso. apply N. now left.
  - rewrite IH; [reflexivity|]. intros I. apply N. now right.
Qed.

Lemma pull_mirror (l pre : list KnownFace) :
  NoDup (map id (pre ++ l)) ->
  fold_left (fun m face =>
               JsMap.set Json.sameValueZero m (key_of (id face)) (of_known face))
            l (mirror pre)
  = mirror (pre ++ l).
Proof.
  revert pre. induction l as [|f l IH]; intros pre N; simpl.
  - now rewrite app_nil_r.
  - rewrite set_fresh.
    + replace (pre ++ f :: l) with ((pre ++ [f]) ++ l)
        by (rewrite <- app_assoc; reflexivity).
      apply IH. rewrite <- app_assoc. exact N.
    + rewrite map_app in N. apply NoDup_remove_2 in N.
      intros I. apply N. apply in_or_app. now left.
Qed.

Lemma values_ids (m : Store.entries) :
  Store.well_keyed m -> map id (JsMap.values m) = JsMap.keys m.
Proof.
  intros [_ K]. induction m as [|[k f] r IH]; simpl; [reflexivity|].
  rewrite (K k f) by now left. f_equal. apply IH.
  intros k0 f0 I. apply K. now right.
Qed.

(** After a pull the view is the mirror of the stored faces. *)
Lemma sync_view (d : t) :
  Store.well_keyed
    (faces (FaceRecognitionService.faceDatabase (faceRecognitionService d))) ->
  vfaces (database (syncFromRecognitionService d))
  = mirror (FaceRecognitionService.getKnownFaces (faceRecognitionService d)).
Proof.
  intros W. unfold syncFromRecognitionService. simpl.
  apply (pull_mirror _ []). simpl.
  unfold FaceRecognitionService.getKnownFaces.
  rewrite (values_ids _ W). apply W.
Qed.

Lemma mirror_get (m : Store.entries) (k : string) :
  Store.well_keyed m ->
  JsMap.get Json.sameValueZero (mirror (JsMap.values m)) (key_of k)
  = option_map of_known (Store.get m k).
Proof.
  intros [_ K]. induction m as [|[k' f] r IH]; simpl; [reflexivity|].
  unfold Store.get. simpl. rewrite (K k' f) by now left.
  destruct (String.eqb k' k); [reflexivity|].
  apply IH. intros k0 f0 I. apply K. now right.
Qed.

Lemma sync_get (d : t) (faceId : string) :
  Store.well_keyed
    (faces (FaceRecognitionService.faceDatabase (faceRecognitionService d))) ->
  get_face (syncFromRecognitionService d) faceId
  = option_map of_known
      (Store.get (faces (FaceRecognitionService.faceDatabase
                           (faceRecognitionService d))) faceId).
Proof.
  intros W. unfold get_face. rewrite (sync_view d W).
  apply mirror_get. exact W.
Qed.

Lemma sync_service (d : t) :
  faceRecognitionService (syncFromRecognitionService d)
  = faceRecognitionService d.
Proof. reflexivity. Qed.

Lemma sync_idempotent (d : t) :
  syncFromRecognitionService (syncFromRecognitionService d)
  = syncFromRecognitionService d.
Proof. reflexivity. Qed.

End SyncFacts.

(* ================================================================== *)
(** * Training and the limit of descriptors per identity *)
(* ================================================================== *)

Module TrainingFacts.
Import FaceDatabase TrainingCount.
Local Open Scope nat_scope.

Lemma reached_limit_stored (d : t) (faceId : string) :
  service_ok d ->
  reached_limit (syncFromRecognitionService d) faceId
  = (MAX_DESCRIPTORS_PER_FACE <=? stored (faceRecognitionService d) faceId).
Proof.
  intros [_ W]. unfold reached_limit, stored.
  rewrite (SyncFacts.sync_get d faceId W).
  destruct (Store.get _ faceId); reflexivity.
Qed.

Lemma stored_after_add (now : Date) (name : string) (e : Float32Array)
    (s : FaceRecognitionService.t) :
  stored (snd (FaceRecognitionService.addKnownFace now name (Some e) s))
         (generateFaceId name)
  = S (stored s (generateFaceId name)).
Proof.
  destruct (StoreFacts.addKnownFace_added now name e s)
    as (_ & _ & _ & _ & (f' & G & D) & _).
  unfold stored. change (generateFaceId name)
    with (FaceRecognitionService.generateFaceId name).
  rewrite G, D, length_app. simpl.
  destruct (Store.get (faces (FaceRecognitionService.faceDatabase s)) _);
    simpl; lia.
Qed.

Lemma trainLoop_tally (now : Date) (name : string) (samples : list sample) :
  forall (added : nat) (d : t),
    service_ok d ->
    let r := trainLoop now name (generateFaceId name) samples added d in
    let c := stored (faceRecognitionService d) (generateFaceId name) in
    fst r = fst (tally c added samples)
    /\ stored (faceRecognitionService (snd r)) (generateFaceId name)
       = snd (tally c added samples)
    /\ service_ok (snd r).
Proof.
  induction samples as [|[|[e|]] rest IH]; intros added d W; cbn zeta.
  - simpl. auto.
  - simpl. apply IH. exact W.
  - cbn [trainLoop tally].
    destruct (FaceRecognitionService.addKnownFace now name (Some e)
                (faceRecognitionService d)) as [ok s] eqn:A.
    assert (Eo : ok = true).
    { pose proof (StoreFacts.addKnownFace_added now name e (faceRecognitionService d))
        as (B & _). rewrite A in B. exact B. }
    assert (Es : s = snd (FaceRecognitionService.addKnownFace now name (Some e)
                            (faceRecognitionService d))) by now rewrite A.
    assert (Ws : service_ok (syncFromRecognitionService (with_service d s))).
    { unfold service_ok. simpl. rewrite Es.
      apply StoreFacts.addKnownFace_well_formed. exact W. }
    assert (Ec : stored s (generateFaceId name)
                 = S (stored (faceRecognitionService d) (generateFaceId name))).
    { rewrite Es. apply stored_after_add. }
    subst ok.
    rewrite (reached_limit_stored (with_service d s)) by exact Ws.
    cbn [faceRecognitionService with_service]. rewrite Ec.
    destruct (MAX_DESCRIPTORS_PER_FACE <=? S _) eqn:L.
    + cbn [fst snd]. simpl faceRecognitionService. auto.
    + specialize (IH (S added) _ Ws). cbn zeta in IH.
      simpl faceRecognitionService in IH. rewrite Ec in IH. exact IH.
  - cbn [trainLoop tally].
    rewrite StoreFacts.addKnownFace_failed.
    assert (Ed : with_service d (faceRecognitionService d) = d)
      by (destruct d; reflexivity).
    rewrite Ed. rewrite (reached_limit_stored d _ W).
    destruct (MAX_DESCRIPTORS_PER_FACE <=? _) eqn:L.
    + cbn [fst snd]. auto.
    + apply (IH added (syncFromRecognitionService d)). exact W.
Qed.

Lemma saveToStorage_same (h : Host) (now : Date) (d : t) :
  database (saveToStorage h now d) = database (syncFromRecognitionService d)
  /\ faceRecognitionService (saveToStorage h now d) = faceRecognitionService d.
Proof.
  unfold saveToStorage, exportDatabase.
  destruct (rbind _ _); split; reflexivity.
Qed.

(** What [trainFace] reports and leaves, by the count [tally]. *)
Lemma trainFace_tally (h : Host) (now : Date) (name : string)
    (samples : list sample) (d : t) :
  service_ok d -> samples <> [] ->
  let r := trainFace h now name samples d in
  let c := stored (faceRecognitionService d) (generateFaceId name) in
  TrainingOutcome.samplesAdded (fst r) = fst (tally c 0 samples)
  /\ TrainingOutcome.totalSamples (fst r) = snd (tally c 0 samples)
  /\ stored (faceRecognitionService (snd r)) (generateFaceId name)
     = snd (tally c 0 samples)
  /\ service_ok (snd r).
Proof.
  intros W N. cbn zeta. unfold trainFace.
  destruct samples as [|x rest]; [contradiction|].
  set (samples := x :: rest).
  destruct (trainLoop_tally now name samples 0 d W) as (A & C & W').
  destruct (trainLoop now name (generateFaceId name) samples 0 d)
    as [added d1] eqn:L.
  cbn [fst snd] in *.
  destruct (saveToStorage_same h now (syncFromRecognitionService d1)) as [V S].
  assert (G : get_face (saveToStorage h now (syncFromRecognitionService d1))
                       (generateFaceId name)
              = get_face (syncFromRecognitionService d1) (generateFaceId name)).
  { unfold get_face. rewrite V. reflexivity. }
  rewrite G, (SyncFacts.sync_get d1 _ (proj2 W')).
  split; [exact A|]. split; [|split].
  - rewrite <- C. unfold stored. destruct (Store.get _ _); reflexivity.
  - rewrite S. exact C.
  - unfold service_ok. rewrite S. exact W'.
Qed.

(** From below the limit the loop never passes it. *)
Lemma tally_capped (samples : list sample) :
  forall c added, c < MAX_DESCRIPTORS_PER_FACE ->
                  snd (tally c added samples) <= MAX_DESCRIPTORS_PER_FACE.
Proof.
  unfold MAX_DESCRIPTORS_PER_FACE.
  induction samples as [|[|[e|]] rest IH]; intros c added B; cbn [tally];
    unfold MAX_DESCRIPTORS_PER_FACE.
  - simpl. lia.
  - now apply IH.
  - destruct (10 <=? S c) eqn:T; [simpl; lia|].
    apply IH. apply Nat.leb_gt in T. exact T.
  - destruct (10 <=? c) eqn:T; [simpl; lia|]. now apply IH.
Qed.

(** From below the limit, once the stored count has reached the limit
    the loop has returned: the samples that follow change nothing. *)
Lemma trainLoop_stop (now : Date) (name : string) (pre post : list sample) :
  forall (added : nat) (d : t),
    service_ok d ->
    stored (faceRecognitionService d) (generateFaceId name)
    < MAX_DESCRIPTORS_PER_FACE ->
    stored (faceRecognitionService
              (snd (trainLoop now name (generateFaceId name) pre added d)))
           (generateFaceId name)
    = MAX_DESCRIPTORS_PER_FACE ->
    trainLoop now name (generateFaceId name) (pre ++ post) added d
    = trainLoop now name (generateFaceId name) pre added d.
Proof.
  induction pre as [|[|ex] pre IH]; intros added d W B H.
  - simpl in H. lia.
  - simpl. apply IH; assumption.
  - rewrite <- app_comm_cons. cbn [trainLoop] in *.
    destruct (FaceRecognitionService.addKnownFace now name ex
                (faceRecognitionService d)) as [ok s] eqn:A.
    assert (Es : s = snd (FaceRecognitionService.addKnownFace now name ex
                            (faceRecognitionService d))) by now rewrite A.
    assert (Ws : service_ok (syncFromRecognitionService (with_service d s))).
    { unfold service_ok. simpl. rewrite Es.
      apply StoreFacts.addKnownFace_well_formed. exact W. }
    pose proof (reached_limit_stored (with_service d s) (generateFaceId name) Ws)
      as RL.
    destruct (reached_limit (syncFromRecognitionService (with_service d s))
                            (generateFaceId name)) eqn:T; [reflexivity|].
    apply IH; [exact Ws| |exact H].
    symmetry in RL. apply Nat.leb_gt in RL. exact RL.
Qed.

End TrainingFacts.

Lemma fresh_database_ok (h : Host) (created : Date) :
  TrainingCount.service_ok (fresh_database h created).
Proof. apply StoreFacts.constructor_well_formed. Qed.

(** Fifteen successful samples for a fresh identity: ten are stored and
    ten are reported. *)
Lemma trainFace_fifteen (h : Host) (created now : Date) (e : Float32Array) :
  let r := FaceDatabase.trainFace h now "Amy"
             (repeat (Detection (Some e)) 15) (fresh_database h created) in
  FaceDatabase.TrainingOutcome.samplesAdded (fst r) = 10
  /\ FaceDatabase.TrainingOutcome.totalSamples (fst r) = 10
  /\ TrainingCount.stored (FaceDatabase.faceRecognitionService (snd r)) "amy" = 10
  /\ TrainingCount.service_ok (snd r).
Proof.
  intros r.
  pose proof (TrainingFacts.trainFace_tally h now "Amy"
                (repeat (Detection (Some e)) 15) (fresh_database h created)
                (fresh_database_ok h created) ltac:(discriminate)) as P.
  cbn zeta in P. fold r in P.
  change (FaceDatabase.generateFaceId "Amy") with "amy" in P.
  change (TrainingCount.stored
            (FaceDatabase.faceRecognitionService (fresh_database h created))
            "amy") with 0 in P.
  change (TrainingCount.tally 0 0 (repeat (Detection (Some e)) 15))
    with (10, 10) in P.
  exact P.
Qed.

(** One successful sample for an identity that holds [c] descriptors,
    whatever [c] is: it is stored. *)
Lemma trainFace_one_more (h : Host) (now : Date) (e : Float32Array)
    (d : FaceDatabase.t) (c : nat) :
  TrainingCount.service_ok d ->
  TrainingCount.stored (FaceDatabase.faceRecognitionService d) "amy" = c ->
  let r := FaceDatabase.trainFace h now "Amy" [Detection (Some e)] d in
  FaceDatabase.TrainingOutcome.samplesAdded (fst r) = 1
  /\ FaceDatabase.TrainingOutcome.totalSamples (fst r) = S c
  /\ TrainingCount.stored (FaceDatabase.faceRecognitionService (snd r)) "amy"
     = S c
  /\ TrainingCount.service_ok (snd r).
Proof.
  intros W Hc r.
  pose proof (TrainingFacts.trainFace_tally h now "Amy" [Detection (Some e)]
                d W ltac:(discriminate)) as P.
  cbn zeta in P. fold r in P.
  change (FaceDatabase.generateFaceId "Amy") with "amy" in P.
  rewrite Hc in P. cbn [TrainingCount.tally] in P.
  destruct (Nat.leb FaceDatabase.MAX_DESCRIPTORS_PER_FACE (S c)); exact P.
Qed.

(** C2, as the code has it.  For an identity that holds fewer than
    [MAX_DESCRIPTORS_PER_FACE] (10) descriptors when the training starts,
    and for every sequence of samples: the identity holds at most 10
    descriptors afterwards; once the stored count has reached 10 the
    loop has stopped, so the samples that follow change neither the
    outcome nor the state; and 15 successful samples for a fresh
    identity leave exactly 10 stored, with [samplesAdded] 10. *)
Theorem trainFace_capped (h : Host) (now : Date) (name : string)
    (d : FaceDatabase.t) :
  TrainingCount.service_ok d ->
  TrainingCount.stored (FaceDatabase.faceRecognitionService d)
                       (FaceDatabase.generateFaceId name)
  < FaceDatabase.MAX_DESCRIPTORS_PER_FACE ->
  let count (x : FaceDatabase.t) :=
    TrainingCount.stored (FaceDatabase.faceRecognitionService x)
                         (FaceDatabase.generateFaceId name) in
  (forall samples,
      count (snd (FaceDatabase.trainFace h now name samples d))
      <= FaceDatabase.MAX_DESCRIPTORS_PER_FACE)
  /\ (forall pre post,
         count (snd (FaceDatabase.trainFace h now name pre d))
         = FaceDatabase.MAX_DESCRIPTORS_PER_FACE ->
         FaceDatabase.trainFace h now name (pre ++ post) d
         = FaceDatabase.trainFace h now name pre d)
  /\ (forall e,
         count d = 0 ->
         let r := FaceDatabase.trainFace h now name
                    (repeat (Detection (Some e)) 15) d in
         FaceDatabase.TrainingOutcome.samplesAdded (fst r) = 10
         /\ FaceDatabase.TrainingOutcome.totalSamples (fst r) = 10
         /\ count (snd r) = 10).
Proof.
  intros W B count. split; [|split].
  - intros [|x rest].
    + unfold count. simpl. lia.
    + destruct (TrainingFacts.trainFace_tally h now name (x :: rest) d W)
        as (_ & _ & S & _); [discriminate|].
      unfold count. rewrite S. apply TrainingFacts.tally_capped. exact B.
  - intros [|x pre] post H.
    + unfold count in H. simpl in H. lia.
    + unfold count in H. unfold FaceDatabase.trainFace in *.
      cbn [app]. cbn iota in *.
      destruct (FaceDatabase.trainLoop now name _ (x :: pre) 0 d)
        as [added d1] eqn:L.
      cbn [snd] in H.
      rewrite (proj2 (TrainingFacts.saveToStorage_same h now _)) in H.
      rewrite SyncFacts.sync_service in H.
      change (x :: pre ++ post) with ((x :: pre) ++ post).
      rewrite (TrainingFacts.trainLoop_stop now name (x :: pre) post 0 d W B);
        [rewrite L; reflexivity|].
      rewrite L. exact H.
  - intros e Z r.
    pose proof (TrainingFacts.trainFace_tally h now name
                  (repeat (Detection (Some e)) 15) d W ltac:(discriminate)) as P.
    cbn zeta in P. fold r in P. unfold count in Z. rewrite Z in P.
    change (TrainingCount.tally 0 0 (repeat (Detection (Some e)) 15))
      with (10, 10) in P.
    destruct P as (A & T & E & _). auto.
Qed.

Lemma trainFace_capped_witness :
  let r := FaceDatabase.trainFace Hosts.silent 1%Z "Amy"
             (repeat (Detection (Some [1%R; 0%R])) 15)
             (fresh_database Hosts.silent 0%Z) in
  FaceDatabase.TrainingOutcome.samplesAdded (fst r) = 10
  /\ FaceDatabase.TrainingOutcome.totalSamples (fst r) = 10
  /\ TrainingCount.stored (FaceDatabase.faceRecognitionService (snd r))
                          (FaceDatabase.generateFaceId "Amy") = 10.
Proof.
  apply (proj2 (proj2 (trainFace_capped Hosts.silent 1%Z "Amy"
                         (fresh_database Hosts.silent 0%Z)
                         (StoreFacts.constructor_well_formed 0%Z)
                         ltac:(vm_compute; lia)))).
  reflexivity.
Defined.

(** C2 as stated fails for an identity that is at the limit when the
    training starts.  A first training with 15 successful samples leaves
    a fresh identity with 10 descriptors; a second training with one
    successful sample stores an eleventh, and a third a twelfth: the
    loop tests the limit only after it has added. *)
Lemma trainFace_exceeds_limit :
  let e := [1%R; 0%R] in
  let r1 := FaceDatabase.trainFace Hosts.silent 1%Z "Amy"
              (repeat (Detection (Some e)) 15)
              (fresh_database Hosts.silent 0%Z) in
  let r2 := FaceDatabase.trainFace Hosts.silent 2%Z "Amy"
              [Detection (Some e)] (snd r1) in
  let r3 := FaceDatabase.trainFace Hosts.silent 3%Z "Amy"
              [Detection (Some e)] (snd r2) in
  let count (x : FaceDatabase.t) :=
    TrainingCount.stored (FaceDatabase.faceRecognitionService x) "amy" in
  FaceDatabase.TrainingOutcome.samplesAdded (fst r1) = 10
  /\ count (snd r1) = FaceDatabase.MAX_DESCRIPTORS_PER_FACE
  /\ FaceDatabase.TrainingOutcome.samplesAdded (fst r2) = 1
  /\ FaceDatabase.TrainingOutcome.totalSamples (fst r2) = 11
  /\ count (snd r2) = 11
  /\ count (snd r3) = 12
  /\ ~ (count (snd r2) <= FaceDatabase.MAX_DESCRIPTORS_PER_FACE).
Proof.
  cbv beta zeta.
  destruct (trainFace_fifteen Hosts.silent 0%Z 1%Z [1%R; 0%R])
    as (A1 & _ & S1 & W1).
  destruct (trainFace_one_more Hosts.silent 2%Z [1%R; 0%R] _ 10 W1 S1)
    as (A2 & T2 & S2 & W2).
  destruct (trainFace_one_more Hosts.silent 3%Z [1%R; 0%R] _ 11 W2 S2)
    as (_ & _ & S3 & _).
  split; [exact A1|]. split; [exact S1|]. split; [exact A2|].
  split; [exact T2|]. split; [exact S2|]. split; [exact S3|].
  intros Hle.
  pose proof (eq_ind _ (fun n => n <= FaceDatabase.MAX_DESCRIPTORS_PER_FACE)
                Hle _ S2) as Q.
  unfold FaceDatabase.MAX_DESCRIPTORS_PER_FACE in Q. lia.
Qed.

(* ================================================================== *)
(** * Import: the documents that are refused *)
(* ================================================================== *)

Lemma faces_of_non_null (h : Host) (importData : json) :
  importData <> JNull ->
  exists faces,
    Json.prop h importData "faces" = Ok faces
    /\ Json.isArray faces = Document.hasFacesArray importData.
Proof.
  intros N. destruct importData; try contradiction; simpl; eauto.
Qed.

(** A text that parses to [null] is refused through the handler of
    thrown errors, with the message of the [TypeError] for the read of
    [faces], and the database object is left as it was. *)
Lemma importDatabase_null (h : Host) (now : Date) (jsonData : string)
    (d : FaceDatabase.t) :
  JSON_parse h jsonData = Ok JNull ->
  FaceDatabase.importDatabase h now jsonData d
  = ({| FaceDatabase.ImportOutcome.success := false;
        FaceDatabase.ImportOutcome.facesImported := 0;
        FaceDatabase.ImportOutcome.descriptorsImported := 0;
        FaceDatabase.ImportOutcome.message :=
          "Import failed: " ++ nullPropertyMessage h "faces" |}, d).
Proof.
  intros P. unfold FaceDatabase.importDatabase. rewrite P. reflexivity.
Qed.

(** C6, as the code has it.  A text that parses to a value other than
    [null] with no array under [faces] is refused with the message
    "Invalid database format", and the database object is left as it
    was: nothing cleared, nothing added, nothing saved. *)
Theorem importDatabase_invalid_format (h : Host) (now : Date)
    (jsonData : string) (d : FaceDatabase.t) (importData : json) :
  JSON_parse h jsonData = Ok importData ->
  importData <> JNull ->
  Document.hasFacesArray importData = false ->
  FaceDatabase.importDatabase h now jsonData d = (Document.invalidFormat, d).
Proof.
  intros P N F. unfold FaceDatabase.importDatabase. rewrite P.
  destruct (faces_of_non_null h importData N) as (faces & E & A).
  rewrite E, A, F, orb_true_r. reflexivity.
Qed.

Lemma importDatabase_invalid_format_witness :
  FaceDatabase.importDatabase Hosts.array 7%Z "[1, 2, 3]"
    (FaceDatabase.mk (mkView [] 0%Z 0%Z) tie_store None)
  = (Document.invalidFormat,
     FaceDatabase.mk (mkView [] 0%Z 0%Z) tie_store None).
Proof.
  apply (importDatabase_invalid_format Hosts.array 7%Z "[1, 2, 3]" _
           (JArr [JNum 1; JNum 2; JNum 3]) eq_refl);
    [discriminate|reflexivity].
Defined.

(** C6 as stated fails on the text [null]: its parsed value has no
    array under [faces], and the message of the refusal is not "Invalid
    database format". *)
Lemma importDatabase_null_document :
  JSON_parse Hosts.null "null" = Ok JNull
  /\ Document.hasFacesArray JNull = false
  /\ FaceDatabase.ImportOutcome.message
       (fst (FaceDatabase.importDatabase Hosts.null 7%Z "null"
               (FaceDatabase.mk (mkView [] 0%Z 0%Z) tie_store None)))
     = "Import failed: Cannot read properties of null (reading 'faces')"
  /\ FaceDatabase.ImportOutcome.message
       (fst (FaceDatabase.importDatabase Hosts.null 7%Z "null"
               (FaceDatabase.mk (mkView [] 0%Z 0%Z) tie_store None)))
     <> "Invalid database format".
Proof.
  repeat split. discriminate.
Qed.

(* ================================================================== *)
(** * Export, clear, import *)
(* ================================================================== *)

Module RoundTripFacts.
Import FaceDatabase RoundTrip.

Lemma exportFace_mirror (h : Host) (f : KnownFace) :
  exportFace h (key_of (id f), of_known f) = Ok (faceDocument h f).
Proof.
  unfold exportFace, faceDocument. simpl.
  destruct (lastSeen f); reflexivity.
Qed.

Lemma export_mirror (h : Host) (l : list KnownFace) :
  map_result (exportFace h) (Sync.mirror l) = Ok (map (faceDocument h) l).
Proof.
  induction l as [|f l IH]; [reflexivity|].
  cbn [Sync.mirror map map_result]. rewrite exportFace_mirror.
  unfold Sync.mirror in IH. rewrite IH. reflexivity.
Qed.

(** The export of a database over a well-formed service succeeds. *)
Lemma exportDatabase_ok (h : Host) (now : Date) (d : t) :
  TrainingCount.service_ok d ->
  exists rest,
    let data :=
      JObj (("faces",
             JArr (map (faceDocument h)
                       (FaceRecognitionService.getKnownFaces
                          (faceRecognitionService d))))
            :: rest) in
    exportData h now (database (syncFromRecognitionService d)) = Ok data
    /\ exportDatabase h now d
       = (Ok (JSON_stringify h data), syncFromRecognitionService d).
Proof.
  intros [_ W]. unfold exportDatabase, exportData.
  rewrite (SyncFacts.sync_view d W), export_mirror. simpl.
  eexists. split; reflexivity.
Qed.

Lemma rebuild_descriptors (h : Host) (ds : list Float32Array) :
  rebuilds_arrays h ->
  map_result (Float32Array_new h)
             (map (fun desc => JArr (map JNum desc)) ds)
  = Ok ds.
Proof.
  intros R. induction ds as [|x ds IH]; [reflexivity|].
  simpl. rewrite (R x). simpl. rewrite IH. reflexivity.
Qed.

Lemma importFace_document (h : Host) (f : KnownFace) :
  rebuilds_arrays h ->
  exists face,
    importFace h (faceDocument h f) = Ok face
    /\ vid face = key_of (id f)
    /\ vdescriptors face = descriptors f.
Proof.
  intros R. unfold importFace, faceDocument. simpl.
  rewrite (rebuild_descriptors h _ R). simpl.
  eexists. repeat split.
Qed.

Lemma importFaces_documents (h : Host) (l : list KnownFace) :
  rebuilds_arrays h ->
  forall v n m,
    exists v',
      importFaces h (map (faceDocument h) l) v n m
      = (Ok (n + length l, m + descriptorCount l), v').
Proof.
  intros R. induction l as [|f l IH]; intros v n m.
  - exists v. simpl. now rewrite !Nat.add_0_r.
  - cbn [map importFaces].
    destruct (importFace_document h f R) as (face & -> & _ & D).
    destruct (IH {| vfaces := JsMap.set Json.sameValueZero (vfaces v)
                                        (vid face) face;
                    vtotalDescriptors := vtotalDescriptors v;
                    vlastUpdated := vlastUpdated v |}
                 (S n) (m + length (vdescriptors face))) as (v' & ->).
    exists v'. rewrite D. simpl. do 2 f_equal. f_equal; lia.
Qed.

Lemma descriptorCount_sum (m : Store.entries) :
  Z.of_nat (descriptorCount (JsMap.values m)) = Store.sumLengths m.
Proof.
  induction m as [|[k f] r IH]; simpl; [reflexivity|].
  rewrite Nat2Z.inj_add, IH. reflexivity.
Qed.

(** Whatever [importDatabase] is given, it leaves the recognition
    service either as it was (the text is refused before the clearing)
    or without any identity. *)
Lemma importDatabase_service (h : Host) (now : Date) (jsonData : string)
    (d : t) :
  let d' := snd (importDatabase h now jsonData d) in
  faceRecognitionService d' = faceRecognitionService d
  \/ (faces (FaceRecognitionService.faceDatabase (faceRecognitionService d'))
      = []
      /\ totalDescriptors
           (FaceRecognitionService.faceDatabase (faceRecognitionService d'))
         = 0%Z).
Proof.
  cbn zeta. unfold importDatabase.
  destruct (JSON_parse h jsonData) as [importData|e]; [|now left].
  destruct (Json.prop h importData "faces") as [faces|e]; [|now left].
  destruct (negb (Json.truthy faces) || negb (Json.isArray faces)); [now left|].
  right.
  destruct (importFaces h _ _ 0 0) as [[[n m]|e] v]; simpl;
    split; reflexivity.
Qed.

(** Once the recognition service is empty, so is everything read
    through the view. *)
Lemma empty_service_reads (d : t) :
  faces (FaceRecognitionService.faceDatabase (faceRecognitionService d)) = [] ->
  Statistics.totalFaces (fst (getStatistics d)) = 0
  /\ Statistics.totalDescriptors (fst (getStatistics d))
     = totalDescriptors
         (FaceRecognitionService.faceDatabase (faceRecognitionService d))
  /\ fst (getKnownFaces d) = [].
Proof.
  intros E. unfold getStatistics, getKnownFaces, syncFromRecognitionService,
    FaceRecognitionService.getKnownFaces.
  rewrite E. repeat split.
Qed.

Lemma stats_before (d : t) :
  TrainingCount.service_ok d ->
  Statistics.totalFaces (fst (getStatistics d))
  = length (FaceRecognitionService.getKnownFaces (faceRecognitionService d))
  /\ Statistics.totalDescriptors (fst (getStatistics d))
     = Z.of_nat (descriptorCount
                   (FaceRecognitionService.getKnownFaces
                      (faceRecognitionService d))).
Proof.
  intros [C W]. split.
  - unfold getStatistics. cbn [fst Statistics.totalFaces].
    rewrite (SyncFacts.sync_view d W). unfold JsMap.size, Sync.mirror.
    apply length_map.
  - unfold FaceRecognitionService.getKnownFaces.
    rewrite descriptorCount_sum. exact C.
Qed.

End RoundTripFacts.

(** C1, as the code has it.  Over a well-formed recognition service and
    a host that parses back the exported document, [exportDatabase],
    then [clearDatabase], then [importDatabase] of the exported text
    succeeds and reports as many faces and descriptors as the
    statistics showed before the export.  The import has no way to
    write descriptors into the recognition service, which it leaves
    empty: the statistics and the listing read afterwards, which pull
    from that service, show no identity and no descriptor. *)
Theorem export_clear_import (h : Host) (t1 t2 t3 : Date) (d : FaceDatabase.t) :
  TrainingCount.service_ok d ->
  RoundTrip.rebuilds_arrays h ->
  (forall data,
      FaceDatabase.exportData h t1
        (FaceDatabase.database (FaceDatabase.syncFromRecognitionService d))
      = Ok data ->
      JSON_parse h (JSON_stringify h data) = Ok data) ->
  let before := fst (FaceDatabase.getStatistics d) in
  let exported := FaceDatabase.exportDatabase h t1 d in
  exists text,
    fst exported = Ok text
    /\ let cleared := FaceDatabase.clearDatabase h t2 (snd exported) in
       let imported := FaceDatabase.importDatabase h t3 text cleared in
       let after := fst (FaceDatabase.getStatistics (snd imported)) in
       FaceDatabase.ImportOutcome.success (fst imported) = true
       /\ FaceDatabase.ImportOutcome.facesImported (fst imported)
          = FaceDatabase.Statistics.totalFaces before
       /\ Z.of_nat (FaceDatabase.ImportOutcome.descriptorsImported (fst imported))
          = FaceDatabase.Statistics.totalDescriptors before
       /\ FaceDatabase.Statistics.totalFaces after = 0
       /\ FaceDatabase.Statistics.totalDescriptors after = 0%Z
       /\ fst (FaceDatabase.getKnownFaces (snd imported)) = [].
Proof.
  intros W R P before exported.
  destruct (RoundTripFacts.exportDatabase_ok h t1 d W) as (rest & D & E).
  cbn zeta in D, E. specialize (P _ D).
  set (data := JObj (("faces",
                      JArr (map (RoundTrip.faceDocument h)
                                (FaceRecognitionService.getKnownFaces
                                   (FaceDatabase.faceRecognitionService d))))
                     :: rest)) in *.
  exists (JSON_stringify h data).
  unfold exported. rewrite E. split; [reflexivity|]. cbn zeta. cbn [snd].
  set (cleared := FaceDatabase.clearDatabase h t2 _).
  destruct (RoundTripFacts.stats_before d W) as [F T]. fold before in F, T.
  assert (I : exists d',
             FaceDatabase.importDatabase h t3 (JSON_stringify h data) cleared
             = ({| FaceDatabase.ImportOutcome.success := true;
                   FaceDatabase.ImportOutcome.facesImported :=
                     FaceDatabase.Statistics.totalFaces before;
                   FaceDatabase.ImportOutcome.descriptorsImported :=
                     RoundTrip.descriptorCount
                       (FaceRecognitionService.getKnownFaces
                          (FaceDatabase.faceRecognitionService d));
                   FaceDatabase.ImportOutcome.message :=
                     "Successfully imported "
                     ++ JsString.of_nat (FaceDatabase.Statistics.totalFaces before)
                     ++ " faces with "
                     ++ JsString.of_nat
                          (RoundTrip.descriptorCount
                             (FaceRecognitionService.getKnownFaces
                                (FaceDatabase.faceRecognitionService d)))
                     ++ " descriptors" |}, d')
             /\ faces (FaceRecognitionService.faceDatabase
                         (FaceDatabase.faceRecognitionService d')) = []
             /\ totalDescriptors (FaceRecognitionService.faceDatabase
                                    (FaceDatabase.faceRecognitionService d'))
                = 0%Z).
  { unfold FaceDatabase.importDatabase. rewrite P. unfold data.
    cbn [Json.prop Json.lookup String.eqb Ascii.eqb Bool.eqb Json.truthy
         Json.isArray negb orb].
    destruct (RoundTripFacts.importFaces_documents h
                (FaceRecognitionService.getKnownFaces
                   (FaceDatabase.faceRecognitionService d)) R
                (FaceDatabase.database (FaceDatabase.clearDatabase h t3 cleared))
                0 0) as (v' & L).
    rewrite L. cbn [Nat.add]. rewrite F. eexists. split; [reflexivity|].
    rewrite (proj2 (TrainingFacts.saveToStorage_same h t3 _)).
    split; reflexivity. }
  destruct I as (d' & -> & Ef & Et). cbn [fst snd].
  destruct (RoundTripFacts.empty_service_reads d' Ef) as (A & B & C).
  rewrite A, B, C, Et, T. repeat split.
Qed.

Lemma tie_database_ok : TrainingCount.service_ok tie_database.
Proof.
  split; [reflexivity|]. split.
  - simpl. repeat constructor; simpl; intuition discriminate.
  - intros k f [E|[E|[]]]; injection E as <- <-; reflexivity.
Defined.

Lemma codec_rebuilds (text : string) (doc : json) :
  RoundTrip.rebuilds_arrays (Hosts.codec text doc).
Proof.
  intros x. simpl. f_equal. induction x as [|a x IH]; simpl; [reflexivity|].
  now rewrite IH.
Defined.

Lemma tie_host_parses_back :
  forall data,
    FaceDatabase.exportData tie_host 1%Z
      (FaceDatabase.database
         (FaceDatabase.syncFromRecognitionService tie_database))
    = Ok data ->
    JSON_parse tie_host (JSON_stringify tie_host data) = Ok data.
Proof.
  intros data D.
  change (Ok tie_document = Ok data) in D. injection D as <-. reflexivity.
Defined.

Lemma export_clear_import_witness :
  let before := fst (FaceDatabase.getStatistics tie_database) in
  let exported := FaceDatabase.exportDatabase tie_host 1%Z tie_database in
  exists text,
    fst exported = Ok text
    /\ let cleared := FaceDatabase.clearDatabase tie_host 2%Z (snd exported) in
       let imported := FaceDatabase.importDatabase tie_host 3%Z text cleared in
       let after := fst (FaceDatabase.getStatistics (snd imported)) in
       FaceDatabase.ImportOutcome.success (fst imported) = true
       /\ FaceDatabase.ImportOutcome.facesImported (fst imported)
          = FaceDatabase.Statistics.totalFaces before
       /\ Z.of_nat (FaceDatabase.ImportOutcome.descriptorsImported (fst imported))
          = FaceDatabase.Statistics.totalDescriptors before
       /\ FaceDatabase.Statistics.totalFaces after = 0
       /\ FaceDatabase.Statistics.totalDescriptors after = 0%Z
       /\ fst (FaceDatabase.getKnownFaces (snd imported)) = [].
Proof.
  exact (export_clear_import tie_host 1%Z 2%Z 3%Z tie_database
           tie_database_ok (codec_rebuilds _ _) tie_host_parses_back).
Defined.

(** C1 as stated fails on the store of two identities with one
    descriptor each: the export is parsed back and the import reports
    success, yet the statistics read afterwards count no identity and
    no descriptor where they counted two of each. *)
Lemma export_clear_import_loses_faces :
  let before := fst (FaceDatabase.getStatistics tie_database) in
  let exported := FaceDatabase.exportDatabase tie_host 1%Z tie_database in
  fst exported = Ok "tie_document"
  /\ JSON_parse tie_host "tie_document" = Ok tie_document
  /\ let cleared := FaceDatabase.clearDatabase tie_host 2%Z (snd exported) in
     let imported :=
       FaceDatabase.importDatabase tie_host 3%Z "tie_document" cleared in
     let after := fst (FaceDatabase.getStatistics (snd imported)) in
     FaceDatabase.ImportOutcome.success (fst imported) = true
     /\ FaceDatabase.Statistics.totalFaces before = 2
     /\ FaceDatabase.Statistics.totalDescriptors before = 2%Z
     /\ FaceDatabase.Statistics.totalFaces after = 0
     /\ FaceDatabase.Statistics.totalDescriptors after = 0%Z
     /\ FaceDatabase.Statistics.totalDescriptors after
        <> FaceDatabase.Statistics.totalDescriptors before.
Proof.
  cbn zeta. split; [reflexivity|]. split; [reflexivity|].
  split; [reflexivity|]. split; [reflexivity|]. split; [reflexivity|].
  split; [reflexivity|]. split; [reflexivity|].
  change (0%Z <> 2%Z). discriminate.
Qed.

(* ================================================================== *)
(** * Runs on concrete inputs *)
(* ================================================================== *)

(** Cases of the repository's tests, run on the embedding. *)

Example generateFaceId_spaces :
  FaceDatabase.generateFaceId "  John   Doe" = "_john_doe".
Proof. reflexivity. Qed.

Example stats_after_adds :
  FaceRecognitionService.getDatabaseStats
    (History.run 0%Z [History.Add 1%Z "Amy" (Some [1%R]);
                      History.Add 2%Z "Bob" (Some [2%R]);
                      History.Add 3%Z "Amy" None;
                      History.Add 4%Z "amy" (Some [3%R])])
  = {| FaceRecognitionService.totalFaces := 2;
       FaceRecognitionService.statsTotalDescriptors := 3%Z;
       FaceRecognitionService.statsLastUpdated := 4%Z |}.
Proof. reflexivity. Qed.

Example trainFace_empty (d : FaceDatabase.t) :
  FaceDatabase.trainFace Hosts.silent 1%Z "Empty Person" [] d
  = ({| FaceDatabase.TrainingOutcome.success := false;
        FaceDatabase.TrainingOutcome.samplesAdded := 0;
        FaceDatabase.TrainingOutcome.totalSamples := 0;
        FaceDatabase.TrainingOutcome.message :=
          "No face detections provided for training" |}, d).
Proof. reflexivity. Qed.

Example trainFace_failures :
  fst (FaceDatabase.trainFace Hosts.silent 1%Z "Failed Person"
         [Detection None; Detection None] (fresh_database Hosts.silent 0%Z))
  = {| FaceDatabase.TrainingOutcome.success := false;
       FaceDatabase.TrainingOutcome.samplesAdded := 0;
       FaceDatabase.TrainingOutcome.totalSamples := 0;
       FaceDatabase.TrainingOutcome.message :=
         "Added 0 samples for Failed Person. Need 3 more for optimal recognition" |}.
Proof. reflexivity. Qed.

Example trainFace_three :
  fst (FaceDatabase.trainFace Hosts.silent 1%Z "John Doe"
         [Detection (Some [1%R]); Detection (Some [2%R]); Detection (Some [3%R])]
         (fresh_database Hosts.silent 0%Z))
  = {| FaceDatabase.TrainingOutcome.success := true;
       FaceDatabase.TrainingOutcome.samplesAdded := 3;
       FaceDatabase.TrainingOutcome.totalSamples := 3;
       FaceDatabase.TrainingOutcome.message :=
         "Successfully trained John Doe with 3 samples" |}.
Proof. reflexivity. Qed.

(** An identity with exactly three descriptors is valid, and is not told
    to add more. *)
Example validateTraining_three :
  fst (FaceDatabase.validateTraining "John Doe"
         (snd (FaceDatabase.trainFace Hosts.silent 1%Z "John Doe"
                 [Detection (Some [1%R]); Detection (Some [2%R]);
                  Detection (Some [3%R])]
                 (fresh_database Hosts.silent 0%Z))))
  = {| FaceDatabase.Validation.isValid := true;
       FaceDatabase.Validation.sampleCount := 3;
       FaceDatabase.Validation.recommendations :=
         ["Consider adding more samples for better accuracy"] |}.
Proof. reflexivity. Qed.

Example validateTraining_absent :
  fst (FaceDatabase.validateTraining "Nonexistent Person"
         (fresh_database Hosts.silent 0%Z))
  = {| FaceDatabase.Validation.isValid := false;
       FaceDatabase.Validation.sampleCount := 0;
       FaceDatabase.Validation.recommendations := ["Face not found in database"] |}.
Proof. reflexivity. Qed.

(** A text that is not JSON: the message of the parser is passed on. *)
Example importDatabase_not_json :
  FaceDatabase.importDatabase Hosts.silent 1%Z "invalid json" tie_database
  = ({| FaceDatabase.ImportOutcome.success := false;
        FaceDatabase.ImportOutcome.facesImported := 0;
        FaceDatabase.ImportOutcome.descriptorsImported := 0;
        FaceDatabase.ImportOutcome.message := "Import failed: Unexpected token" |},
     tie_database).
Proof. reflexivity. Qed.

(** A [null] among the faces: the element before it is imported, the
    warning for the [null] throws, and the import reports a failure
    after it has cleared the store. *)
Example importDatabase_null_element :
  let h := Hosts.codec "doc"
             (JObj [("faces",
                     JArr [JObj [("id", JStr "amy"); ("name", JStr "Amy");
                                 ("descriptors", JArr [JArr [JNum 1]])];
                           JNull])]) in
  let r := FaceDatabase.importDatabase h 1%Z "doc" tie_database in
  FaceDatabase.ImportOutcome.success (fst r) = false
  /\ FaceDatabase.ImportOutcome.message (fst r)
     = "Import failed: Cannot read properties of null (reading 'name')"
  /\ faces (FaceRecognitionService.faceDatabase
              (FaceDatabase.faceRecognitionService (snd r))) = [].
Proof. repeat split. Qed.

(** An element without descriptors is skipped; the others are counted. *)
Example importDatabase_skips_malformed :
  let h := Hosts.codec "doc"
             (JObj [("faces",
                     JArr [JObj [("id", JStr "amy"); ("name", JStr "Amy")];
                           JObj [("id", JStr "bob"); ("name", JStr "Bob");
                                 ("descriptors",
                                  JArr [JArr [JNum 1]; JArr [JNum 2]])]])]) in
  fst (FaceDatabase.importDatabase h 1%Z "doc" tie_database)
  = {| FaceDatabase.ImportOutcome.success := true;
       FaceDatabase.ImportOutcome.facesImported := 1;
       FaceDatabase.ImportOutcome.descriptorsImported := 2;
       FaceDatabase.ImportOutcome.message :=
         "Successfully imported 1 faces with 2 descriptors" |}.
Proof. reflexivity. Qed.

(** A query equal to a stored descriptor is matched, with confidence 1,
    to the first identity that holds it. *)
Example recognizeFace_exact :
  FaceRecognitionService.recognizeFace tie_store (Some [1%R; 0%R])
  = {| isMatch := true;
       match_ := Some {| personName := "Amy";
                         confidence := FaceRecognitionService.distanceToConfidence 0;
                         distance := 0%R;
                         descriptorId := "amy_0" |};
       resultConfidence := FaceRecognitionService.distanceToConfidence 0 |}.
Proof.
  unfold FaceRecognitionService.recognizeFace. rewrite findBestMatch_tie.
  cbn [confidence distance].
  rewrite DistanceFacts.confidence_zero.
  replace (Num.leb _ 1) with true
    by (symmetry; apply NumFacts.leb_true; simpl; lra).
  replace (Num.leb 0 _) with true
    by (symmetry; apply NumFacts.leb_true; simpl; lra).
  reflexivity.
Qed.

(** A query at distance 1 from the only stored descriptor is beyond
    [MAX_DISTANCE]: no candidate, no match, confidence 0. *)
Example recognizeFace_far :
  FaceRecognitionService.recognizeFace
    (Gate.default_service 0%Z half_store) (Some [1%R])
  = {| isMatch := false; match_ := None; resultConfidence := 0%R |}.
Proof.
  assert (D : Distance.euclidean [1%R] [0%R] = 1%R).
  { unfold Distance.euclidean. simpl.
    replace ((1 - 0) * (1 - 0) + 0)%R with (1 * 1)%R by lra.
    apply sqrt_square. lra. }
  assert (F : FaceRecognitionService.findBestMatch
                (Gate.default_service 0%Z half_store) [1%R] = Ok None).
  { unfold FaceRecognitionService.findBestMatch.
    rewrite MatcherFacts.scan_candidates.
    - simpl flat_map. cbn [fold_left].
      unfold Matcher.step, Matcher.matchOf, Matcher.distanceTo.
      cbn [Matcher.c_descriptor snd]. rewrite D.
      replace (Num.leb 1 _) with false
        by (symmetry; apply NumFacts.leb_false; simpl; lra).
      rewrite andb_false_r. reflexivity.
    - intros c H. simpl in H. destruct H as [<-|[]]. reflexivity. }
  unfold FaceRecognitionService.recognizeFace. rewrite F. reflexivity.
Qed.

(* ================================================================== *)
(** * Further properties: distance and confidence *)
(* ================================================================== *)

Module DistanceMore.
Import FaceRecognitionService Distance.
Local Open Scope R_scope.

Lemma sumSquares_sym (a b : Float32Array) : sumSquares a b = sumSquares b a.
Proof.
  revert b. induction a as [|x a IH]; intros [|y b]; simpl; try reflexivity.
  rewrite (IH b). ring.
Qed.

Lemma sumSquares_self (a : Float32Array) : sumSquares a a = 0.
Proof.
  induction a as [|x a IH]; simpl; [reflexivity|]. rewrite IH. ring.
Qed.

Lemma sumSquares_zero (a b : Float32Array) :
  length a = length b -> sumSquares a b = 0 -> a = b.
Proof.
  revert b. induction a as [|x a IH]; intros [|y b] L H;
    simpl in L; try discriminate; [reflexivity|].
  injection L as L. simpl in H.
  pose proof (DistanceFacts.sumSquares_nonneg a b) as P.
  pose proof (Rle_0_sqr (x - y)) as Q. unfold Rsqr in Q.
  assert (E : (x - y) * (x - y) = 0) by lra.
  assert (S : sumSquares a b = 0) by lra.
  apply Rmult_integral in E. f_equal; [destruct E; lra|exact (IH b L S)].
Qed.

End DistanceMore.

(** The distance does not depend on the order of its two arguments,
    the thrown error for unequal lengths included. *)
Theorem calculateEuclideanDistance_symmetric (a b : Float32Array) :
  FaceRecognitionService.calculateEuclideanDistance a b
  = FaceRecognitionService.calculateEuclideanDistance b a.
Proof.
  destruct (Nat.eq_dec (length a) (length b)) as [L|L].
  - rewrite (DistanceFacts.distance_equal_length a b L).
    rewrite (DistanceFacts.distance_equal_length b a (eq_sym L)).
    unfold Distance.euclidean. now rewrite DistanceMore.sumSquares_sym.
  - rewrite (DistanceFacts.distance_unequal_length a b L).
    rewrite DistanceFacts.distance_unequal_length; [reflexivity|].
    intros E. apply L. now symmetry.
Qed.

(** The distance of two descriptors is 0 exactly when they are the same
    descriptor; in particular every descriptor is at distance 0 from
    itself. *)
Theorem calculateEuclideanDistance_zero (a b : Float32Array) :
  FaceRecognitionService.calculateEuclideanDistance a b = Ok 0%R <-> a = b.
Proof.
  split.
  - intros H. apply DistanceFacts.distance_ok_inv in H as [L E].
    apply DistanceMore.sumSquares_zero; [exact L|].
    unfold Distance.euclidean in E. symmetry in E.
    apply sqrt_eq_0 in E; [exact E|apply DistanceFacts.sumSquares_nonneg].
  - intros <-. rewrite DistanceFacts.distance_equal_length by reflexivity.
    unfold Distance.euclidean. rewrite DistanceMore.sumSquares_self.
    now rewrite sqrt_0.
Qed.

(** A distance between descriptors is never negative. *)
Lemma calculateEuclideanDistance_nonneg (a b : Float32Array) (d : R) :
  FaceRecognitionService.calculateEuclideanDistance a b = Ok d -> (0 <= d)%R.
Proof.
  intros H. apply DistanceFacts.distance_ok_inv in H as [_ ->].
  apply DistanceFacts.euclidean_nonneg.
Qed.

(** The confidence of every number lies between 0 and 1, and it is 1
    for every number that is not positive: the clamp saturates. *)
Theorem distanceToConfidence_range (d : R) :
  (0 <= FaceRecognitionService.distanceToConfidence d <= 1)%R
  /\ ((d <= 0)%R -> FaceRecognitionService.distanceToConfidence d = 1%R).
Proof.
  unfold FaceRecognitionService.distanceToConfidence. cbn zeta.
  pose proof (exp_pos (- d * 2)) as P.
  split.
  - unfold Rmax, Rmin.
    destruct (Rle_dec 1 (exp (- d * 2))); destruct (Rle_dec 0 _); lra.
  - intros N.
    assert (L : (1 <= exp (- d * 2))%R).
    { destruct (Req_dec d 0) as [->|Z].
      - replace (- 0 * 2)%R with 0%R by lra. rewrite exp_0. lra.
      - left. rewrite <- exp_0. apply exp_increasing. lra. }
    rewrite (Rmin_left 1 _ L). apply Rmax_right. lra.
Qed.

(* ================================================================== *)
(** * Further properties: the thresholds *)
(* ================================================================== *)

Module ThresholdFacts.
Import FaceRecognitionService Thresholds.
Local Open Scope R_scope.

Lemma clamp_range (lo hi x : R) : lo <= hi -> lo <= Rmax lo (Rmin hi x) <= hi.
Proof.
  intros H. unfold Rmax, Rmin.
  destruct (Rle_dec hi x); destruct (Rle_dec lo _); lra.
Qed.

Lemma clamp_inside (lo hi x : R) : lo <= x <= hi -> Rmax lo (Rmin hi x) = x.
Proof.
  intros H. unfold Rmax, Rmin.
  destruct (Rle_dec hi x); destruct (Rle_dec lo _); lra.
Qed.

Lemma clamp_below (lo hi x : R) : lo <= hi -> x <= lo -> Rmax lo (Rmin hi x) = lo.
Proof.
  intros H L. unfold Rmax, Rmin.
  destruct (Rle_dec hi x); destruct (Rle_dec lo _); lra.
Qed.

Lemma clamp_above (lo hi x : R) : lo <= hi -> hi <= x -> Rmax lo (Rmin hi x) = hi.
Proof.
  intros H L. unfold Rmax, Rmin.
  destruct (Rle_dec hi x); destruct (Rle_dec lo _); lra.
Qed.

(** What one call stores for a value that is given. *)
Lemma stored_given (hi : R) (x old : JsNumber.t) :
  0 <= hi ->
  ConfigurationSpec.stored (Some x) hi old
    (JsNumber.Math_max (JsNumber.Finite 0)
                       (JsNumber.Math_min (JsNumber.Finite hi) x)).
Proof.
  intros H. destruct x as [| |x|]; simpl.
  - reflexivity.
  - reflexivity.
  - exists (Rmax 0 (Rmin hi x)). split; [reflexivity|].
    split; [now apply clamp_range|].
    split; [apply clamp_inside|].
    split; [now apply clamp_below|now apply clamp_above].
  - f_equal. now apply Rmax_right.
Qed.

Lemma stored_within (given : option JsNumber.t) (hi : R) (old new : JsNumber.t) :
  0 <= hi ->
  ConfigurationSpec.within hi old ->
  ConfigurationSpec.stored given hi old new ->
  ConfigurationSpec.within hi new.
Proof.
  intros H W S. destruct given as [[| |x|]|]; simpl in S.
  - now left.
  - right. rewrite S. simpl. lra.
  - destruct S as (y & -> & R & _). right. exact R.
  - right. rewrite S. simpl. lra.
  - now rewrite S.
Qed.

Lemma stored_finite (given : option JsNumber.t) (hi : R) (old new : JsNumber.t) :
  0 <= hi ->
  ConfigurationSpec.finite_within hi old ->
  given <> Some JsNumber.NaN ->
  ConfigurationSpec.stored given hi old new ->
  ConfigurationSpec.finite_within hi new.
Proof.
  intros H W N S. destruct given as [[| |x|]|]; simpl in S.
  - congruence.
  - rewrite S. simpl. lra.
  - destruct S as (y & -> & R & _). exact R.
  - rewrite S. simpl. lra.
  - now rewrite S.
Qed.

(** One call, field by field. *)
Lemma update_stored (options : Configuration.ThresholdOptions)
    (c : Configuration.t) :
  let c' := Configuration.updateThresholds options c in
  ConfigurationSpec.stored (Configuration.recognitionThreshold options) 1
    (Configuration.RECOGNITION_THRESHOLD c) (Configuration.RECOGNITION_THRESHOLD c')
  /\ ConfigurationSpec.stored (Configuration.minConfidence options) 1
       (Configuration.MIN_CONFIDENCE c) (Configuration.MIN_CONFIDENCE c')
  /\ ConfigurationSpec.stored (Configuration.maxDistance options) 2
       (Configuration.MAX_DISTANCE c) (Configuration.MAX_DISTANCE c').
Proof.
  cbv zeta. unfold Configuration.updateThresholds. simpl.
  split; [|split].
  - destruct (Configuration.recognitionThreshold options) as [x|];
      [apply stored_given; lra|reflexivity].
  - destruct (Configuration.minConfidence options) as [x|];
      [apply stored_given; lra|reflexivity].
  - destruct (Configuration.maxDistance options) as [x|];
      [apply stored_given; lra|reflexivity].
Qed.

End ThresholdFacts.

(** [updateThresholds] stores each value that is given as
    [Math.max(0, Math.min(hi, value))], with [hi] 1 for the recognition
    threshold and the minimum confidence and 2 for the maximum
    distance: a finite number inside [[0, hi]] is stored as it is, one
    below becomes 0 and one above [hi], the infinities become the ends,
    and [NaN] is stored as [NaN], outside every interval.  An option
    that is absent leaves its threshold as it was.  On finite numbers
    this is the update of the service, which never touches the store
    of faces. *)
Theorem updateThresholds_clamps (options : Configuration.ThresholdOptions)
    (c : Configuration.t) :
  let c' := Configuration.updateThresholds options c in
  ConfigurationSpec.stored (Configuration.recognitionThreshold options) 1
    (Configuration.RECOGNITION_THRESHOLD c) (Configuration.RECOGNITION_THRESHOLD c')
  /\ ConfigurationSpec.stored (Configuration.minConfidence options) 1
       (Configuration.MIN_CONFIDENCE c) (Configuration.MIN_CONFIDENCE c')
  /\ ConfigurationSpec.stored (Configuration.maxDistance options) 2
       (Configuration.MAX_DISTANCE c) (Configuration.MAX_DISTANCE c')
  /\ (forall o s,
         Configuration.updateThresholds (ConfigurationSpec.of_options o)
           (ConfigurationSpec.of_service s)
         = ConfigurationSpec.of_service
             (FaceRecognitionService.updateThresholds o s)
         /\ FaceRecognitionService.faceDatabase
              (FaceRecognitionService.updateThresholds o s)
            = FaceRecognitionService.faceDatabase s).
Proof.
  cbv zeta.
  destruct (ThresholdFacts.update_stored options c) as (A & B & C).
  split; [exact A|]. split; [exact B|]. split; [exact C|].
  intros o s. split; [|reflexivity].
  unfold Configuration.updateThresholds, ConfigurationSpec.of_options,
    ConfigurationSpec.of_service, FaceRecognitionService.updateThresholds.
  simpl.
  destruct (FaceRecognitionService.recognitionThreshold o),
    (FaceRecognitionService.minConfidence o),
    (FaceRecognitionService.maxDistance o); reflexivity.
Qed.

Lemma updateThresholds_clamps_witness :
  Configuration.getConfiguration
    (Configuration.updateThresholds
       (Configuration.mkOptions (Some (JsNumber.Finite 5)) (Some JsNumber.NaN)
                                (Some JsNumber.NegInfinity))
       Configuration.constructor)
  = (JsNumber.Finite 1, JsNumber.NaN, JsNumber.Finite 0).
Proof.
  pose proof (updateThresholds_clamps
                (Configuration.mkOptions (Some (JsNumber.Finite 5))
                   (Some JsNumber.NaN) (Some JsNumber.NegInfinity))
                Configuration.constructor) as (A & B & C & _).
  cbv [ConfigurationSpec.stored Configuration.recognitionThreshold
       Configuration.minConfidence Configuration.maxDistance] in A, B, C.
  destruct A as (y & A & _ & _ & _ & Hi).
  unfold Configuration.getConfiguration.
  rewrite A, B, C, Hi by lra. reflexivity.
Defined.

(** Whatever [updateThresholds] calls a service has gone through since
    it was constructed, each threshold that [getConfiguration] reports
    is a finite number in its interval ([[0, 1]], [[0, 1]], [[0, 2]]) or
    [NaN]; when no call gave [NaN], all three are finite numbers in
    their intervals. *)
Theorem thresholds_in_range (updates : list Configuration.ThresholdOptions) :
  let c := ConfigurationSpec.run updates in
  Configuration.getConfiguration c
  = (Configuration.RECOGNITION_THRESHOLD c, Configuration.MIN_CONFIDENCE c,
     Configuration.MAX_DISTANCE c)
  /\ (ConfigurationSpec.within 1 (Configuration.RECOGNITION_THRESHOLD c)
      /\ ConfigurationSpec.within 1 (Configuration.MIN_CONFIDENCE c)
      /\ ConfigurationSpec.within 2 (Configuration.MAX_DISTANCE c))
  /\ ((forall o, In o updates -> ConfigurationSpec.numeric o) ->
      ConfigurationSpec.finite_within 1 (Configuration.RECOGNITION_THRESHOLD c)
      /\ ConfigurationSpec.finite_within 1 (Configuration.MIN_CONFIDENCE c)
      /\ ConfigurationSpec.finite_within 2 (Configuration.MAX_DISTANCE c)).
Proof.
  cbv zeta. split; [reflexivity|]. unfold ConfigurationSpec.run.
  assert (C0 : ConfigurationSpec.finite_within 1
                 (Configuration.RECOGNITION_THRESHOLD Configuration.constructor)
               /\ ConfigurationSpec.finite_within 1
                    (Configuration.MIN_CONFIDENCE Configuration.constructor)
               /\ ConfigurationSpec.finite_within 2
                    (Configuration.MAX_DISTANCE Configuration.constructor))
    by (simpl; lra).
  split.
  - assert (W0 : ConfigurationSpec.within 1
                   (Configuration.RECOGNITION_THRESHOLD Configuration.constructor)
                 /\ ConfigurationSpec.within 1
                      (Configuration.MIN_CONFIDENCE Configuration.constructor)
                 /\ ConfigurationSpec.within 2
                      (Configuration.MAX_DISTANCE Configuration.constructor))
      by (destruct C0 as (A & B & C); repeat split; right; assumption).
    clear C0. revert W0. generalize Configuration.constructor as c.
    induction updates as [|o updates IH]; intros c W; [exact W|].
    simpl. apply IH. destruct W as (A & B & C).
    destruct (ThresholdFacts.update_stored o c) as (SA & SB & SC).
    split; [|split].
    + apply (ThresholdFacts.stored_within _ 1 _ _ ltac:(lra) A SA).
    + apply (ThresholdFacts.stored_within _ 1 _ _ ltac:(lra) B SB).
    + apply (ThresholdFacts.stored_within _ 2 _ _ ltac:(lra) C SC).
  - revert C0. generalize Configuration.constructor as c.
    induction updates as [|o updates IH]; intros c W N; [exact W|].
    simpl. apply IH; [|intros o' I; apply N; now right].
    destruct W as (A & B & C).
    destruct (N o (or_introl eq_refl)) as (NA & NB & NC).
    destruct (ThresholdFacts.update_stored o c) as (SA & SB & SC).
    split; [|split].
    + apply (ThresholdFacts.stored_finite _ 1 _ _ ltac:(lra) A NA SA).
    + apply (ThresholdFacts.stored_finite _ 1 _ _ ltac:(lra) B NB SB).
    + apply (ThresholdFacts.stored_finite _ 2 _ _ ltac:(lra) C NC SC).
Qed.

Lemma thresholds_in_range_witness :
  let c :=
    ConfigurationSpec.run
      [Configuration.mkOptions (Some (JsNumber.Finite 5)) None
                               (Some JsNumber.PosInfinity);
       Configuration.mkOptions None (Some (JsNumber.Finite (-1))) None] in
  ConfigurationSpec.finite_within 1 (Configuration.RECOGNITION_THRESHOLD c)
  /\ ConfigurationSpec.finite_within 1 (Configuration.MIN_CONFIDENCE c)
  /\ ConfigurationSpec.finite_within 2 (Configuration.MAX_DISTANCE c).
Proof.
  refine (proj2 (proj2 (thresholds_in_range _)) _).
  intros o [<-|[<-|[]]]; repeat split; discriminate.
Defined.

(* ================================================================== *)
(** * Further properties: recognition *)
(* ================================================================== *)

Module RecognizeFacts.
Import FaceRecognitionService Thresholds.
Local Open Scope R_scope.

Lemma fold_result_ext {A B : Type} (f g : A -> B -> result A) (l : list B) :
  (forall a b, In b l -> f a b = g a b) ->
  forall a, fold_result f l a = fold_result g l a.
Proof.
  induction l as [|b l IH]; intros E a; [reflexivity|].
  simpl. rewrite (E a b (or_introl eq_refl)).
  destruct (g a b) as [a'|e]; simpl; [|reflexivity].
  apply IH. intros a0 b0 I. apply E. now right.
Qed.

(** The scan reads the entries and [MAX_DISTANCE], nothing else. *)
Lemma findBestMatch_reads (s1 s2 : t) (q : Float32Array) :
  faces (faceDatabase s1) = faces (faceDatabase s2) ->
  MAX_DISTANCE s1 = MAX_DISTANCE s2 ->
  findBestMatch s1 q = findBestMatch s2 q.
Proof.
  intros F M. unfold findBestMatch. rewrite F.
  rewrite (fold_result_ext (scanFace s1 q) (scanFace s2 q)); [reflexivity|].
  intros a [faceId knownFace] _. unfold scanFace.
  apply fold_result_ext. intros a' i _. unfold scanDescriptor.
  rewrite M. reflexivity.
Qed.

Lemma confidence_monotone (d1 d2 : R) :
  d1 <= d2 -> distanceToConfidence d2 <= distanceToConfidence d1.
Proof.
  intros H. unfold distanceToConfidence. cbn zeta.
  assert (E : exp (- d2 * 2) <= exp (- d1 * 2)).
  { destruct (Req_dec d1 d2) as [->|N]; [lra|].
    left. apply exp_increasing. lra. }
  apply Rle_max_compat_l, Rle_min_compat_l. exact E.
Qed.

(** A scan that returns met no descriptor of another length. *)
Lemma ok_uniform (s : t) (q : Float32Array) (r : option FaceMatch) :
  findBestMatch s q = Ok r -> uniform s q.
Proof.
  intros H c I.
  destruct (Nat.eq_dec (length (Matcher.c_descriptor c)) (length q)) as [E|N];
    [exact E|].
  rewrite (findBestMatch_mismatch s q c I N) in H. discriminate.
Qed.

Lemma scan_outcome (s : t) (q : Float32Array) :
  uniform s q ->
  exists acc,
    findBestMatch s q = Ok (fst acc)
    /\ Matcher.first_nearest s q (Matcher.candidates s) acc.
Proof.
  intros U. unfold findBestMatch.
  rewrite (MatcherFacts.scan_candidates s q _ (None, Num.Infinity) U).
  simpl rbind.
  pose proof (MatcherFacts.fold_first_nearest s q (Matcher.candidates s) []
                (None, Num.Infinity)) as F.
  simpl app in F. unfold Matcher.candidates in F at 2.
  eexists. split; [reflexivity|]. apply F. intros c [].
Qed.

(** The scan over uniform descriptors, by cases: nobody within
    [MAX_DISTANCE], or the match of a nearest candidate. *)
Lemma scan_cases (s : t) (q : Float32Array) :
  uniform s q ->
  (findBestMatch s q = Ok None
   /\ forall c, In c (Matcher.candidates s) ->
                MAX_DISTANCE s < Matcher.distanceTo q c)
  \/ exists c,
      In c (Matcher.candidates s)
      /\ findBestMatch s q = Ok (Some (Matcher.matchOf q c))
      /\ Matcher.distanceTo q c <= MAX_DISTANCE s
      /\ forall c', In c' (Matcher.candidates s) ->
                    Matcher.distanceTo q c <= Matcher.distanceTo q c'.
Proof.
  intros U. destruct (scan_outcome s q U) as ([[m|] [d|]] & E & F);
    simpl in E, F; try contradiction.
  - right. destruct F as (pre & c & post & Ec & -> & -> & Hd & Hpre & Hpost).
    exists c. split; [rewrite Ec; apply in_elt|].
    split; [exact E|]. split; [exact Hd|].
    intros c' I. rewrite Ec in I. apply in_app_or in I as [I|[<-|I]].
    + left. now apply Hpre.
    + lra.
    + now apply Hpost.
  - left. split; [exact E|exact F].
Qed.

Lemma candidate_entry (s : t) (c : Matcher.candidate) :
  In c (Matcher.candidates s) ->
  In (Matcher.c_faceId c, Matcher.c_face c) (faces (faceDatabase s))
  /\ In (Matcher.c_descriptor c) (descriptors (Matcher.c_face c)).
Proof.
  intros I. apply in_flat_map in I as ([k f] & Ie & Ic).
  unfold Matcher.candidatesOf, Matcher.indexed in Ic. simpl fst in Ic.
  simpl snd in Ic. apply in_map_iff in Ic as ([i kd] & <- & Ip). simpl.
  split; [exact Ie|]. apply in_combine_r in Ip. exact Ip.
Qed.

Lemma entry_candidate (s : t) (k : string) (f : KnownFace) (kd : Float32Array) :
  In (k, f) (faces (faceDatabase s)) -> In kd (descriptors f) ->
  exists i, In (Matcher.mkCandidate k f i kd) (Matcher.candidates s).
Proof.
  intros Ie Id.
  destruct (MatcherFacts.indexed_In k f (descriptors f) 0 kd Id) as [i Hi].
  exists i. apply in_flat_map. exists (k, f). split; [exact Ie|exact Hi].
Qed.

End RecognizeFacts.

(** [recognizeFace] reads the stored entries, [MIN_CONFIDENCE] and
    [MAX_DISTANCE] only: two services that agree on these answer alike,
    whatever their [RECOGNITION_THRESHOLD], their descriptor counter
    and their time stamp are. *)
Theorem recognizeFace_reads (s1 s2 : FaceRecognitionService.t)
    (extracted : option Float32Array) :
  faces (FaceRecognitionService.faceDatabase s1)
  = faces (FaceRecognitionService.faceDatabase s2) ->
  FaceRecognitionService.MIN_CONFIDENCE s1
  = FaceRecognitionService.MIN_CONFIDENCE s2 ->
  FaceRecognitionService.MAX_DISTANCE s1
  = FaceRecognitionService.MAX_DISTANCE s2 ->
  FaceRecognitionService.recognizeFace s1 extracted
  = FaceRecognitionService.recognizeFace s2 extracted.
Proof.
  intros F C M. destruct extracted as [q|]; [|reflexivity].
  unfold FaceRecognitionService.recognizeFace.
  rewrite (RecognizeFacts.findBestMatch_reads s1 s2 q F M), C, M. reflexivity.
Qed.

Lemma recognizeFace_reads_witness :
  FaceRecognitionService.recognizeFace
    (FaceRecognitionService.updateThresholds
       (FaceRecognitionService.mkOptions (Some 0.1%R) None None)
       (FaceRecognitionService.with_faceDatabase tie_store
          {| faces := faces (FaceRecognitionService.faceDatabase tie_store);
             totalDescriptors := 40%Z;
             lastUpdated := 9%Z |}))
    (Some [1%R; 0%R])
  = FaceRecognitionService.recognizeFace tie_store (Some [1%R; 0%R]).
Proof.
  apply recognizeFace_reads; reflexivity.
Defined.

(** The recognition reports no match with confidence 0 when no
    descriptor was extracted, when nothing is stored, when some stored
    descriptor has another length than the query (the thrown error is
    swallowed, even if another stored descriptor equals the query), and
    when every stored descriptor lies beyond [MAX_DISTANCE]. *)
Theorem recognizeFace_unmatched (s : FaceRecognitionService.t) :
  FaceRecognitionService.recognizeFace s None = Thresholds.unmatched
  /\ (forall q,
         faces (FaceRecognitionService.faceDatabase s) = [] ->
         FaceRecognitionService.recognizeFace s (Some q) = Thresholds.unmatched)
  /\ (forall q c,
         In c (Matcher.candidates s) ->
         length (Matcher.c_descriptor c) <> length q ->
         FaceRecognitionService.recognizeFace s (Some q) = Thresholds.unmatched)
  /\ (forall q,
         Thresholds.uniform s q ->
         (forall c, In c (Matcher.candidates s) ->
                    (FaceRecognitionService.MAX_DISTANCE s
                     < Matcher.distanceTo q c)%R) ->
         FaceRecognitionService.recognizeFace s (Some q) = Thresholds.unmatched).
Proof.
  split; [reflexivity|]. split; [|split].
  - intros q E. unfold FaceRecognitionService.recognizeFace,
      FaceRecognitionService.findBestMatch. rewrite E. reflexivity.
  - intros q c I N. unfold FaceRecognitionService.recognizeFace.
    rewrite (findBestMatch_mismatch s q c I N). reflexivity.
  - intros q U Far. unfold FaceRecognitionService.recognizeFace.
    destruct (RecognizeFacts.scan_cases s q U) as [[-> _]|(c & I & _ & D & _)];
      [reflexivity|].
    specialize (Far c I). lra.
Qed.

Lemma recognizeFace_unmatched_witness :
  FaceRecognitionService.recognizeFace tie_store (Some [1%R]) = Thresholds.unmatched.
Proof.
  refine (proj1 (proj2 (proj2 (recognizeFace_unmatched tie_store))) [1%R]
            (Matcher.mkCandidate "amy"
               (mkKnownFace "amy" "Amy" [[1%R; 0%R]] 0%Z (Some 0%Z)) 0 [1%R; 0%R])
            _ _).
  - simpl. now left.
  - simpl. discriminate.
Defined.

(** When every stored descriptor has the length of the query, the
    recognition reports a match exactly when some stored descriptor
    passes both tests (distance at most [MAX_DISTANCE], confidence at
    least [MIN_CONFIDENCE]); the match it reports is built from a stored
    descriptor that is nearest to the query and passes both tests, and
    the confidence of the result is the confidence of that match. *)
Theorem recognizeFace_iff (s : FaceRecognitionService.t) (q : Float32Array) :
  Thresholds.uniform s q ->
  let r := FaceRecognitionService.recognizeFace s (Some q) in
  (isMatch r = true <->
   exists c, In c (Matcher.candidates s) /\ Thresholds.passes s q c)
  /\ (match_ r = None <-> isMatch r = false)
  /\ (forall m,
         match_ r = Some m ->
         resultConfidence r = confidence m
         /\ exists c,
             In c (Matcher.candidates s)
             /\ m = Matcher.matchOf q c
             /\ Thresholds.passes s q c
             /\ forall c', In c' (Matcher.candidates s) ->
                           (Matcher.distanceTo q c <= Matcher.distanceTo q c')%R).
Proof.
  intros U. cbv zeta. unfold FaceRecognitionService.recognizeFace.
  destruct (RecognizeFacts.scan_cases s q U)
    as [[-> Far]|(c & I & -> & D & Near)].
  - simpl. split; [|split].
    + split; [discriminate|]. intros (c & I & P & _).
      specialize (Far c I). lra.
    + split; reflexivity.
    + discriminate.
  - simpl confidence. simpl distance.
    destruct (Num.leb (FaceRecognitionService.MIN_CONFIDENCE s) _) eqn:C.
    + apply NumFacts.leb_true in C.
      assert (L : Num.leb (Matcher.distanceTo q c)
                          (FaceRecognitionService.MAX_DISTANCE s) = true)
        by (apply NumFacts.leb_true; exact D).
      rewrite L. simpl. split; [|split].
      * split; [|reflexivity]. intros _. exists c. split; [exact I|].
        split; [exact D|exact C].
      * split; discriminate.
      * intros m H. injection H as <-. split; [reflexivity|].
        exists c. repeat split; auto.
    + apply NumFacts.leb_false in C. simpl. split; [|split].
      * split; [discriminate|]. intros (c' & I' & D' & C').
        pose proof (RecognizeFacts.confidence_monotone _ _ (Near c' I')) as M.
        lra.
      * split; reflexivity.
      * discriminate.
Qed.

Lemma recognizeFace_iff_witness :
  isMatch (FaceRecognitionService.recognizeFace tie_store (Some [1%R; 0%R])) = true
  <-> exists c, In c (Matcher.candidates tie_store)
                /\ Thresholds.passes tie_store [1%R; 0%R] c.
Proof.
  exact (proj1 (recognizeFace_iff tie_store [1%R; 0%R] tie_store_uniform)).
Defined.

(* ================================================================== *)
(** * Further properties: the store of the recognition service *)
(* ================================================================== *)

Module EntryFacts.
Import FaceRecognitionService Store.
Local Open Scope Z_scope.

Lemma get_set_same (m : entries) (k : string) (v : KnownFace) :
  get (JsMap.set String.eqb m k v) k = Some v.
Proof.
  induction m as [|[k' f'] m IH]; simpl.
  - now rewrite String.eqb_refl.
  - destruct (String.eqb k' k) eqn:E; simpl.
    + now rewrite String.eqb_refl.
    + rewrite E. exact IH.
Qed.

Lemma get_set_other (m : entries) (k k0 : string) (v : KnownFace) :
  k0 <> k -> get (JsMap.set String.eqb m k v) k0 = get m k0.
Proof.
  intros N. induction m as [|[k' f'] m IH]; simpl.
  - destruct (String.eqb k k0) eqn:E; [|reflexivity].
    apply String.eqb_eq in E. congruence.
  - destruct (String.eqb k' k) eqn:E; simpl.
    + apply String.eqb_eq in E. subst k'.
      destruct (String.eqb k k0) eqn:E0; [|reflexivity].
      apply String.eqb_eq in E0. congruence.
    + destruct (String.eqb k' k0); [reflexivity|exact IH].
Qed.

Lemma get_delete_other (m : entries) (k k0 : string) :
  k0 <> k -> get (JsMap.delete String.eqb m k) k0 = get m k0.
Proof.
  intros N. induction m as [|[k' f'] m IH]; simpl; [reflexivity|].
  destruct (String.eqb k' k) eqn:E; simpl.
  - apply String.eqb_eq in E. subst k'.
    destruct (String.eqb k k0) eqn:E0; [|reflexivity].
    apply String.eqb_eq in E0. congruence.
  - destruct (String.eqb k' k0); [reflexivity|exact IH].
Qed.

Lemma delete_absent (m : entries) (k : string) :
  get m k = None -> JsMap.delete String.eqb m k = m.
Proof.
  induction m as [|[k' f'] m IH]; simpl; [reflexivity|].
  destruct (String.eqb k' k); [discriminate|].
  intros H. now rewrite IH.
Qed.

Lemma delete_set (m : entries) (k : string) (v : KnownFace) :
  JsMap.delete String.eqb (JsMap.set String.eqb m k v) k
  = JsMap.delete String.eqb m k.
Proof.
  induction m as [|[k' f'] m IH]; simpl.
  - now rewrite String.eqb_refl.
  - destruct (String.eqb k' k) eqn:E; simpl.
    + now rewrite String.eqb_refl.
    + rewrite E. now rewrite IH.
Qed.

(** The entry [addKnownFace] writes, and the state it leaves. *)
Lemma add_state (now : Date) (newName : string) (d : Float32Array) (s : t) :
  let faceId := generateFaceId newName in
  let db := faceDatabase s in
  let v := match get (faces db) faceId with
           | Some f => mkKnownFace (id f) (name f) (descriptors f ++ [d])
                                   (addedAt f) (Some now)
           | None => mkKnownFace faceId newName [d] now (Some now)
           end in
  snd (addKnownFace now newName (Some d) s)
  = with_faceDatabase s
      {| faces := JsMap.set String.eqb (faces db) faceId v;
         totalDescriptors := totalDescriptors db + 1;
         lastUpdated := now |}.
Proof.
  cbv zeta. unfold addKnownFace, get. cbn zeta.
  destruct (JsMap.get String.eqb _ _) as [[i n ds a l]|]; reflexivity.
Qed.

Lemma remove_state (now : Date) (newName : string) (s : t) :
  let faceId := generateFaceId newName in
  let db := faceDatabase s in
  snd (removeKnownFace now newName s)
  = match get (faces db) faceId with
    | Some face =>
        with_faceDatabase s
          {| faces := JsMap.delete String.eqb (faces db) faceId;
             totalDescriptors := totalDescriptors db - count face;
             lastUpdated := now |}
    | None => s
    end.
Proof.
  cbv zeta. unfold removeKnownFace, get. cbn zeta.
  destruct (JsMap.get String.eqb _ _); reflexivity.
Qed.

End EntryFacts.

(** [addKnownFace] with a descriptor changes the entry under the
    normalised name and nothing else: every other identity reads as
    before, the keys keep their order (a new identity goes last), and
    the thresholds stay.  An identity that exists keeps its id, its name
    and its [addedAt], gains the descriptor at the end and is seen at
    the time of the call; a new identity starts with the given name and
    the one descriptor. *)
Theorem addKnownFace_frame (now : Date) (newName : string) (d : Float32Array)
    (s : FaceRecognitionService.t) :
  let faceId := FaceRecognitionService.generateFaceId newName in
  let before := faces (FaceRecognitionService.faceDatabase s) in
  let s' := snd (FaceRecognitionService.addKnownFace now newName (Some d) s) in
  let after := faces (FaceRecognitionService.faceDatabase s') in
  (forall k, k <> faceId -> Store.get after k = Store.get before k)
  /\ Store.get after faceId
     = Some match Store.get before faceId with
            | Some f => mkKnownFace (id f) (name f) (descriptors f ++ [d])
                                    (addedAt f) (Some now)
            | None => mkKnownFace faceId newName [d] now (Some now)
            end
  /\ JsMap.keys after
     = match Store.get before faceId with
       | Some _ => JsMap.keys before
       | None => JsMap.keys before ++ [faceId]
       end
  /\ lastUpdated (FaceRecognitionService.faceDatabase s') = now
  /\ FaceRecognitionService.getConfiguration s'
     = FaceRecognitionService.getConfiguration s.
Proof.
  cbv zeta. rewrite EntryFacts.add_state. cbv zeta. simpl.
  split; [intros k N; now apply EntryFacts.get_set_other|].
  split; [apply EntryFacts.get_set_same|].
  split; [|split; reflexivity].
  destruct (Store.get _ _) as [f|] eqn:G.
  - exact (proj1 (StoreFacts.size_set_present _ _ f _ G)).
  - rewrite (StoreFacts.size_set_absent _ _ _ G).
    unfold JsMap.keys. now rewrite map_app.
Qed.

(** [removeKnownFace] touches the entry under the normalised name
    only: every other identity reads as before, and the thresholds
    stay; the entry itself is gone with all its descriptors, however
    many it held. *)
Theorem removeKnownFace_frame (now : Date) (newName : string)
    (s : FaceRecognitionService.t) :
  let faceId := FaceRecognitionService.generateFaceId newName in
  let before := faces (FaceRecognitionService.faceDatabase s) in
  let s' := snd (FaceRecognitionService.removeKnownFace now newName s) in
  let after := faces (FaceRecognitionService.faceDatabase s') in
  (forall k, k <> faceId -> Store.get after k = Store.get before k)
  /\ after = JsMap.delete String.eqb before faceId
  /\ totalDescriptors (FaceRecognitionService.faceDatabase s')
     = (totalDescriptors (FaceRecognitionService.faceDatabase s)
        - Z.of_nat (TrainingCount.stored s faceId))%Z
  /\ FaceRecognitionService.getConfiguration s'
     = FaceRecognitionService.getConfiguration s.
Proof.
  cbv zeta. rewrite EntryFacts.remove_state. cbv zeta.
  unfold TrainingCount.stored.
  destruct (Store.get _ _) as [f|] eqn:G; simpl.
  - split; [intros k N; now apply EntryFacts.get_delete_other|].
    split; [reflexivity|]. split; reflexivity.
  - split; [reflexivity|].
    split; [symmetry; now apply EntryFacts.delete_absent|].
    split; [lia|reflexivity].
Qed.

(** Adding a descriptor under a name and then removing that name
    leaves the entries and the counter that removing the name right
    away leaves; for a name that was not stored, these are the entries
    and the counter from before the add. *)
Theorem add_then_remove (t1 t2 : Date) (newName : string) (d : Float32Array)
    (s : FaceRecognitionService.t) :
  let faceId := FaceRecognitionService.generateFaceId newName in
  let db := FaceRecognitionService.faceDatabase s in
  let r := FaceRecognitionService.removeKnownFace t2 newName
             (snd (FaceRecognitionService.addKnownFace t1 newName (Some d) s)) in
  let db' := FaceRecognitionService.faceDatabase (snd r) in
  fst r = true
  /\ faces db' = JsMap.delete String.eqb (faces db) faceId
  /\ totalDescriptors db'
     = (totalDescriptors db - Z.of_nat (TrainingCount.stored s faceId))%Z
  /\ lastUpdated db' = t2
  /\ (Store.get (faces db) faceId = None ->
      faces db' = faces db /\ totalDescriptors db' = totalDescriptors db).
Proof.
  cbv zeta. rewrite EntryFacts.add_state. cbv zeta.
  set (v := match Store.get _ _ with Some f => _ | None => _ end).
  unfold FaceRecognitionService.removeKnownFace. cbn zeta. simpl faces.
  pose proof (EntryFacts.get_set_same
                (faces (FaceRecognitionService.faceDatabase s))
                (FaceRecognitionService.generateFaceId newName) v) as G.
  unfold Store.get in G. rewrite G. simpl.
  rewrite EntryFacts.delete_set.
  assert (C : Z.of_nat (length (descriptors v))
              = (Z.of_nat (TrainingCount.stored s
                             (FaceRecognitionService.generateFaceId newName)) + 1)%Z).
  { unfold v, TrainingCount.stored.
    destruct (Store.get _ _) as [f|]; simpl; [|reflexivity].
    rewrite length_app. simpl. lia. }
  split; [reflexivity|]. split; [reflexivity|]. split; [lia|].
  split; [reflexivity|].
  intros A. split; [now apply EntryFacts.delete_absent|].
  rewrite C. unfold TrainingCount.stored. rewrite A. simpl. lia.
Qed.

Lemma add_then_remove_witness :
  faces (FaceRecognitionService.faceDatabase
           (snd (FaceRecognitionService.removeKnownFace 2%Z "Cy"
                   (snd (FaceRecognitionService.addKnownFace 1%Z "Cy"
                           (Some [0%R; 1%R]) tie_store)))))
  = faces (FaceRecognitionService.faceDatabase tie_store).
Proof.
  exact (proj1 (proj2 (proj2 (proj2 (proj2
           (add_then_remove 1%Z 2%Z "Cy" [0%R; 1%R] tie_store)))) eq_refl)).
Defined.

(** Two names with the same normalised form are one identity: added
    one after the other to a store that holds neither, they leave a
    single entry, which shows the first name, holds both descriptors in
    the order of the calls, was added at the first call and seen at the
    second. *)
Theorem addKnownFace_same_id (t1 t2 : Date) (name1 name2 : string)
    (d1 d2 : Float32Array) (s : FaceRecognitionService.t) :
  FaceRecognitionService.generateFaceId name1
  = FaceRecognitionService.generateFaceId name2 ->
  Store.get (faces (FaceRecognitionService.faceDatabase s))
            (FaceRecognitionService.generateFaceId name1) = None ->
  let s2 :=
    snd (FaceRecognitionService.addKnownFace t2 name2 (Some d2)
           (snd (FaceRecognitionService.addKnownFace t1 name1 (Some d1) s))) in
  faces (FaceRecognitionService.faceDatabase s2)
  = faces (FaceRecognitionService.faceDatabase s)
    ++ [(FaceRecognitionService.generateFaceId name1,
         mkKnownFace (FaceRecognitionService.generateFaceId name1) name1
                     [d1; d2] t1 (Some t2))]
  /\ FaceRecognitionService.totalFaces
       (FaceRecognitionService.getDatabaseStats s2)
     = S (FaceRecognitionService.totalFaces
            (FaceRecognitionService.getDatabaseStats s))
  /\ FaceRecognitionService.statsTotalDescriptors
       (FaceRecognitionService.getDatabaseStats s2)
     = (FaceRecognitionService.statsTotalDescriptors
          (FaceRecognitionService.getDatabaseStats s) + 2)%Z.
Proof.
  intros E A. cbv zeta.
  rewrite (EntryFacts.add_state t2 name2 d2). cbv zeta.
  rewrite (EntryFacts.add_state t1 name1 d1). cbv zeta.
  rewrite <- E, A. simpl faces.
  rewrite (StoreFacts.size_set_absent _ _ _ A).
  assert (G : Store.get
                (faces (FaceRecognitionService.faceDatabase s)
                 ++ [(FaceRecognitionService.generateFaceId name1,
                      mkKnownFace (FaceRecognitionService.generateFaceId name1)
                                  name1 [d1] t1 (Some t1))])
                (FaceRecognitionService.generateFaceId name1)
              = Some (mkKnownFace (FaceRecognitionService.generateFaceId name1)
                                  name1 [d1] t1 (Some t1))).
  { rewrite <- (StoreFacts.size_set_absent _ _ _ A).
    apply EntryFacts.get_set_same. }
  rewrite G. simpl.
  assert (S2 : forall (m : Store.entries) k v v',
             Store.get m k = None ->
             JsMap.set String.eqb (m ++ [(k, v)]) k v' = m ++ [(k, v')]).
  { induction m as [|[k' f'] m IH]; intros k v v' H; simpl in *.
    - now rewrite String.eqb_refl.
    - destruct (String.eqb k' k); [discriminate|]. now rewrite IH. }
  rewrite (S2 _ _ _ _ A).
  split; [reflexivity|].
  unfold FaceRecognitionService.getDatabaseStats, JsMap.size. simpl.
  rewrite length_app. simpl. split; lia.
Qed.

Lemma addKnownFace_same_id_witness :
  faces (FaceRecognitionService.faceDatabase
           (snd (FaceRecognitionService.addKnownFace 2%Z "amy  smith" (Some [0%R])
                   (snd (FaceRecognitionService.addKnownFace 1%Z "Amy Smith"
                           (Some [1%R]) tie_store)))))
  = faces (FaceRecognitionService.faceDatabase tie_store)
    ++ [(FaceRecognitionService.generateFaceId "Amy Smith",
         mkKnownFace (FaceRecognitionService.generateFaceId "Amy Smith")
                     "Amy Smith" [[1%R]; [0%R]] 1%Z (Some 2%Z))].
Proof.
  exact (proj1 (addKnownFace_same_id 1%Z 2%Z "Amy Smith" "amy  smith"
                  [1%R] [0%R] tie_store eq_refl eq_refl)).
Defined.

Module SettledFacts.
Import FaceRecognitionService Store.
Local Open Scope Z_scope.

Lemma add_settled (now : Date) (newName : string)
    (extracted : option Float32Array) (s : t) :
  Entries.settled (faces (faceDatabase s)) ->
  Entries.settled (faces (faceDatabase (snd (addKnownFace now newName extracted s)))).
Proof.
  intros H. destruct extracted as [d|]; [|exact H].
  rewrite EntryFacts.add_state. cbv zeta. simpl faces.
  intros k f I. apply StoreFacts.set_In in I as [E|I]; [|exact (H k f I)].
  injection E as -> ->.
  destruct (get _ _) as [f0|] eqn:G; simpl.
  - apply StoreFacts.get_In in G. destruct (H _ _ G) as (_ & K & _).
    split; [now destruct (descriptors f0)|]. split; [exact K|discriminate].
  - split; [discriminate|]. split; [reflexivity|discriminate].
Qed.

Lemma delete_settled (m : entries) (k : string) :
  Entries.settled m -> Entries.settled (JsMap.delete String.eqb m k).
Proof.
  intros H k0 f0 I. apply (H k0 f0). now apply StoreFacts.delete_In in I.
Qed.

Lemma apply_settled (s : t) (o : History.operation) :
  Entries.settled (faces (faceDatabase s)) ->
  Entries.settled (faces (faceDatabase (History.apply s o))).
Proof.
  intros H. destruct o as [now newName extracted|now newName|now|options].
  - now apply add_settled.
  - unfold History.apply. rewrite EntryFacts.remove_state. cbv zeta.
    destruct (get _ _); [|exact H]. now apply delete_settled.
  - intros k f [].
  - exact H.
Qed.

Lemma settled_size (m : entries) :
  Entries.settled m -> Z.of_nat (length m) <= sumLengths m.
Proof.
  induction m as [|[k f] m IH]; intros H; simpl; [lia|].
  assert (Hm : Entries.settled m).
  { intros k0 f0 I. apply H. now right. }
  destruct (H k f (or_introl eq_refl)) as (N & _).
  specialize (IH Hm). unfold count.
  destruct (descriptors f); [congruence|]. simpl length. lia.
Qed.

End SettledFacts.

(** Whatever operations a service has gone through since it was
    constructed, every identity it stores holds at least one
    descriptor, sits under the normalised form of the name it shows and
    has a [lastSeen] time; so the statistics never show more faces than
    descriptors. *)
Theorem run_entries_settled (created : Date) (ops : list History.operation) :
  let s := History.run created ops in
  Entries.settled (faces (FaceRecognitionService.faceDatabase s))
  /\ (Z.of_nat (FaceRecognitionService.totalFaces
                  (FaceRecognitionService.getDatabaseStats s))
      <= FaceRecognitionService.statsTotalDescriptors
           (FaceRecognitionService.getDatabaseStats s))%Z.
Proof.
  cbv zeta.
  assert (G : forall s,
             Entries.settled (faces (FaceRecognitionService.faceDatabase s)) ->
             Entries.settled
               (faces (FaceRecognitionService.faceDatabase
                         (fold_left History.apply ops s)))).
  { induction ops as [|o ops IH]; intros s H; [exact H|].
    simpl. apply IH. now apply SettledFacts.apply_settled. }
  assert (H : Entries.settled
                (faces (FaceRecognitionService.faceDatabase
                          (History.run created ops)))).
  { apply G. intros k f []. }
  split; [exact H|].
  unfold FaceRecognitionService.getDatabaseStats. simpl.
  destruct (run_well_formed created ops) as [C _]. unfold Store.consistent in C.
  rewrite C. unfold JsMap.size. now apply SettledFacts.settled_size.
Qed.

Module AfterAddFacts.
Import FaceRecognitionService Thresholds.
Local Open Scope R_scope.

(** A candidate of the store after an add is a candidate of the store
    before, or sits in the entry that was written. *)
Lemma added_candidate (now : Date) (newName : string) (d : Float32Array)
    (s : t) (c : Matcher.candidate) :
  In c (Matcher.candidates (snd (addKnownFace now newName (Some d) s))) ->
  (exists c0, In c0 (Matcher.candidates s)
              /\ Matcher.c_descriptor c0 = Matcher.c_descriptor c)
  \/ (Matcher.c_descriptor c = d
      /\ name (Matcher.c_face c)
         = match Store.get (faces (faceDatabase s)) (generateFaceId newName) with
           | Some f => name f
           | None => newName
           end)
  .
Proof.
  intros I. apply RecognizeFacts.candidate_entry in I as [Ie Id].
  rewrite EntryFacts.add_state in Ie. cbv zeta in Ie. simpl faces in Ie.
  apply StoreFacts.set_In in Ie as [E|Ie].
  - injection E as Ek Ef. rewrite Ef in Id.
    destruct (Store.get _ _) as [f|] eqn:G; simpl in Id.
    + apply in_app_or in Id as [Id|[Id|[]]].
      * left. apply StoreFacts.get_In in G.
        destruct (RecognizeFacts.entry_candidate s _ f _ G Id) as [i Hi].
        eexists. split; [exact Hi|reflexivity].
      * right. split; [now symmetry|]. rewrite Ef. reflexivity.
    + destruct Id as [Id|[]]. right. split; [now symmetry|].
      rewrite Ef. reflexivity.
  - left.
    destruct (RecognizeFacts.entry_candidate s _ _ _ Ie Id) as [i Hi].
    eexists. split; [exact Hi|reflexivity].
Qed.

Lemma added_present (now : Date) (newName : string) (d : Float32Array) (s : t) :
  exists c, In c (Matcher.candidates (snd (addKnownFace now newName (Some d) s)))
            /\ Matcher.c_descriptor c = d.
Proof.
  set (s' := snd (addKnownFace now newName (Some d) s)).
  destruct (StoreFacts.addKnownFace_added now newName d s)
    as (_ & _ & _ & _ & (f' & G & D) & _).
  fold s' in G. apply StoreFacts.get_In in G.
  assert (Id : In d (descriptors f')) by (rewrite D; apply in_elt).
  destruct (RecognizeFacts.entry_candidate s' _ f' d G Id) as [i Hi].
  eexists. split; [exact Hi|reflexivity].
Qed.

Lemma distance_self (d : Float32Array) : Distance.euclidean d d = 0.
Proof.
  unfold Distance.euclidean. rewrite DistanceMore.sumSquares_self. apply sqrt_0.
Qed.

End AfterAddFacts.

(** A descriptor that has just been added is recognised: when the
    stored descriptors have its length, [MAX_DISTANCE] is not negative
    and [MIN_CONFIDENCE] is at most 1, recognising the same descriptor
    right after [addKnownFace] reports a match at distance 0 with
    confidence 1; and unless the same descriptor was stored before, the
    person reported is the one it was added to, under the name that
    identity was first given. *)
Theorem recognizeFace_after_add (now : Date) (newName : string)
    (d : Float32Array) (s : FaceRecognitionService.t) :
  Thresholds.uniform s d ->
  (0 <= FaceRecognitionService.MAX_DISTANCE s)%R ->
  (FaceRecognitionService.MIN_CONFIDENCE s <= 1)%R ->
  let s' := snd (FaceRecognitionService.addKnownFace now newName (Some d) s) in
  let r := FaceRecognitionService.recognizeFace s' (Some d) in
  isMatch r = true
  /\ resultConfidence r = 1%R
  /\ exists m,
      match_ r = Some m
      /\ distance m = 0%R
      /\ confidence m = 1%R
      /\ ((forall c, In c (Matcher.candidates s) -> Matcher.c_descriptor c <> d) ->
          personName m
          = match Store.get (faces (FaceRecognitionService.faceDatabase s))
                            (FaceRecognitionService.generateFaceId newName) with
            | Some f => name f
            | None => newName
            end).
Proof.
  intros U M C. cbv zeta.
  set (s' := snd (FaceRecognitionService.addKnownFace now newName (Some d) s)).
  assert (T : FaceRecognitionService.MAX_DISTANCE s'
              = FaceRecognitionService.MAX_DISTANCE s
              /\ FaceRecognitionService.MIN_CONFIDENCE s'
                 = FaceRecognitionService.MIN_CONFIDENCE s).
  { unfold s'. rewrite EntryFacts.add_state. split; reflexivity. }
  destruct T as [TM TC].
  assert (U' : Thresholds.uniform s' d).
  { intros c I. apply AfterAddFacts.added_candidate in I as [(c0 & I0 & E)|[E _]].
    - rewrite <- E. exact (U c0 I0).
    - now rewrite E. }
  destruct (AfterAddFacts.added_present now newName d s) as (c0 & I0 & E0).
  fold s' in I0.
  assert (Z0 : Matcher.distanceTo d c0 = 0%R).
  { unfold Matcher.distanceTo. rewrite E0. apply AfterAddFacts.distance_self. }
  unfold FaceRecognitionService.recognizeFace.
  destruct (RecognizeFacts.scan_cases s' d U')
    as [[_ Far]|(c & I & -> & D & Near)].
  { specialize (Far c0 I0). rewrite TM in Far. lra. }
  assert (Z : Matcher.distanceTo d c = 0%R).
  { specialize (Near c0 I0). rewrite Z0 in Near.
    pose proof (DistanceFacts.euclidean_nonneg d (Matcher.c_descriptor c)) as P.
    unfold Matcher.distanceTo in *. lra. }
  simpl confidence. simpl distance. rewrite Z, TM, TC.
  rewrite DistanceFacts.confidence_zero.
  assert (L1 : Num.leb (FaceRecognitionService.MIN_CONFIDENCE s) 1 = true)
    by (apply NumFacts.leb_true; exact C).
  assert (L2 : Num.leb 0 (FaceRecognitionService.MAX_DISTANCE s) = true)
    by (apply NumFacts.leb_true; exact M).
  rewrite L1, L2. simpl.
  split; [reflexivity|]. split; [reflexivity|].
  eexists. split; [reflexivity|].
  unfold Matcher.matchOf. simpl. rewrite Z.
  split; [reflexivity|]. split; [apply DistanceFacts.confidence_zero|].
  intros New.
  assert (Ed : Matcher.c_descriptor c = d).
  { symmetry. apply DistanceMore.sumSquares_zero; [symmetry; exact (U' c I)|].
    unfold Matcher.distanceTo, Distance.euclidean in Z.
    apply sqrt_eq_0 in Z; [exact Z|apply DistanceFacts.sumSquares_nonneg]. }
  apply AfterAddFacts.added_candidate in I as [(c1 & I1 & E1)|[_ N]];
    [|exact N].
  exfalso. apply (New c1 I1). now rewrite E1.
Qed.

Lemma recognizeFace_after_add_witness :
  isMatch (FaceRecognitionService.recognizeFace
             (snd (FaceRecognitionService.addKnownFace 1%Z "Cy" (Some [0%R; 1%R])
                     tie_store))
             (Some [0%R; 1%R]))
  = true.
Proof.
  refine (proj1 (recognizeFace_after_add 1%Z "Cy" [0%R; 1%R] tie_store _ _ _)).
  - intros c I. simpl in I.
    destruct I as [<-|[<-|[]]]; reflexivity.
  - simpl. lra.
  - simpl. lra.
Defined.

(* ================================================================== *)
(** * Further properties: reading through the database object *)
(* ================================================================== *)

Module ReadFacts.
Import FaceDatabase.
Local Open Scope nat_scope.

Lemma values_mirror (l : list KnownFace) :
  JsMap.values (Sync.mirror l) = map of_known l.
Proof.
  unfold JsMap.values, Sync.mirror. rewrite map_map. reflexivity.
Qed.

Lemma synced_values (d : t) :
  TrainingCount.service_ok d ->
  JsMap.values (vfaces (database (syncFromRecognitionService d)))
  = map of_known (FaceRecognitionService.getKnownFaces (faceRecognitionService d)).
Proof.
  intros [_ W]. rewrite (SyncFacts.sync_view d W). apply values_mirror.
Qed.

Lemma round_near (x : R) :
  (x - / 2 < IZR (Num.round x) <= x + / 2)%R.
Proof.
  unfold Num.round. rewrite minus_IZR.
  destruct (archimed (x + / 2)) as [A B]. simpl IZR. lra.
Qed.

Lemma sum_descriptors (l : list KnownFace) (acc : nat) :
  fold_left (fun sum face => sum + length (vdescriptors face))
            (map of_known l) acc
  = acc + RoundTrip.descriptorCount l.
Proof.
  revert acc. induction l as [|f l IH]; intros acc; simpl; [lia|].
  rewrite IH. lia.
Qed.

Lemma filter_wellTrained (l : list KnownFace) :
  length (filter isWellTrained (map of_known l))
  = length (filter Reads.wellTrained l).
Proof.
  induction l as [|f l IH]; simpl; [reflexivity|].
  unfold isWellTrained at 1, Reads.wellTrained at 1. simpl vdescriptors.
  destruct (MIN_TRAINING_SAMPLES <=? _); simpl; now rewrite IH.
Qed.

End ReadFacts.

(** [getKnownFaces] and [getFace] of the database object answer from
    the recognition service: over a well-formed service they list its
    faces in its order, each with its training status, and look a name
    up under its normalised form; what the object held as its own copy
    before the call has no influence, and the call changes neither the
    service nor the stored item. *)
Theorem view_reads (d : FaceDatabase.t) :
  TrainingCount.service_ok d ->
  let s := FaceDatabase.faceRecognitionService d in
  fst (FaceDatabase.getKnownFaces d)
  = map Reads.annotated (FaceRecognitionService.getKnownFaces s)
  /\ (forall newName,
         fst (FaceDatabase.getFace newName d)
         = option_map Reads.annotated
             (Store.get (faces (FaceRecognitionService.faceDatabase s))
                        (FaceRecognitionService.generateFaceId newName)))
  /\ (forall v newName,
         fst (FaceDatabase.getKnownFaces (FaceDatabase.with_database d v))
         = fst (FaceDatabase.getKnownFaces d)
         /\ fst (FaceDatabase.getFace newName (FaceDatabase.with_database d v))
            = fst (FaceDatabase.getFace newName d))
  /\ (forall newName,
         FaceDatabase.faceRecognitionService (snd (FaceDatabase.getKnownFaces d)) = s
         /\ FaceDatabase.faceRecognitionService
              (snd (FaceDatabase.getFace newName d)) = s
         /\ FaceDatabase.localStorage (snd (FaceDatabase.getKnownFaces d))
            = FaceDatabase.localStorage d
         /\ FaceDatabase.localStorage (snd (FaceDatabase.getFace newName d))
            = FaceDatabase.localStorage d).
Proof.
  intros W. cbv zeta. split; [|split; [|split]].
  - unfold FaceDatabase.getKnownFaces. cbn [fst].
    rewrite (ReadFacts.synced_values d W), map_map. reflexivity.
  - intros newName. unfold FaceDatabase.getFace. cbn [fst].
    change (FaceDatabase.generateFaceId newName)
      with (FaceRecognitionService.generateFaceId newName).
    rewrite (SyncFacts.sync_get d _ (proj2 W)).
    destruct (Store.get _ _); reflexivity.
  - intros v newName. split; reflexivity.
  - intros newName. repeat split.
Qed.

Lemma view_reads_witness :
  fst (FaceDatabase.getKnownFaces tie_database)
  = map Reads.annotated
      (FaceRecognitionService.getKnownFaces
         (FaceDatabase.faceRecognitionService tie_database)).
Proof.
  exact (proj1 (view_reads tie_database tie_database_ok)).
Defined.

(** The training progress of a face lies between 0 and 1; it is 1
    exactly for a face that counts as well trained, and the share of
    the three wanted samples otherwise. *)
Theorem trainingProgress_range (face : ViewFace) :
  (0 <= FaceDatabase.trainingProgress face <= 1)%R
  /\ (FaceDatabase.isWellTrained face = true
      <-> FaceDatabase.trainingProgress face = 1%R)
  /\ (FaceDatabase.isWellTrained face = false ->
      FaceDatabase.trainingProgress face
      = (INR (length (vdescriptors face)) / 3)%R).
Proof.
  unfold FaceDatabase.trainingProgress, FaceDatabase.isWellTrained,
    FaceDatabase.MIN_TRAINING_SAMPLES.
  set (n := length (vdescriptors face)).
  assert (I3 : INR 3 = 3%R) by (simpl; lra). rewrite I3.
  pose proof (pos_INR n) as P.
  destruct (Nat.leb_spec 3 n) as [L|L].
  - apply le_INR in L. rewrite I3 in L.
    rewrite Rmin_right by lra.
    split; [lra|]. split; [split; reflexivity|discriminate].
  - assert (B : (INR n < 3)%R) by (rewrite <- I3; now apply lt_INR).
    rewrite Rmin_left by lra.
    split; [lra|]. split; [split; [discriminate|intros; lra]|reflexivity].
Qed.

(** [getStatistics] counts what the recognition service stores: over a
    well-formed service the faces are its identities, the descriptors
    are the descriptors of all of them, the well-trained faces are
    those with at least three descriptors (never more than there are
    faces), and the average shown is 0 for an empty store and less than
    one hundredth away from the mean number of descriptors per face
    otherwise.  (The rounding to two decimals moves the mean by 0.005
    at most; the bound leaves room for the double arithmetic of the
    code, which can pass 0.005 in the last digits and may round a mean
    such as 1.025 down where the exact product rounds up.) *)
Theorem getStatistics_service (d : FaceDatabase.t) :
  TrainingCount.service_ok d ->
  let st := fst (FaceDatabase.getStatistics d) in
  let known :=
    FaceRecognitionService.getKnownFaces (FaceDatabase.faceRecognitionService d) in
  FaceDatabase.Statistics.totalFaces st = length known
  /\ FaceDatabase.Statistics.totalDescriptors st
     = Z.of_nat (RoundTrip.descriptorCount known)
  /\ FaceDatabase.Statistics.wellTrainedFaces st
     = length (filter Reads.wellTrained known)
  /\ FaceDatabase.Statistics.wellTrainedFaces st
     <= FaceDatabase.Statistics.totalFaces st
  /\ (known = [] ->
      FaceDatabase.Statistics.averageDescriptorsPerFace st = 0%R)
  /\ (known <> [] ->
      (Rabs (FaceDatabase.Statistics.averageDescriptorsPerFace st
             - INR (RoundTrip.descriptorCount known) / INR (length known))
       < 1 / 100)%R).
Proof.
  intros W. cbv zeta.
  destruct (RoundTripFacts.stats_before d W) as [F D].
  split; [exact F|]. split; [exact D|].
  assert (T : FaceDatabase.Statistics.wellTrainedFaces
                (fst (FaceDatabase.getStatistics d))
              = length (filter Reads.wellTrained
                          (FaceRecognitionService.getKnownFaces
                             (FaceDatabase.faceRecognitionService d)))).
  { unfold FaceDatabase.getStatistics.
    cbn [fst FaceDatabase.Statistics.wellTrainedFaces].
    rewrite (ReadFacts.synced_values d W). apply ReadFacts.filter_wellTrained. }
  split; [exact T|]. split; [rewrite T, F; apply filter_length_le|].
  unfold FaceDatabase.getStatistics.
  cbn [fst FaceDatabase.Statistics.averageDescriptorsPerFace].
  rewrite (ReadFacts.synced_values d W), length_map, ReadFacts.sum_descriptors.
  set (known := FaceRecognitionService.getKnownFaces _).
  split.
  - intros E. rewrite E. simpl.
    pose proof (ReadFacts.round_near (0 * 100)) as [A B].
    assert (Z0 : Num.round (0 * 100) = 0%Z).
    { assert (L : (-1 < Num.round (0 * 100) < 1)%Z)
        by (split; apply lt_IZR; simpl IZR; lra).
      lia. }
    rewrite Z0. simpl. lra.
  - intros N.
    assert (P : 0 < length known) by (destruct known; [congruence|simpl; lia]).
    apply Nat.ltb_lt in P. rewrite P. simpl Nat.add.
    set (a := (INR (RoundTrip.descriptorCount known) / INR (length known))%R).
    pose proof (ReadFacts.round_near (a * 100)) as [A B].
    apply Rabs_def1; lra.
Qed.

Lemma getStatistics_service_witness :
  FaceDatabase.Statistics.totalFaces (fst (FaceDatabase.getStatistics tie_database))
  = length (FaceRecognitionService.getKnownFaces
              (FaceDatabase.faceRecognitionService tie_database)).
Proof.
  exact (proj1 (getStatistics_service tie_database tie_database_ok)).
Defined.

(* ================================================================== *)
(** * Further properties: training through the database object *)
(* ================================================================== *)

Module TrainingMore.
Import FaceDatabase TrainingCount.
Local Open Scope nat_scope.

Lemma tally_accounts (samples : list sample) :
  forall c added,
    snd (tally c added samples) + added = c + fst (tally c added samples)
    /\ added <= fst (tally c added samples) <= added + length samples.
Proof.
  induction samples as [|[|[e|]] rest IH]; intros c added; cbn [tally length].
  - simpl. lia.
  - destruct (IH c added). lia.
  - destruct (MAX_DESCRIPTORS_PER_FACE <=? S c); [simpl; lia|].
    destruct (IH (S c) (S added)). lia.
  - destruct (MAX_DESCRIPTORS_PER_FACE <=? c); [simpl; lia|].
    destruct (IH c added). lia.
Qed.

Lemma with_service_same (d : t) : with_service d (faceRecognitionService d) = d.
Proof. destruct d; reflexivity. Qed.

(** The loop of [trainFace] leaves every other identity as it was. *)
Lemma trainLoop_frame (now : Date) (newName : string) (samples : list sample)
    (k : string) :
  k <> generateFaceId newName ->
  forall added d,
    Store.get (faces (FaceRecognitionService.faceDatabase
                        (faceRecognitionService
                           (snd (trainLoop now newName (generateFaceId newName)
                                           samples added d))))) k
    = Store.get (faces (FaceRecognitionService.faceDatabase
                          (faceRecognitionService d))) k.
Proof.
  intros N. induction samples as [|[|[e|]] rest IH]; intros added d.
  - reflexivity.
  - simpl. apply IH.
  - cbn [trainLoop].
    destruct (FaceRecognitionService.addKnownFace now newName (Some e)
                (faceRecognitionService d)) as [ok s] eqn:A.
    assert (Es : s = snd (FaceRecognitionService.addKnownFace now newName (Some e)
                            (faceRecognitionService d))) by now rewrite A.
    assert (G : Store.get (faces (FaceRecognitionService.faceDatabase s)) k
                = Store.get (faces (FaceRecognitionService.faceDatabase
                                      (faceRecognitionService d))) k).
    { rewrite Es, EntryFacts.add_state. cbv zeta. simpl faces.
      now apply EntryFacts.get_set_other. }
    destruct (reached_limit _ _); cbn [snd].
    + exact G.
    + rewrite IH. exact G.
  - cbn [trainLoop]. rewrite StoreFacts.addKnownFace_failed.
    rewrite with_service_same.
    destruct (reached_limit _ _); cbn [snd]; [reflexivity|].
    rewrite IH. reflexivity.
Qed.

End TrainingMore.

(** What [trainFace] reports adds up: for a list of detections that is
    not empty, over a well-formed service, the total it reports is the
    number of descriptors the identity held before plus the samples it
    added, and is what the service holds afterwards; it reports success
    exactly when a sample was added; it never adds more samples than
    detections were given; and every other identity is left as it
    was. *)
Theorem trainFace_accounting (h : Host) (now : Date) (newName : string)
    (samples : list sample) (d : FaceDatabase.t) :
  TrainingCount.service_ok d ->
  samples <> [] ->
  let r := FaceDatabase.trainFace h now newName samples d in
  let faceId := FaceDatabase.generateFaceId newName in
  let held (x : FaceDatabase.t) :=
    TrainingCount.stored (FaceDatabase.faceRecognitionService x) faceId in
  FaceDatabase.TrainingOutcome.totalSamples (fst r)
  = held d + FaceDatabase.TrainingOutcome.samplesAdded (fst r)
  /\ held (snd r) = FaceDatabase.TrainingOutcome.totalSamples (fst r)
  /\ FaceDatabase.TrainingOutcome.success (fst r)
     = (0 <? FaceDatabase.TrainingOutcome.samplesAdded (fst r))%nat
  /\ FaceDatabase.TrainingOutcome.samplesAdded (fst r) <= length samples
  /\ (forall k, k <> faceId ->
        Store.get (faces (FaceRecognitionService.faceDatabase
                            (FaceDatabase.faceRecognitionService (snd r)))) k
        = Store.get (faces (FaceRecognitionService.faceDatabase
                              (FaceDatabase.faceRecognitionService d))) k).
Proof.
  intros W N. cbv zeta.
  destruct (TrainingFacts.trainFace_tally h now newName samples d W N)
    as (A & T & C & _).
  destruct (TrainingMore.tally_accounts samples
              (TrainingCount.stored (FaceDatabase.faceRecognitionService d)
                 (FaceDatabase.generateFaceId newName)) 0) as [E B].
  rewrite T, C, A.
  split; [lia|]. split; [reflexivity|].
  split; [|split; [lia|]].
  - rewrite <- A. unfold FaceDatabase.trainFace.
    destruct samples as [|x rest]; [contradiction|].
    destruct (FaceDatabase.trainLoop _ _ _ _ _ _) as [added d1]. reflexivity.
  - intros k Nk. unfold FaceDatabase.trainFace.
    destruct samples as [|x rest]; [contradiction|].
    pose proof (TrainingMore.trainLoop_frame now newName (x :: rest) k Nk 0 d) as F.
    destruct (FaceDatabase.trainLoop _ _ _ _ _ _) as [added d1].
    cbn [snd] in *.
    rewrite (proj2 (TrainingFacts.saveToStorage_same h now
                      (FaceDatabase.syncFromRecognitionService d1))).
    exact F.
Qed.

Lemma trainFace_accounting_witness :
  let r := FaceDatabase.trainFace Hosts.silent 1%Z "Amy"
             [Detection (Some [0%R; 1%R]); Missing; Detection None]
             tie_database in
  FaceDatabase.TrainingOutcome.totalSamples (fst r)
  = TrainingCount.stored (FaceDatabase.faceRecognitionService tie_database)
                         (FaceDatabase.generateFaceId "Amy")
    + FaceDatabase.TrainingOutcome.samplesAdded (fst r).
Proof.
  refine (proj1 (trainFace_accounting Hosts.silent 1%Z "Amy"
                   [Detection (Some [0%R; 1%R]); Missing; Detection None]
                   tie_database tie_database_ok _)).
  discriminate.
Defined.

(** [addTrainingSample] has no limit: every call with an extracted
    descriptor succeeds and stores one more descriptor under the name,
    so [n] calls raise the count by [n], beyond
    [MAX_DESCRIPTORS_PER_FACE] too; a call without a descriptor returns
    false and leaves the database object as it was. *)
Theorem addTrainingSample_unbounded (h : Host) (now : Date) (newName : string)
    (d : FaceDatabase.t) :
  let faceId := FaceDatabase.generateFaceId newName in
  let held (x : FaceDatabase.t) :=
    TrainingCount.stored (FaceDatabase.faceRecognitionService x) faceId in
  (forall e, fst (FaceDatabase.addTrainingSample h now newName (Some e) d) = true)
  /\ (forall e n, held (Persist.repeatSample h now newName e n d) = held d + n)
  /\ FaceDatabase.addTrainingSample h now newName None d = (false, d).
Proof.
  cbv zeta.
  assert (One : forall e x,
             fst (FaceDatabase.addTrainingSample h now newName (Some e) x) = true
             /\ FaceDatabase.faceRecognitionService
                  (snd (FaceDatabase.addTrainingSample h now newName (Some e) x))
                = snd (FaceRecognitionService.addKnownFace now newName (Some e)
                         (FaceDatabase.faceRecognitionService x))).
  { intros e x. unfold FaceDatabase.addTrainingSample.
    destruct (StoreFacts.addKnownFace_added now newName e
                (FaceDatabase.faceRecognitionService x)) as (B & _).
    destruct (FaceRecognitionService.addKnownFace now newName (Some e) _)
      as [ok s]. cbn [fst snd] in *. subst ok. cbn [fst snd].
    split; [reflexivity|].
    rewrite (proj2 (TrainingFacts.saveToStorage_same h now _)). reflexivity. }
  split; [intros e; apply One|]. split.
  - intros e n. revert d. induction n as [|n IH]; intros d; cbn [Persist.repeatSample].
    + lia.
    + rewrite IH, (proj2 (One e d)), TrainingFacts.stored_after_add. lia.
  - unfold FaceDatabase.addTrainingSample.
    rewrite StoreFacts.addKnownFace_failed.
    now rewrite TrainingMore.with_service_same.
Qed.

(** [validateTraining] judges by the number of descriptors the
    recognition service holds for the name: it reports that number (0
    for a name that is not stored), calls the training valid exactly
    from three descriptors on, advises the maximum only at exactly ten
    descriptors (not above), has no advice exactly from five
    descriptors on other than ten, and never calls a training invalid
    without advice. *)
Theorem validateTraining_by_count (newName : string) (d : FaceDatabase.t) :
  TrainingCount.service_ok d ->
  let v := fst (FaceDatabase.validateTraining newName d) in
  let n := TrainingCount.stored (FaceDatabase.faceRecognitionService d)
                                (FaceDatabase.generateFaceId newName) in
  FaceDatabase.Validation.sampleCount v = n
  /\ (FaceDatabase.Validation.isValid v = true <-> 3 <= n)
  /\ (In "Maximum training samples reached"%string
         (FaceDatabase.Validation.recommendations v) <-> n = 10)
  /\ (FaceDatabase.Validation.recommendations v = [] <-> 5 <= n /\ n <> 10)
  /\ (FaceDatabase.Validation.isValid v = false ->
      FaceDatabase.Validation.recommendations v <> []).
Proof.
  intros W. cbv zeta. unfold FaceDatabase.validateTraining. cbn [fst].
  rewrite (SyncFacts.sync_get d _ (proj2 W)). unfold TrainingCount.stored.
  destruct (Store.get _ _) as [f|]; simpl option_map; cbv iota beta.
  - simpl vdescriptors. set (n := length (descriptors f)).
    cbn [FaceDatabase.Validation.sampleCount FaceDatabase.Validation.isValid
         FaceDatabase.Validation.recommendations].
    unfold FaceDatabase.MIN_TRAINING_SAMPLES, FaceDatabase.MAX_DESCRIPTORS_PER_FACE.
    split; [reflexivity|].
    split; [apply Nat.leb_le|].
    destruct (Nat.leb_spec 3 n) as [V|V];
      destruct (Nat.ltb_spec n 3) as [L3|L3];
      destruct (Nat.ltb_spec n 5) as [L5|L5];
      destruct (Nat.eqb_spec n 10) as [E|E]; try lia; simpl.
    + split; [|split].
      * split; [intros [H|[]]; discriminate|lia].
      * split; [discriminate|lia].
      * discriminate.
    + split; [|split].
      * split; [intros _; exact E|]. intros _. now left.
      * split; [discriminate|lia].
      * discriminate.
    + split; [|split].
      * split; [intros []|lia].
      * split; [lia|reflexivity].
      * discriminate.
    + split; [|split].
      * split; [intros [H|[H|[]]]; discriminate|lia].
      * split; [discriminate|lia].
      * discriminate.
  - simpl. split; [reflexivity|]. split; [split; [discriminate|lia]|].
    split; [split; [intros [H|[]]; discriminate|lia]|].
    split; [split; [discriminate|lia]|discriminate].
Qed.

Lemma validateTraining_by_count_witness :
  FaceDatabase.Validation.sampleCount
    (fst (FaceDatabase.validateTraining "Amy" tie_database))
  = TrainingCount.stored (FaceDatabase.faceRecognitionService tie_database)
                         (FaceDatabase.generateFaceId "Amy").
Proof.
  exact (proj1 (validateTraining_by_count "Amy" tie_database tie_database_ok)).
Defined.

(* ================================================================== *)
(** * Further properties: removing, clearing and persisting *)
(* ================================================================== *)

Module PersistFacts.
Import FaceDatabase.

Lemma save_ok (h : Host) (now : Date) (d : t) :
  TrainingCount.service_ok d -> TrainingCount.service_ok (saveToStorage h now d).
Proof.
  intros W. unfold TrainingCount.service_ok.
  rewrite (proj2 (TrainingFacts.saveToStorage_same h now d)). exact W.
Qed.

(** After [saveToStorage] the stored item is the export. *)
Lemma save_current (h : Host) (now : Date) (d : t) :
  TrainingCount.service_ok d -> Persist.current h now (saveToStorage h now d).
Proof.
  intros W. destruct (RoundTripFacts.exportDatabase_ok h now d W) as (rest & E & X).
  cbv zeta in E, X. unfold Persist.current, saveToStorage. rewrite X.
  eexists. split; [|reflexivity].
  unfold exportDatabase. cbn [fst].
  change (database (syncFromRecognitionService
                      (with_storage (syncFromRecognitionService d) _)))
    with (database (syncFromRecognitionService d)).
  rewrite E. reflexivity.
Qed.

End PersistFacts.

(** Removing a name that is stored, through the database object:
    the call returns true and removes the identity from the recognition
    service; afterwards the name is not found, the statistics show one
    face less and as many descriptors less as the identity held, and
    the service is still well formed. *)
Theorem removeFace_present (h : Host) (now : Date) (newName : string)
    (d : FaceDatabase.t) (face : KnownFace) :
  TrainingCount.service_ok d ->
  Store.get (faces (FaceRecognitionService.faceDatabase
                      (FaceDatabase.faceRecognitionService d)))
            (FaceRecognitionService.generateFaceId newName) = Some face ->
  let r := FaceDatabase.removeFace h now newName d in
  let before := fst (FaceDatabase.getStatistics d) in
  let after := fst (FaceDatabase.getStatistics (snd r)) in
  fst r = true
  /\ FaceDatabase.faceRecognitionService (snd r)
     = snd (FaceRecognitionService.removeKnownFace now newName
              (FaceDatabase.faceRecognitionService d))
  /\ TrainingCount.service_ok (snd r)
  /\ fst (FaceDatabase.getFace newName (snd r)) = None
  /\ S (FaceDatabase.Statistics.totalFaces after)
     = FaceDatabase.Statistics.totalFaces before
  /\ FaceDatabase.Statistics.totalDescriptors after
     = (FaceDatabase.Statistics.totalDescriptors before
        - Z.of_nat (length (descriptors face)))%Z.
Proof.
  intros W G. cbv zeta.
  destruct (StoreFacts.removeKnownFace_present now newName _ face G)
    as (B & T & _ & K).
  cbv zeta in T, K. destruct (K (proj2 W)) as [_ Gone].
  pose proof (StoreFacts.removeKnownFace_well_formed now newName _ W) as W'.
  assert (R : FaceDatabase.removeFace h now newName d
              = (true,
                 FaceDatabase.saveToStorage h now
                   (FaceDatabase.mk
                      (mkView (JsMap.delete Json.sameValueZero
                                 (vfaces (FaceDatabase.database d))
                                 (FaceDatabase.key_of
                                    (FaceDatabase.generateFaceId newName)))
                              (vtotalDescriptors (FaceDatabase.database d)) now)
                      (snd (FaceRecognitionService.removeKnownFace now newName
                              (FaceDatabase.faceRecognitionService d)))
                      (FaceDatabase.localStorage d)))).
  { unfold FaceDatabase.removeFace.
    destruct (FaceRecognitionService.removeKnownFace now newName _) as [ok s].
    cbn [fst snd] in *. subst ok. reflexivity. }
  rewrite R. cbn [fst snd].
  set (d1 := FaceDatabase.mk _ _ _).
  assert (S1 : FaceDatabase.faceRecognitionService
                 (FaceDatabase.saveToStorage h now d1)
               = snd (FaceRecognitionService.removeKnownFace now newName
                        (FaceDatabase.faceRecognitionService d))).
  { rewrite (proj2 (TrainingFacts.saveToStorage_same h now d1)). reflexivity. }
  assert (W1 : TrainingCount.service_ok (FaceDatabase.saveToStorage h now d1)).
  { unfold TrainingCount.service_ok. rewrite S1. exact W'. }
  split; [reflexivity|]. split; [exact S1|]. split; [exact W1|].
  split; [|split].
  - unfold FaceDatabase.getFace. cbn [fst].
    change (FaceDatabase.generateFaceId newName)
      with (FaceRecognitionService.generateFaceId newName).
    rewrite (SyncFacts.sync_get _ _ (proj2 W1)), S1, Gone. reflexivity.
  - rewrite (proj1 (RoundTripFacts.stats_before _ W1)).
    rewrite (proj1 (RoundTripFacts.stats_before _ W)).
    rewrite S1. unfold FaceRecognitionService.getKnownFaces, JsMap.values.
    rewrite !length_map, EntryFacts.remove_state. cbv zeta.
    rewrite G. simpl faces.
    destruct (StoreFacts.delete_keys _ (FaceRecognitionService.generateFaceId newName)
                (proj1 (proj2 W))) as (_ & _ & L).
    rewrite L, G. apply StoreFacts.get_In in G.
    destruct (faces _); [destruct G|simpl; lia].
  - unfold FaceDatabase.getStatistics.
    cbn [fst FaceDatabase.Statistics.totalDescriptors].
    unfold FaceDatabase.syncFromRecognitionService. simpl vtotalDescriptors.
    rewrite S1. exact T.
Qed.

Lemma removeFace_present_witness :
  fst (FaceDatabase.removeFace Hosts.silent 5%Z "Amy" tie_database) = true.
Proof.
  exact (proj1 (removeFace_present Hosts.silent 5%Z "Amy" tie_database
                  (mkKnownFace "amy" "Amy" [[1%R; 0%R]] 0%Z (Some 0%Z))
                  tie_database_ok eq_refl)).
Defined.

(** [clearDatabase] of the database object empties the recognition
    service and the object's own copy, keeps the thresholds, and
    leaves in the storage the document of an empty store; afterwards
    nothing is listed and the statistics show no face and no
    descriptor. *)
Theorem clearDatabase_empties (h : Host) (now : Date) (d : FaceDatabase.t) :
  let d' := FaceDatabase.clearDatabase h now d in
  let s' := FaceDatabase.faceRecognitionService d' in
  FaceRecognitionService.getKnownFaces s' = []
  /\ FaceRecognitionService.getDatabaseStats s'
     = {| FaceRecognitionService.totalFaces := 0;
          FaceRecognitionService.statsTotalDescriptors := 0%Z;
          FaceRecognitionService.statsLastUpdated := now |}
  /\ FaceRecognitionService.getConfiguration s'
     = FaceRecognitionService.getConfiguration
         (FaceDatabase.faceRecognitionService d)
  /\ FaceDatabase.database d' = mkView [] 0%Z now
  /\ FaceDatabase.localStorage d'
     = Some (JSON_stringify h (Persist.emptyDocument h now now))
  /\ fst (FaceDatabase.getKnownFaces d') = []
  /\ FaceDatabase.Statistics.totalFaces (fst (FaceDatabase.getStatistics d')) = 0
  /\ FaceDatabase.Statistics.totalDescriptors (fst (FaceDatabase.getStatistics d'))
     = 0%Z
  /\ TrainingCount.service_ok d'.
Proof.
  cbv zeta. unfold FaceDatabase.clearDatabase, FaceDatabase.saveToStorage,
    FaceDatabase.exportDatabase, FaceDatabase.syncFromRecognitionService,
    FaceRecognitionService.clearDatabase, FaceRecognitionService.getKnownFaces,
    FaceRecognitionService.getDatabaseStats. simpl.
  repeat split; try reflexivity.
  - constructor.
  - intros k f [].
Qed.

(** The stored item follows every change: after [trainFace] on
    detections, after [addTrainingSample] with a descriptor, after a
    [removeFace] that found the name and after [clearDatabase], the
    item in the storage is the export of the database at the time of the
    call; a [removeFace] that did not find the name and an
    [addTrainingSample] without a descriptor leave the item alone. *)
Theorem storage_current (h : Host) (now : Date) (d : FaceDatabase.t) :
  TrainingCount.service_ok d ->
  (forall newName samples,
      samples <> [] ->
      Persist.current h now (snd (FaceDatabase.trainFace h now newName samples d)))
  /\ (forall newName e,
         Persist.current h now
           (snd (FaceDatabase.addTrainingSample h now newName (Some e) d)))
  /\ (forall newName,
         fst (FaceDatabase.removeFace h now newName d) = true ->
         Persist.current h now (snd (FaceDatabase.removeFace h now newName d)))
  /\ Persist.current h now (FaceDatabase.clearDatabase h now d)
  /\ (forall newName,
         fst (FaceDatabase.removeFace h now newName d) = false ->
         FaceDatabase.localStorage (snd (FaceDatabase.removeFace h now newName d))
         = FaceDatabase.localStorage d)
  /\ (forall newName,
         FaceDatabase.localStorage
           (snd (FaceDatabase.addTrainingSample h now newName None d))
         = FaceDatabase.localStorage d).
Proof.
  intros W. split; [|split; [|split; [|split; [|split]]]].
  - intros newName samples N. unfold FaceDatabase.trainFace.
    destruct samples as [|x rest]; [contradiction|].
    destruct (TrainingFacts.trainLoop_tally now newName (x :: rest) 0 d W)
      as (_ & _ & W1).
    destruct (FaceDatabase.trainLoop _ _ _ _ _ _) as [added d1].
    cbn [snd] in *. apply PersistFacts.save_current. exact W1.
  - intros newName e. unfold FaceDatabase.addTrainingSample.
    destruct (StoreFacts.addKnownFace_added now newName e
                (FaceDatabase.faceRecognitionService d)) as (B & _).
    pose proof (StoreFacts.addKnownFace_well_formed now newName (Some e) _ W) as W1.
    destruct (FaceRecognitionService.addKnownFace now newName (Some e) _)
      as [ok s]. cbn [fst snd] in *. subst ok. cbn [snd].
    apply PersistFacts.save_current. exact W1.
  - intros newName. unfold FaceDatabase.removeFace.
    pose proof (StoreFacts.removeKnownFace_well_formed now newName _ W) as W1.
    destruct (FaceRecognitionService.removeKnownFace now newName _) as [ok s].
    cbn [snd] in W1. destruct ok; cbn [fst snd]; [|discriminate].
    intros _. apply PersistFacts.save_current. exact W1.
  - unfold FaceDatabase.clearDatabase. apply PersistFacts.save_current.
    apply StoreFacts.clearDatabase_well_formed.
  - intros newName. unfold FaceDatabase.removeFace.
    destruct (FaceRecognitionService.removeKnownFace now newName _) as [[|] s];
      cbn [fst snd]; [discriminate|reflexivity].
  - intros newName. unfold FaceDatabase.addTrainingSample.
    rewrite StoreFacts.addKnownFace_failed. reflexivity.
Qed.

Lemma storage_current_witness :
  Persist.current Hosts.silent 4%Z
    (FaceDatabase.clearDatabase Hosts.silent 4%Z tie_database).
Proof.
  exact (proj1 (proj2 (proj2 (proj2
           (storage_current Hosts.silent 4%Z tie_database tie_database_ok))))).
Defined.

(** The export of a database over a well-formed service never throws:
    it is the serialised document that lists, in the order of the
    service, one element per identity, with the counter and the time
    stamp of the service and the time of the export; exporting changes
    neither the service nor the stored item. *)
Theorem exportDatabase_document (h : Host) (now : Date) (d : FaceDatabase.t) :
  TrainingCount.service_ok d ->
  let s := FaceDatabase.faceRecognitionService d in
  let r := FaceDatabase.exportDatabase h now d in
  fst r
  = Ok (JSON_stringify h
          (JObj [("faces",
                  JArr (map (RoundTrip.faceDocument h)
                            (FaceRecognitionService.getKnownFaces s)));
                 ("totalDescriptors",
                  JNum (IZR (totalDescriptors
                               (FaceRecognitionService.faceDatabase s))));
                 ("lastUpdated",
                  JStr (toISOString h
                          (lastUpdated (FaceRecognitionService.faceDatabase s))));
                 ("exportedAt", JStr (toISOString h now))]))
  /\ FaceDatabase.faceRecognitionService (snd r) = s
  /\ FaceDatabase.localStorage (snd r) = FaceDatabase.localStorage d.
Proof.
  intros [_ K]. cbv zeta. unfold FaceDatabase.exportDatabase, FaceDatabase.exportData.
  rewrite (SyncFacts.sync_view d K), RoundTripFacts.export_mirror.
  repeat split.
Qed.

Lemma exportDatabase_document_witness :
  FaceDatabase.faceRecognitionService
    (snd (FaceDatabase.exportDatabase Hosts.silent 1%Z tie_database))
  = FaceDatabase.faceRecognitionService tie_database.
Proof.
  exact (proj1 (proj2 (exportDatabase_document Hosts.silent 1%Z tie_database
                         tie_database_ok))).
Defined.

(* ================================================================== *)
(** * Further properties: importing and loading *)
(* ================================================================== *)

Module ImportFacts.
Import FaceDatabase.

Lemma name_of_non_null (h : Host) (faceData : json) :
  faceData <> JNull -> exists v, Json.prop h faceData "name" = Ok v.
Proof.
  intros N. destruct faceData; try (eexists; reflexivity). congruence.
Qed.

(** Without a [null] among the elements the loop runs to its end and
    counts the elements it could build a face from. *)
Lemma importFaces_counts (h : Host) (items : list json) :
  ~ In JNull items ->
  forall v n m,
    exists v',
      importFaces h items v n m
      = (Ok (n + length (filter (Persist.imports h) items),
             m + Persist.importedDescriptors h items), v').
Proof.
  induction items as [|x items IH]; intros N v n m.
  - exists v. simpl. now rewrite !Nat.add_0_r.
  - assert (Nx : x <> JNull) by (intros E; apply N; now left).
    assert (Ni : ~ In JNull items) by (intros I; apply N; now right).
    cbn [importFaces filter Persist.importedDescriptors].
    unfold Persist.imports at 1.
    destruct (importFace h x) as [face|e].
    + destruct (IH Ni {| vfaces := JsMap.set Json.sameValueZero (vfaces v)
                                            (vid face) face;
                         vtotalDescriptors := vtotalDescriptors v;
                         vlastUpdated := vlastUpdated v |}
                   (S n) (m + length (vdescriptors face))) as (v' & ->).
      exists v'. cbn [length]. do 2 f_equal. f_equal; lia.
    + destruct (name_of_non_null h x Nx) as (nm & ->).
      exact (IH Ni v n m).
Qed.

(** The first [null] among the elements ends the loop with the error
    of reading its [name]. *)
Lemma importFaces_null (h : Host) (pre post : list json) :
  ~ In JNull pre ->
  forall v n m,
    exists v',
      importFaces h (pre ++ JNull :: post) v n m
      = (Throw (TypeError (nullPropertyMessage h "name")), v').
Proof.
  induction pre as [|x pre IH]; intros N v n m.
  - exists v. reflexivity.
  - assert (Nx : x <> JNull) by (intros E; apply N; now left).
    assert (Ni : ~ In JNull pre) by (intros I; apply N; now right).
    rewrite <- app_comm_cons. cbn [importFaces].
    destruct (importFace h x) as [face|e].
    + apply (IH Ni).
    + destruct (name_of_non_null h x Nx) as (nm & ->). apply (IH Ni).
Qed.

Lemma first_null (items : list json) :
  In JNull items ->
  exists pre post, items = pre ++ JNull :: post /\ ~ In JNull pre.
Proof.
  induction items as [|x items IH]; intros I; [destruct I|].
  assert (D : x = JNull \/ x <> JNull)
    by (destruct x; (now left) || (right; discriminate)).
  destruct D as [->|Nx].
  - exists [], items. split; [reflexivity|intros []].
  - destruct I as [E|I]; [congruence|].
    destruct (IH I) as (pre & post & -> & N).
    exists (x :: pre), post. split; [reflexivity|].
    intros [E|J]; [congruence|exact (N J)].
Qed.

(** Past the format test, whatever the elements are, the recognition
    service ends up empty. *)
Lemma import_reaches (h : Host) (now : Date) (jsonData : string) (d : t)
    (members : list (string * json)) (items : list json) :
  JSON_parse h jsonData = Ok (JObj members) ->
  Json.lookup members "faces" = Some (JArr items) ->
  importDatabase h now jsonData d
  = match importFaces h items (database (clearDatabase h now d)) 0 0 with
    | (Throw e, v) => (importFailed e, with_database (clearDatabase h now d) v)
    | (Ok (facesImported, descriptorsImported), v) =>
        ({| ImportOutcome.success := true;
            ImportOutcome.facesImported := facesImported;
            ImportOutcome.descriptorsImported := descriptorsImported;
            ImportOutcome.message :=
              "Successfully imported " ++ JsString.of_nat facesImported
              ++ " faces with " ++ JsString.of_nat descriptorsImported
              ++ " descriptors" |},
         saveToStorage h now
           (syncToRecognitionService now
              (with_database (clearDatabase h now d)
                 {| vfaces := vfaces v;
                    vtotalDescriptors := Z.of_nat descriptorsImported;
                    vlastUpdated := now |})))
    end.
Proof.
  intros P L. unfold importDatabase. rewrite P. simpl Json.prop. rewrite L.
  reflexivity.
Qed.

Lemma import_empties (h : Host) (now : Date) (jsonData : string) (d : t)
    (members : list (string * json)) (items : list json) :
  JSON_parse h jsonData = Ok (JObj members) ->
  Json.lookup members "faces" = Some (JArr items) ->
  faces (FaceRecognitionService.faceDatabase
           (faceRecognitionService (snd (importDatabase h now jsonData d)))) = [].
Proof.
  intros P L. rewrite (import_reaches h now jsonData d members items P L).
  destruct (importFaces h items _ 0 0) as [[[n m]|e] v]; cbn [snd].
  - rewrite (proj2 (TrainingFacts.saveToStorage_same h now _)). reflexivity.
  - unfold clearDatabase.
    cbn [with_database faceRecognitionService].
    rewrite (proj2 (TrainingFacts.saveToStorage_same h now _)). reflexivity.
Qed.

End ImportFacts.

(** The import of a document whose [faces] member is an array: the
    recognition service ends up without any identity in every case, so
    nothing is listed afterwards.  When no element is [null] the import
    reports success and counts the elements a face could be built from
    and their descriptors, skipping the others; when an element is
    [null] the import reports the failure of reading its [name], with
    both counts 0, whatever came before it. *)
Theorem importDatabase_elements (h : Host) (now : Date) (jsonData : string)
    (d : FaceDatabase.t) (members : list (string * json)) (items : list json) :
  JSON_parse h jsonData = Ok (JObj members) ->
  Json.lookup members "faces" = Some (JArr items) ->
  let r := FaceDatabase.importDatabase h now jsonData d in
  FaceRecognitionService.getKnownFaces
    (FaceDatabase.faceRecognitionService (snd r)) = []
  /\ fst (FaceDatabase.getKnownFaces (snd r)) = []
  /\ (~ In JNull items ->
      FaceDatabase.ImportOutcome.success (fst r) = true
      /\ FaceDatabase.ImportOutcome.facesImported (fst r)
         = length (filter (Persist.imports h) items)
      /\ FaceDatabase.ImportOutcome.descriptorsImported (fst r)
         = Persist.importedDescriptors h items
      /\ FaceDatabase.ImportOutcome.facesImported (fst r) <= length items)
  /\ (In JNull items ->
      fst r = FaceDatabase.importFailed
                (TypeError (nullPropertyMessage h "name"))).
Proof.
  intros P L. cbv zeta.
  pose proof (ImportFacts.import_empties h now jsonData d members items P L) as E.
  split; [unfold FaceRecognitionService.getKnownFaces; now rewrite E|].
  split; [exact (proj2 (proj2 (RoundTripFacts.empty_service_reads _ E)))|].
  rewrite (ImportFacts.import_reaches h now jsonData d members items P L).
  split.
  - intros N.
    destruct (ImportFacts.importFaces_counts h items N
                (FaceDatabase.database (FaceDatabase.clearDatabase h now d)) 0 0)
      as (v' & ->).
    cbn [fst FaceDatabase.ImportOutcome.success
         FaceDatabase.ImportOutcome.facesImported
         FaceDatabase.ImportOutcome.descriptorsImported Nat.add].
    repeat split. apply filter_length_le.
  - intros I. destruct (ImportFacts.first_null items I) as (pre & post & -> & N).
    destruct (ImportFacts.importFaces_null h pre post N
                (FaceDatabase.database (FaceDatabase.clearDatabase h now d)) 0 0)
      as (v' & ->).
    reflexivity.
Qed.

Lemma importDatabase_elements_witness :
  FaceRecognitionService.getKnownFaces
    (FaceDatabase.faceRecognitionService
       (snd (FaceDatabase.importDatabase tie_host 3%Z "tie_document" tie_database)))
  = [].
Proof.
  refine (proj1 (importDatabase_elements tie_host 3%Z "tie_document" tie_database
                   _ _ eq_refl eq_refl)).
Defined.

(** Constructing a database object over a storage: without an item,
    with an empty item or with an item that does not parse, the
    recognition service handed in is kept as it is; with an item that
    parses to a document holding an array of faces, the recognition
    service is cleared and nothing of the document reaches it, so the
    new object lists no face. *)
Theorem constructor_loads (h : Host) (now : Date)
    (s : FaceRecognitionService.t) :
  FaceDatabase.constructor h now s None
  = FaceDatabase.mk (mkView [] 0%Z now) s None
  /\ FaceDatabase.constructor h now s (Some EmptyString)
     = FaceDatabase.mk (mkView [] 0%Z now) s (Some EmptyString)
  /\ (forall text e,
         JSON_parse h text = Throw e ->
         FaceDatabase.constructor h now s (Some text)
         = FaceDatabase.mk (mkView [] 0%Z now) s (Some text))
  /\ (forall text members items,
         text <> EmptyString ->
         JSON_parse h text = Ok (JObj members) ->
         Json.lookup members "faces" = Some (JArr items) ->
         let d := FaceDatabase.constructor h now s (Some text) in
         FaceRecognitionService.getKnownFaces
           (FaceDatabase.faceRecognitionService d) = []
         /\ fst (FaceDatabase.getKnownFaces d) = []
         /\ FaceRecognitionService.getConfiguration
              (FaceDatabase.faceRecognitionService d)
            = FaceRecognitionService.getConfiguration s).
Proof.
  split; [reflexivity|]. split; [reflexivity|]. split.
  - intros text e P. unfold FaceDatabase.constructor, FaceDatabase.loadFromStorage.
    cbn [FaceDatabase.localStorage].
    destruct (String.eqb text EmptyString) eqn:T.
    + apply String.eqb_eq in T. now subst text.
    + unfold FaceDatabase.importDatabase. rewrite P. reflexivity.
  - intros text members items N P L. cbv zeta.
    unfold FaceDatabase.constructor, FaceDatabase.loadFromStorage.
    cbn [FaceDatabase.localStorage].
    destruct (String.eqb text EmptyString) eqn:T;
      [apply String.eqb_eq in T; contradiction|].
    set (d0 := FaceDatabase.mk _ s (Some text)).
    pose proof (ImportFacts.import_empties h now text d0 members items P L) as E.
    split; [unfold FaceRecognitionService.getKnownFaces; now rewrite E|].
    split; [exact (proj2 (proj2 (RoundTripFacts.empty_service_reads _ E)))|].
    rewrite (ImportFacts.import_reaches h now text d0 members items P L).
    destruct (FaceDatabase.importFaces h items _ 0 0) as [[[n m]|e] v]; cbn [snd].
    + rewrite (proj2 (TrainingFacts.saveToStorage_same h now _)). reflexivity.
    + unfold FaceDatabase.clearDatabase.
      cbn [FaceDatabase.with_database FaceDatabase.faceRecognitionService].
      rewrite (proj2 (TrainingFacts.saveToStorage_same h now _)). reflexivity.
Qed.

Lemma constructor_loads_witness :
  fst (FaceDatabase.getKnownFaces
         (FaceDatabase.constructor tie_host 3%Z tie_store (Some "tie_document")))
  = [].
Proof.
  refine (proj1 (proj2 (proj2 (proj2 (proj2
            (constructor_loads tie_host 3%Z tie_store)))
            "tie_document" _ _ _ eq_refl eq_refl))).
  discriminate.
Defined.

(* ================================================================== *)
(** * Further properties: the choice of the detection *)
(* ================================================================== *)

Module ExtractionFacts.
Import FaceExtraction.
Local Open Scope R_scope.

(** The boxes meet in a region of positive area. *)
Lemma overlap_cases (box1 box2 : BoundingBox) :
  calculateBoundingBoxOverlap box1 box2 = 0
  \/ (Rmax (x box1) (x box2) < Rmin (x box1 + width box1) (x box2 + width box2)
      /\ Rmax (y box1) (y box2) < Rmin (y box1 + height box1) (y box2 + height box2)
      /\ calculateBoundingBoxOverlap box1 box2
         = (Rmin (x box1 + width box1) (x box2 + width box2)
            - Rmax (x box1) (x box2))
           * (Rmin (y box1 + height box1) (y box2 + height box2)
              - Rmax (y box1) (y box2))
           / (width box1 * height box1 + width box2 * height box2
              - (Rmin (x box1 + width box1) (x box2 + width box2)
                 - Rmax (x box1) (x box2))
                * (Rmin (y box1 + height box1) (y box2 + height box2)
                   - Rmax (y box1) (y box2)))).
Proof.
  unfold calculateBoundingBoxOverlap. cbv zeta.
  destruct (Num.leb (Rmin (x box1 + width box1) (x box2 + width box2)) _) eqn:A;
    [now left|].
  destruct (Num.leb (Rmin (y box1 + height box1) (y box2 + height box2)) _) eqn:B;
    [now left|].
  right. apply NumFacts.leb_false in A, B. simpl. auto.
Qed.

Lemma overlap_apart (box1 box2 : BoundingBox) :
  x box1 + width box1 <= x box2 \/ y box1 + height box1 <= y box2 ->
  calculateBoundingBoxOverlap box1 box2 = 0.
Proof.
  intros D. destruct (overlap_cases box1 box2) as [E|(A & B & _)]; [exact E|].
  pose proof (Rmax_r (x box1) (x box2)).
  pose proof (Rmax_r (y box1) (y box2)).
  pose proof (Rmin_l (x box1 + width box1) (x box2 + width box2)).
  pose proof (Rmin_l (y box1 + height box1) (y box2 + height box2)).
  destruct D; lra.
Qed.

Lemma overlap_self (b : BoundingBox) :
  0 < width b -> 0 < height b -> calculateBoundingBoxOverlap b b = 1.
Proof.
  destruct b as [xa ya wa ha]. simpl. intros W H.
  unfold calculateBoundingBoxOverlap. simpl.
  unfold Rmax, Rmin.
  destruct (Rle_dec xa xa); [|lra]. destruct (Rle_dec ya ya); [|lra].
  destruct (Rle_dec (xa + wa) (xa + wa)); [|lra].
  destruct (Rle_dec (ya + ha) (ya + ha)); [|lra].
  assert (A : Num.leb (xa + wa) xa = false) by (apply NumFacts.leb_false; lra).
  assert (B : Num.leb (ya + ha) ya = false) by (apply NumFacts.leb_false; lra).
  rewrite A, B. simpl.
  assert (P : 0 < wa * ha) by (apply Rmult_lt_0_compat; assumption).
  field. nra.
Qed.

Lemma better_fold (boundingBox : BoundingBox) (l : list DetectedFace) :
  forall (b0 : DetectedFace) (o0 : R),
    let r := fold_left (better boundingBox) l (b0, o0) in
    (forall f, In f l ->
               calculateBoundingBoxOverlap boundingBox (box f) <= snd r)
    /\ o0 <= snd r
    /\ (r = (b0, o0)
        \/ (In (fst r) l
            /\ snd r = calculateBoundingBoxOverlap boundingBox (box (fst r))
            /\ o0 < snd r)).
Proof.
  induction l as [|f l IH]; intros b0 o0; cbn [fold_left].
  - cbv zeta. split; [intros f []|]. split; [simpl; lra|now left].
  - cbv zeta.
    assert (B : better boundingBox (b0, o0) f
                = if Num.ltb o0 (calculateBoundingBoxOverlap boundingBox (box f))
                  then (f, calculateBoundingBoxOverlap boundingBox (box f))
                  else (b0, o0)) by reflexivity.
    rewrite B. clear B.
    destruct (Num.ltb o0 _) eqn:T.
    + apply NumFacts.ltb_true in T.
      destruct (IH f (calculateBoundingBoxOverlap boundingBox (box f)))
        as (Hall & Hge & Hr). cbv zeta in Hall, Hge, Hr.
      split; [intros g [<-|I]; [exact Hge|exact (Hall g I)]|].
      split; [lra|]. right.
      destruct Hr as [->|(I & E & L)].
      * cbn [fst snd]. split; [now left|]. split; [reflexivity|exact T].
      * split; [now right|]. split; [exact E|lra].
    + apply NumFacts.ltb_false in T.
      destruct (IH b0 o0) as (Hall & Hge & Hr). cbv zeta in Hall, Hge, Hr.
      split; [intros g [<-|I]; [lra|exact (Hall g I)]|].
      split; [exact Hge|].
      destruct Hr as [E|(I & E & L)]; [now left|].
      right. split; [now right|]. split; [exact E|exact L].
Qed.

End ExtractionFacts.

(** The overlap of two boxes is the same in both orders, and it is 0
    whenever the boxes do not meet in a region of positive area: when
    one of them ends at or before the start of the other along either
    axis, or has a side that is not positive. *)
Theorem calculateBoundingBoxOverlap_symmetric
    (box1 box2 : FaceExtraction.BoundingBox) :
  FaceExtraction.calculateBoundingBoxOverlap box1 box2
  = FaceExtraction.calculateBoundingBoxOverlap box2 box1
  /\ ((FaceExtraction.x box1 + FaceExtraction.width box1 <= FaceExtraction.x box2
       \/ FaceExtraction.x box2 + FaceExtraction.width box2 <= FaceExtraction.x box1
       \/ FaceExtraction.y box1 + FaceExtraction.height box1 <= FaceExtraction.y box2
       \/ FaceExtraction.y box2 + FaceExtraction.height box2 <= FaceExtraction.y box1
       \/ FaceExtraction.width box1 <= 0
       \/ FaceExtraction.width box2 <= 0
       \/ FaceExtraction.height box1 <= 0
       \/ FaceExtraction.height box2 <= 0)%R ->
      FaceExtraction.calculateBoundingBoxOverlap box1 box2 = 0%R).
Proof.
  split.
  - destruct box1 as [xa ya wa ha], box2 as [xb yb wb hb].
    unfold FaceExtraction.calculateBoundingBoxOverlap. simpl.
    rewrite (Rmax_comm xb xa), (Rmax_comm yb ya),
      (Rmin_comm (xb + wb) (xa + wa)), (Rmin_comm (yb + hb) (ya + ha)).
    destruct (_ || _); [reflexivity|]. f_equal. ring.
  - intros D.
    destruct (ExtractionFacts.overlap_cases box1 box2) as [E|(A & B & _)];
      [exact E|].
    pose proof (Rmax_l (FaceExtraction.x box1) (FaceExtraction.x box2)).
    pose proof (Rmax_r (FaceExtraction.x box1) (FaceExtraction.x box2)).
    pose proof (Rmax_l (FaceExtraction.y box1) (FaceExtraction.y box2)).
    pose proof (Rmax_r (FaceExtraction.y box1) (FaceExtraction.y box2)).
    pose proof (Rmin_l (FaceExtraction.x box1 + FaceExtraction.width box1)
                       (FaceExtraction.x box2 + FaceExtraction.width box2)).
    pose proof (Rmin_r (FaceExtraction.x box1 + FaceExtraction.width box1)
                       (FaceExtraction.x box2 + FaceExtraction.width box2)).
    pose proof (Rmin_l (FaceExtraction.y box1 + FaceExtraction.height box1)
                       (FaceExtraction.y box2 + FaceExtraction.height box2)).
    pose proof (Rmin_r (FaceExtraction.y box1 + FaceExtraction.height box1)
                       (FaceExtraction.y box2 + FaceExtraction.height box2)).
    repeat (destruct D as [D|D]; [lra|]). lra.
Qed.

Lemma calculateBoundingBoxOverlap_symmetric_witness :
  FaceExtraction.calculateBoundingBoxOverlap
    (FaceExtraction.mkBox 10 20 100 50) (FaceExtraction.mkBox 500 500 10 10)
  = 0%R.
Proof.
  refine (proj2 (calculateBoundingBoxOverlap_symmetric
                   (FaceExtraction.mkBox 10 20 100 50)
                   (FaceExtraction.mkBox 500 500 10 10)) _).
  left. simpl. lra.
Defined.

(** [extractFaceDescriptor] answers with the descriptor of a detection
    whose overlap with the given box is above one half and is the
    largest among all detections; it answers with nothing when the
    detector throws, when it finds no face, when no detection overlaps
    by more than one half, or when the detection of largest overlap
    carries no descriptor. *)
Theorem extractFaceDescriptor_best
    (detections : result (list FaceExtraction.DetectedFace))
    (boundingBox : FaceExtraction.BoundingBox) :
  let overlap (f : FaceExtraction.DetectedFace) :=
    FaceExtraction.calculateBoundingBoxOverlap boundingBox (FaceExtraction.box f) in
  match FaceExtraction.extractFaceDescriptor detections boundingBox with
  | Some d =>
      exists l face,
        detections = Ok l
        /\ In face l
        /\ FaceExtraction.descriptor face = Some d
        /\ (0.5 < overlap face)%R
        /\ forall f, In f l -> (overlap f <= overlap face)%R
  | None =>
      (exists e, detections = Throw e)
      \/ detections = Ok []
      \/ exists l,
          detections = Ok l
          /\ ((forall f, In f l -> (overlap f <= 0.5)%R)
              \/ exists face,
                  In face l
                  /\ FaceExtraction.descriptor face = None
                  /\ (0.5 < overlap face)%R
                  /\ forall f, In f l -> (overlap f <= overlap face)%R)
  end.
Proof.
  cbv zeta. destruct detections as [[|first rest]|e]; simpl.
  - right. now left.
  - pose proof (ExtractionFacts.better_fold boundingBox (first :: rest) first 0)
      as (Hall & Hge & Hr).
    cbv zeta in Hall, Hge, Hr. cbn [fold_left] in Hall, Hge, Hr.
    destruct (fold_left _ rest _) as [bestMatch bestOverlap].
    cbn [fst snd] in *.
    destruct (Num.ltb 0.5 bestOverlap) eqn:T.
    + apply NumFacts.ltb_true in T.
      destruct Hr as [E|(I & E & L)]; [injection E as _ E; lra|].
      destruct (FaceExtraction.descriptor bestMatch) as [d|] eqn:D.
      * exists (first :: rest), bestMatch.
        split; [reflexivity|]. split; [exact I|]. split; [exact D|].
        rewrite <- E. split; [exact T|exact Hall].
      * right. right. exists (first :: rest). split; [reflexivity|].
        right. exists bestMatch. rewrite <- E. auto.
    + apply NumFacts.ltb_false in T.
      right. right. exists (first :: rest). split; [reflexivity|].
      left. intros f I. specialize (Hall f I). lra.
  - left. now exists e.
Qed.

Example extractFaceDescriptor_same_box :
  let b := FaceExtraction.mkBox 10 20 100 50 in
  FaceExtraction.extractFaceDescriptor
    (Ok [FaceExtraction.mkDetected (FaceExtraction.mkBox 500 500 10 10) (Some [9%R]);
         FaceExtraction.mkDetected b (Some [1%R; 2%R])]) b
  = Some [1%R; 2%R].
Proof.
  cbv zeta.
  pose proof (ExtractionFacts.overlap_apart (FaceExtraction.mkBox 10 20 100 50)
                (FaceExtraction.mkBox 500 500 10 10)) as Z.
  pose proof (ExtractionFacts.overlap_self (FaceExtraction.mkBox 10 20 100 50)) as O.
  simpl in Z, O.
  unfold FaceExtraction.extractFaceDescriptor. cbn [fold_left].
  unfold FaceExtraction.better. cbn [snd FaceExtraction.box].
  rewrite Z by (left; lra). rewrite O by lra.
  assert (A : Num.ltb 0 0 = false) by (apply NumFacts.ltb_false; lra).
  assert (B : Num.ltb 0 1 = true) by (apply NumFacts.ltb_true; lra).
  assert (C : Num.ltb 0.5 1 = true) by (apply NumFacts.ltb_true; lra).
  rewrite A. cbn [snd]. rewrite B, C. reflexivity.
Qed.

Lemma extractFaceDescriptor_poor
    (detections : result (list FaceExtraction.DetectedFace))
    (boundingBox : FaceExtraction.BoundingBox) :
  Frame.poor detections boundingBox ->
  FaceExtraction.extractFaceDescriptor detections boundingBox = None.
Proof.
  intros P. destruct detections as [[|first rest]|e]; try reflexivity.
  simpl in P. unfold FaceExtraction.extractFaceDescriptor.
  pose proof (ExtractionFacts.better_fold boundingBox (first :: rest) first 0)
    as (Hall & Hge & Hr).
  cbv zeta in Hall, Hge, Hr.
  destruct (fold_left _ (first :: rest) _) as [bestMatch bestOverlap].
  cbn [fst snd] in *.
  assert (T : Num.ltb 0.5 bestOverlap = false).
  { apply NumFacts.ltb_false.
    destruct Hr as [E|(I & E & _)].
    - injection E as _ ->. lra.
    - rewrite E. apply P. exact I. }
  rewrite T. reflexivity.
Qed.

(** A frame without a usable face changes nothing: when the detector
    throws, or no detected face overlaps the given box by more than one
    half, no descriptor is extracted, so [addKnownFace] returns false
    and leaves the service as it was, [recognizeFace] reports no match
    with confidence 0, and [addTrainingSample] returns false and leaves
    the database object as it was. *)
Theorem poor_frame_rejected (h : Host) (now : Date) (newName : string)
    (detections : result (list FaceExtraction.DetectedFace))
    (boundingBox : FaceExtraction.BoundingBox) (d : FaceDatabase.t) :
  Frame.poor detections boundingBox ->
  let extracted := FaceExtraction.extractFaceDescriptor detections boundingBox in
  let s := FaceDatabase.faceRecognitionService d in
  FaceRecognitionService.addKnownFace now newName extracted s = (false, s)
  /\ FaceRecognitionService.recognizeFace s extracted = Thresholds.unmatched
  /\ FaceDatabase.addTrainingSample h now newName extracted d = (false, d).
Proof.
  intros P. cbv zeta. rewrite (extractFaceDescriptor_poor _ _ P).
  split; [reflexivity|]. split; [reflexivity|].
  unfold FaceDatabase.addTrainingSample.
  rewrite StoreFacts.addKnownFace_failed.
  now rewrite TrainingMore.with_service_same.
Qed.

Lemma poor_frame_rejected_witness :
  FaceRecognitionService.addKnownFace 1%Z "Amy"
    (FaceExtraction.extractFaceDescriptor
       (Ok [FaceExtraction.mkDetected (FaceExtraction.mkBox 500 500 10 10)
              (Some [1%R; 0%R])])
       (FaceExtraction.mkBox 10 20 100 50))
    (FaceDatabase.faceRecognitionService tie_database)
  = (false, FaceDatabase.faceRecognitionService tie_database).
Proof.
  refine (proj1 (poor_frame_rejected Hosts.silent 1%Z "Amy" _ _ tie_database _)).
  intros f [<-|[]]. simpl.
  rewrite ExtractionFacts.overlap_apart; [lra|]. simpl. left. lra.
Defined.

(* ================================================================== *)
(** * Further properties: the normalised identifiers *)
(* ================================================================== *)

Module NamesFacts.
Import JsString.

Lemma lower_char_idempotent (c : ascii) : lower_char (lower_char c) = lower_char c.
Proof.
  destruct c as [[] [] [] [] [] [] [] []]; reflexivity.
Qed.

Lemma toLowerCase_idempotent (s : string) :
  toLowerCase (toLowerCase s) = toLowerCase s.
Proof.
  induction s as [|c s IH]; simpl; [reflexivity|].
  now rewrite lower_char_idempotent, IH.
Qed.

Lemma strip_length (s : string) :
  String.length (strip_non_id s) <= String.length s.
Proof.
  induction s as [|c s IH]; simpl; [lia|].
  destruct (is_id_char c); simpl; lia.
Qed.

Lemma collapse_length (s : string) (b : bool) :
  String.length (collapse_spaces b s) <= String.length s.
Proof.
  revert b. induction s as [|c s IH]; intros b; simpl; [lia|].
  pose proof (IH true). pose proof (IH false).
  destruct (is_space c); [destruct b|]; simpl; lia.
Qed.

Lemma lower_length (s : string) :
  String.length (toLowerCase s) = String.length s.
Proof.
  induction s as [|c s IH]; simpl; [reflexivity|]. now rewrite IH.
Qed.

Lemma dropped_empty (s : string) (b : bool) :
  Names.all_dropped s = true ->
  strip_non_id (collapse_spaces b (toLowerCase s)) = EmptyString.
Proof.
  revert b. induction s as [|c s IH]; intros b H; simpl; [reflexivity|].
  simpl in H. apply andb_true_iff in H as [D A].
  unfold Names.dropped in D. apply andb_true_iff in D as [D1 D2].
  apply negb_true_iff in D1, D2. rewrite D2. simpl. rewrite D1.
  now apply IH.
Qed.

End NamesFacts.

(** The identifier of a name ignores the case of its letters and is
    never longer than the name; a name made only of code units that are
    dropped (no letter, digit, underscore or white space) has the empty
    identifier, so all such names share one identity. *)
Theorem generateFaceId_ignores (s : string) :
  FaceRecognitionService.generateFaceId (JsString.toLowerCase s)
  = FaceRecognitionService.generateFaceId s
  /\ String.length (FaceRecognitionService.generateFaceId s) <= String.length s
  /\ (Names.all_dropped s = true ->
      FaceRecognitionService.generateFaceId s = EmptyString).
Proof.
  unfold FaceRecognitionService.generateFaceId. split; [|split].
  - now rewrite NamesFacts.toLowerCase_idempotent.
  - etransitivity; [apply NamesFacts.strip_length|].
    etransitivity; [apply NamesFacts.collapse_length|].
    now rewrite NamesFacts.lower_length.
  - apply NamesFacts.dropped_empty.
Qed.

Lemma generateFaceId_ignores_witness :
  FaceRecognitionService.generateFaceId "?!" = EmptyString.
Proof.
  exact (proj2 (proj2 (generateFaceId_ignores "?!")) eq_refl).
Defined.

Example generateFaceId_symbols :
  FaceRecognitionService.generateFaceId "?!" = EmptyString
  /\ FaceRecognitionService.generateFaceId "#1" = "1".
Proof. split; reflexivity. Qed.

(* ================================================================== *)
(** * Runs in double arithmetic *)
(* ================================================================== *)

(** Where the doubles of the code leave the exact values: the overlap
    of a box with itself can pass 1, and the average of the statistics
    can round a mean down that the exact product rounds up, and pass
    the distance 0.005 from the mean. *)
Module DoubleRounding.
Import Stdlib.Floats.Floats.
Local Open Scope float_scope.

Example calculateBoundingBoxOverlap_above_one :
  let b := Double.mkBox 100.3 100.7 150.2 150.9 in
  (1 <? Double.calculateBoundingBoxOverlap b b) = true
  /\ Double.calculateBoundingBoxOverlap b b = 1 + 0x1p-52.
Proof. split; reflexivity. Qed.

Example averageDescriptorsPerFace_41_over_40 :
  Double.averageDescriptorsPerFace 41 40 = 1.02
  /\ (41 / 40 * 100 <? 102.5) = true.
Proof. split; reflexivity. Qed.

Example averageDescriptorsPerFace_65_over_8 :
  (0.005 <? Double.averageDescriptorsPerFace 65 8 - 65 / 8) = true
  /\ (Double.averageDescriptorsPerFace 65 8 - 65 / 8 <? 0.01) = true.
Proof. split; reflexivity. Qed.

End DoubleRounding.
